(** * Candidate ranking engine (backend/services/ranking_system.py)

    A shallow embedding of [RankingSystem] and of the Python operations it
    relies on, followed by the properties of the ranking engine, of the
    personality analyzer, of the CV parser and of the request handlers.

    Modelling conventions.
    - A Python [str] is a [string] of bytes: ASCII text, a character
      beyond ASCII being its UTF-8 bytes.  Equality of strings is exact.
      [lower], [strip] and [split] know the letters and the blanks of
      ASCII only: what is stated on the keyword fields is stated on ASCII
      text.  A nullable text column is an [option string].
    - Numbers are read in two layers.  In the finite layer a number is a
      real: a numeral of a document is the rational it denotes ([json],
      [Json.loads]), the scores are in [R], and rounding and overflow are
      left out.  In the layer of doubles ([Float64]) an [int] is an
      integer of any size and a [float] is a binary64 of IEEE 754, with
      rounding, infinities, NaN and the OverflowError of the arithmetic.
      The personality factor is embedded in both layers; what is stated
      on NaN, on the infinities and on overflow is stated in the second.
    - A Python call either returns or raises: [result A]. *)

From Stdlib Require Import String Ascii List Bool Arith NArith ZArith QArith.
From Stdlib Require Import Reals Lra Lia Permutation Sorted Qreals.
From Stdlib Require Import Qminmax SpecFloat.
Import ListNotations.

Local Open Scope string_scope.
Local Open Scope list_scope.

(** ** Exceptions and the error monad *)

Inductive exn : Type :=
| AttributeError
| TypeError
| ZeroDivisionError
| ValueError
| OverflowError
| UnboundLocalError.

Inductive result (A : Type) : Type :=
| Ok (a : A)
| Raise (e : exn).

Arguments Ok {A} a.
Arguments Raise {A} e.

Definition bind {A B : Type} (m : result A) (k : A -> result B) : result B :=
  match m with
  | Ok a => k a
  | Raise e => Raise e
  end.

Notation "x <- m ;; k" := (bind m (fun x => k))
  (at level 61, m at next level, right associativity).

Definition returns {A : Type} (m : result A) : Prop := exists a, m = Ok a.

(** ** Python string operations *)

Module PyStr.

(** [str.lower] on ASCII letters. *)
Definition lower_char (c : ascii) : ascii :=
  let n := N_of_ascii c in
  if ((65 <=? n) && (n <=? 90))%N then ascii_of_N (n + 32) else c.

Fixpoint lower (s : string) : string :=
  match s with
  | EmptyString => EmptyString
  | String c s' => String (lower_char c) (lower s')
  end.

(** [str.isspace] on one ASCII character: tab, line feed, vertical tab,
    form feed, carriage return, the four separators 28..31 and space. *)
Definition is_space (c : ascii) : bool :=
  let n := N_of_ascii c in
  (((9 <=? n) && (n <=? 13)) || ((28 <=? n) && (n <=? 32)))%N.

Definition is_empty (s : string) : bool :=
  match s with
  | EmptyString => true
  | String _ _ => false
  end.

Fixpoint lstrip (s : string) : string :=
  match s with
  | EmptyString => EmptyString
  | String c s' => if is_space c then lstrip s' else s
  end.

Fixpoint rstrip (s : string) : string :=
  match s with
  | EmptyString => EmptyString
  | String c s' =>
      let r := rstrip s' in
      if is_space c && is_empty r then EmptyString else String c r
  end.

(** [s.strip()] *)
Definition strip (s : string) : string := rstrip (lstrip s).

(** Cut [s] at every character satisfying [sep]; empty pieces are kept,
    so the result is never the empty list. *)
Fixpoint split_by (sep : ascii -> bool) (s : string) : list string :=
  match s with
  | EmptyString => [EmptyString]
  | String c s' =>
      if sep c then EmptyString :: split_by sep s'
      else match split_by sep s' with
           | w :: ws => String c w :: ws
           | [] => [String c EmptyString]
           end
  end.

(** [s.split(',')] *)
Definition split_comma (s : string) : list string :=
  split_by (Ascii.eqb ","%char) s.

(** [s.split()]: runs of whitespace separate, no empty piece is kept. *)
Definition split (s : string) : list string :=
  filter (fun w => negb (is_empty w)) (split_by is_space s).

(** [needle in hay] on two strings: substring test. *)
Fixpoint contains (needle hay : string) : bool :=
  String.prefix needle hay ||
  match hay with
  | EmptyString => false
  | String _ hay' => contains needle hay'
  end.

(** [x in l] on a list of strings. *)
Definition mem (x : string) (l : list string) : bool :=
  existsb (String.eqb x) l.

End PyStr.

(** ** Records (backend/models/candidate.py, backend/models/job.py) *)

Record Candidate : Type := mkCandidate {
  cand_id : Z;
  name : string;
  email : string;
  phone : option string;
  skills : option string;
  experience : option string;
  education : option string;
  certifications : option string;
  interests : option string;
  personality_traits : option string;
  test_personality_traits : option string;
  cv_filename : option string
}.

Record Job : Type := mkJob {
  job_id : Z;
  title : string;
  description : option string;
  required_skills : option string;
  required_experience : option string;
  required_education : option string;
  required_certifications : option string;
  required_personality_traits : option string
}.

(** Truth value of a nullable text attribute: [None] and [""] are false. *)
Definition truthy (o : option string) : bool :=
  match o with
  | Some s => negb (PyStr.is_empty s)
  | None => false
  end.

(** Receiver of a [str] method call: calling it on [None] raises. *)
Definition as_str (o : option string) : result string :=
  match o with
  | Some s => Ok s
  | None => Raise AttributeError
  end.

(** [sum(1 for x in l if p x)] *)
Definition count_if {A : Type} (p : A -> bool) (l : list A) : nat :=
  list_sum (map (fun _ => 1%nat) (filter p l)).

(** [a / b] on two [int]s: true division. *)
Definition truediv (a b : nat) : result R :=
  if (b =? 0)%nat then Raise ZeroDivisionError else Ok (INR a / INR b)%R.

Definition is_nil {A : Type} (l : list A) : bool :=
  match l with
  | [] => true
  | _ :: _ => false
  end.

(** ** The four keyword factors *)

Definition normalize (item : string) : string := PyStr.lower (PyStr.strip item).

(** Lines 50-62. *)
Definition _calculate_skill_score (c : Candidate) (j : Job) : result R :=
  if negb (truthy (required_skills j)) || negb (truthy (skills c)) then Ok 0.5%R
  else
    rs <- as_str (required_skills j) ;;
    cs <- as_str (skills c) ;;
    let required := map normalize (PyStr.split_comma rs) in
    let candidate := map normalize (PyStr.split_comma cs) in
    if is_nil required then Ok 0.5%R
    else
      let match_count := count_if (fun skill => PyStr.mem skill candidate) required in
      truediv match_count (length required).

(** Lines 64-75. *)
Definition _calculate_experience_score (c : Candidate) (j : Job) : result R :=
  if negb (truthy (required_experience j)) || negb (truthy (experience c)) then Ok 0.5%R
  else
    rs <- as_str (required_experience j) ;;
    cs <- as_str (experience c) ;;
    let required_keywords := PyStr.split (PyStr.lower rs) in
    let candidate_experience_text := PyStr.lower cs in
    let match_count :=
      count_if (fun keyword => PyStr.contains keyword candidate_experience_text)
               required_keywords in
    if is_nil required_keywords then Ok 0.5%R
    else truediv match_count (length required_keywords).

(** Lines 77-86. *)
Definition _calculate_education_score (c : Candidate) (j : Job) : result R :=
  if negb (truthy (required_education j)) || negb (truthy (education c)) then Ok 0.5%R
  else
    rs <- as_str (required_education j) ;;
    cs <- as_str (education c) ;;
    let required_keywords := PyStr.split (PyStr.lower rs) in
    let candidate_education_text := PyStr.lower cs in
    let match_count :=
      count_if (fun keyword => PyStr.contains keyword candidate_education_text)
               required_keywords in
    if is_nil required_keywords then Ok 0.5%R
    else truediv match_count (length required_keywords).

(** Lines 88-100. *)
Definition _calculate_certification_score (c : Candidate) (j : Job) : result R :=
  if negb (truthy (required_certifications j)) || negb (truthy (certifications c))
  then Ok 0.5%R
  else
    rs <- as_str (required_certifications j) ;;
    cs <- as_str (certifications c) ;;
    let required_certs := map normalize (PyStr.split_comma rs) in
    let candidate_certs := map normalize (PyStr.split_comma cs) in
    if is_nil required_certs then Ok 0.5%R
    else
      let match_count := count_if (fun cert => PyStr.mem cert candidate_certs) required_certs in
      truediv match_count (length required_certs).

(** ** Decoded JSON documents and the Python operations on them *)

#[warnings="-register-all"]
Inductive json : Type :=
| JNull
| JBool (b : bool)
| JNum (q : Q)
| JStr (s : string)
| JArr (items : list json)
| JObj (members : list (string * json)).

Module PyObj.

(** [d.get(k, default)] on the members of a dict. *)
Fixpoint dict_get (d : list (string * json)) (k : string) (default : json) : json :=
  match d with
  | [] => default
  | (k', v) :: d' => if String.eqb k k' then v else dict_get d' k default
  end.

(** [d[k] = v]: an existing key keeps its place, a new key goes last. *)
Fixpoint dict_set (d : list (string * json)) (k : string) (v : json)
  : list (string * json) :=
  match d with
  | [] => [(k, v)]
  | (k', v') :: d' =>
      if String.eqb k k' then (k, v) :: d' else (k', v') :: dict_set d' k v
  end.

(** A numeral that [float] reads as zero: 0 itself, and every numeral of
    magnitude at most 2^-1075, half the least positive double, which the
    decoder rounds to 0.0. *)
Definition reads_as_zero (q : Q) : bool :=
  (Z.abs (Qnum q) * 2 ^ 1075 <=? Zpos (Qden q))%Z.

(** Truth value of an object ([not x] is its negation). *)
Definition truth (v : json) : bool :=
  match v with
  | JNull => false
  | JBool b => b
  | JNum q => negb (reads_as_zero q)
  | JStr s => negb (PyStr.is_empty s)
  | JArr l => negb (is_nil l)
  | JObj d => negb (is_nil d)
  end.

(** [for x in v]: the keys of a dict, the items of a list, the characters
    of a string; the other objects are not iterable. *)
Definition iter (v : json) : result (list json) :=
  match v with
  | JObj d => Ok (map (fun kv => JStr (fst kv)) d)
  | JArr l => Ok l
  | JStr s => Ok (map (fun c => JStr (String c EmptyString)) (list_ascii_of_string s))
  | JNull | JBool _ | JNum _ => Raise TypeError
  end.

(** [recv.get(key, default)]: only a dict has the method; a list or a
    dict is not hashable and cannot be a key. *)
Definition get (recv key default : json) : result json :=
  match recv with
  | JObj d =>
      match key with
      | JStr k => Ok (dict_get d k default)
      | JArr _ | JObj _ => Raise TypeError
      | JNull | JBool _ | JNum _ => Ok default
      end
  | _ => Raise AttributeError
  end.

(** Numeric value of an operand of [-]; [bool] is a subtype of [int]. *)
Definition number (v : json) : result R :=
  match v with
  | JNum q => Ok (Q2R q)
  | JBool b => Ok (if b then 1%R else 0%R)
  | JNull | JStr _ | JArr _ | JObj _ => Raise TypeError
  end.

(** [a - b] *)
Definition sub (a b : json) : result R :=
  x <- number a ;;
  y <- number b ;;
  Ok (x - y)%R.

(** [math.sqrt x] *)
Definition math_sqrt (x : R) : result R :=
  if Rlt_dec x 0 then Raise ValueError else Ok (sqrt x).

End PyObj.

(** [for x in l: s = body s x] *)
Fixpoint for_loop {A S : Type} (body : S -> A -> result S) (l : list A) (s : S)
  : result S :=
  match l with
  | [] => Ok s
  | x :: l' => s' <- body s x ;; for_loop body l' s'
  end.

(** ** The personality factor, the composite score and the ranking *)

Section Engine.

(** [json.loads] guarded by [try ... except:]: [None] when it raises. *)
Variable json_loads : string -> option json.

Definition loads_or_empty (s : string) : json :=
  match json_loads s with
  | Some v => v
  | None => JObj []
  end.

(** Lines 112-124: the candidate's trait source; [None] is the final
    [else: return 0.5]. *)
Definition select_candidate_traits (c : Candidate) : result (option json) :=
  if truthy (test_personality_traits c) then
    s <- as_str (test_personality_traits c) ;;
    Ok (Some (loads_or_empty s))
  else if truthy (personality_traits c) then
    s <- as_str (personality_traits c) ;;
    Ok (Some (loads_or_empty s))
  else Ok None.

(** Lines 130-134: one turn of the loop. *)
Definition distance_step (required_traits candidate_traits : json)
    (distance : R) (trait : json) : result R :=
  required_value <- PyObj.get required_traits trait (JNum 0.5) ;;
  candidate_value <- PyObj.get candidate_traits trait (JNum 0.5) ;;
  diff <- PyObj.sub required_value candidate_value ;;
  Ok (distance + diff ^ 2)%R.

Definition max_distance : R := sqrt 5.

(** Lines 102-143. *)
Definition _calculate_personality_score (c : Candidate) (j : Job) : result R :=
  if negb (truthy (required_personality_traits j)) then Ok 0.5%R
  else
    rs <- as_str (required_personality_traits j) ;;
    match json_loads rs with
    | None => Ok 0.5%R
    | Some required_traits =>
        selected <- select_candidate_traits c ;;
        match selected with
        | None => Ok 0.5%R
        | Some candidate_traits =>
            if negb (PyObj.truth required_traits) || negb (PyObj.truth candidate_traits)
            then Ok 0.5%R
            else
              traits <- PyObj.iter required_traits ;;
              distance <- for_loop (distance_step required_traits candidate_traits)
                                   traits 0%R ;;
              distance <- PyObj.math_sqrt distance ;;
              let similarity := (1 - distance / max_distance)%R in
              Ok similarity
        end
    end.

Definition skill_weight : R := 0.3.
Definition experience_weight : R := 0.2.
Definition education_weight : R := 0.1.
Definition certification_weight : R := 0.1.
Definition personality_weight : R := 0.3.

(** Lines 32-48. *)
Definition _calculate_candidate_score (c : Candidate) (j : Job) : result R :=
  skill_score <- _calculate_skill_score c j ;;
  experience_score <- _calculate_experience_score c j ;;
  education_score <- _calculate_education_score c j ;;
  certification_score <- _calculate_certification_score c j ;;
  personality_score <- _calculate_personality_score c j ;;
  let total_score :=
    (skill_score * skill_weight +
     experience_score * experience_weight +
     education_score * education_weight +
     certification_score * certification_weight +
     personality_score * personality_weight)%R in
  Ok total_score.

(** [l.sort(key=lambda x: x[1], reverse=True)]: the sort is stable, also
    under [reverse=True], so its result is the one of any stable sort by
    decreasing key; here insertion from the right, where an item goes in
    front of the first item whose key is not greater than its own. *)
Fixpoint insert_desc {A : Type} (x : A * R) (l : list (A * R)) : list (A * R) :=
  match l with
  | [] => [x]
  | y :: l' =>
      if Rlt_dec (snd x) (snd y) then y :: insert_desc x l' else x :: y :: l'
  end.

Fixpoint sort_desc {A : Type} (l : list (A * R)) : list (A * R) :=
  match l with
  | [] => []
  | x :: l' => insert_desc x (sort_desc l')
  end.

(** Lines 21-25: the scoring loop. *)
Fixpoint score_all (candidates : list Candidate) (j : Job)
  : result (list (Candidate * R)) :=
  match candidates with
  | [] => Ok []
  | candidate_obj :: rest =>
      score <- _calculate_candidate_score candidate_obj j ;;
      ranked <- score_all rest j ;;
      Ok ((candidate_obj, score) :: ranked)
  end.

(** Lines 15-30. *)
Definition rank_candidates (candidates : list Candidate) (job_profile : Job)
  : result (list (Candidate * R)) :=
  ranked_candidates <- score_all candidates job_profile ;;
  Ok (sort_desc ranked_candidates).

End Engine.

(** ** A decoder for [json.loads]

    The grammar the standard decoder reads: the four whitespace
    characters, the three literals, numerals, strings with the
    one-character escapes and the [\uXXXX] escape, arrays and objects (a
    repeated key keeps the last value).  A character beyond ASCII, written
    raw or escaped, is held as its UTF-8 bytes, a surrogate pair of
    escapes as the one character it denotes.

    [Json.loads] is the decoder of the finite layer: a numeral is read as
    the rational it denotes.  The constants [NaN], [Infinity] and
    [-Infinity], which [json.loads] accepts, have no value among the
    rationals: [Json.loads] gives [None] on a document that holds one, as
    on a malformed document, and such documents are read by
    [Float64.loads] below.  In [Json.loads] as in [Float64.loads], [None]
    is a decoding error. *)

Module Json.

Definition dquote : ascii := "034"%char.

(** A string literal of the document: [s] between double quotes. *)
Definition quoted (s : string) : string :=
  String dquote (s ++ String dquote EmptyString).

Definition is_ws (c : ascii) : bool :=
  let n := N_of_ascii c in
  ((n =? 32) || (n =? 9) || (n =? 10) || (n =? 13))%N.

Fixpoint skip_ws (s : string) : string :=
  match s with
  | EmptyString => EmptyString
  | String c s' => if is_ws c then skip_ws s' else s
  end.

Fixpoint strip_prefix (p s : string) : option string :=
  match p, s with
  | EmptyString, _ => Some s
  | String a p', String b s' => if Ascii.eqb a b then strip_prefix p' s' else None
  | String _ _, EmptyString => None
  end.

Definition digit_of (c : ascii) : option Z :=
  let n := N_of_ascii c in
  if ((48 <=? n) && (n <=? 57))%N then Some (Z.of_N (n - 48)) else None.

(** Reads a run of digits: its value after [acc], its length, the rest. *)
Fixpoint read_digits (s : string) (acc : Z) (count : nat) : Z * nat * string :=
  match s with
  | EmptyString => (acc, count, s)
  | String c s' =>
      match digit_of c with
      | Some d => read_digits s' (10 * acc + d)%Z (S count)
      | None => (acc, count, s)
      end
  end.

(** [mantissa * 10 ^ exponent] as a rational. *)
Definition scale (mantissa exponent : Z) : Q :=
  if (0 <=? exponent)%Z then Qmake (mantissa * 10 ^ exponent) 1
  else Qmake mantissa (Z.to_pos (10 ^ (- exponent))).

(** The fraction after the integer part, when there is one. *)
Definition read_fraction (s : string) : Z * nat * string :=
  match s with
  | String "."%char r =>
      match read_digits r 0%Z 0%nat with
      | (_, O, _) => (0%Z, O, s)
      | (f, k, r') => (f, k, r')
      end
  | _ => (0%Z, O, s)
  end.

(** The exponent after the fraction, when there is one. *)
Definition read_exponent (s : string) : Z * string :=
  let after_sign (negative : bool) (r : string) :=
    match read_digits r 0%Z 0%nat with
    | (_, O, _) => (0%Z, s)
    | (e, _, r') => ((if negative then - e else e)%Z, r')
    end in
  match s with
  | String "e"%char r | String "E"%char r =>
      match r with
      | String "-"%char r' => after_sign true r'
      | String "+"%char r' => after_sign false r'
      | _ => after_sign false r
      end
  | _ => (0%Z, s)
  end.

Definition parse_number (s : string) : option (Q * string) :=
  let (negative, s1) :=
    match s with
    | String "-"%char r => (true, r)
    | _ => (false, s)
    end in
  match s1 with
  | EmptyString => None
  | String c r =>
      match digit_of c with
      | None => None
      | Some d =>
          let '(ip, _, s2) :=
            if (d =? 0)%Z then (0%Z, 1%nat, r) else read_digits s1 0%Z 0%nat in
          let '(fp, fk, s3) := read_fraction s2 in
          let '(ex, s4) := read_exponent s3 in
          let mantissa := (ip * 10 ^ Z.of_nat fk + fp)%Z in
          Some (scale (if negative then - mantissa else mantissa)%Z
                      (ex - Z.of_nat fk)%Z, s4)
      end
  end.

Definition unescape (c : ascii) : option ascii :=
  match c with
  | "034"%char => Some "034"%char
  | "\"%char => Some "\"%char
  | "/"%char => Some "/"%char
  | "b"%char => Some "008"%char
  | "f"%char => Some "012"%char
  | "n"%char => Some "010"%char
  | "r"%char => Some "013"%char
  | "t"%char => Some "009"%char
  | _ => None
  end.

Definition hex_of (c : ascii) : option N :=
  let n := N_of_ascii c in
  if ((48 <=? n) && (n <=? 57))%N then Some (n - 48)%N
  else if ((65 <=? n) && (n <=? 70))%N then Some (n - 55)%N
  else if ((97 <=? n) && (n <=? 102))%N then Some (n - 87)%N
  else None.

(** The four hexadecimal digits of a [\uXXXX] escape. *)
Definition hex4 (a b c d : ascii) : option N :=
  match hex_of a, hex_of b, hex_of c, hex_of d with
  | Some x, Some y, Some z, Some w => Some (((x * 16 + y) * 16 + z) * 16 + w)%N
  | _, _, _, _ => None
  end.

(** One character of a string literal: a character written as itself or
    with a one-character escape, or the code unit of a [\uXXXX] escape. *)
Inductive piece : Type :=
| Plain (c : ascii)
| CodeUnit (code : N).

(** The body of a string literal, after its opening quote, piece by
    piece. *)
Fixpoint scan_string (s : string) : option (list piece * string) :=
  match s with
  | EmptyString => None
  | String c r =>
      if Ascii.eqb c dquote then Some ([], r)
      else if Ascii.eqb c "\"%char then
        match r with
        | String "u"%char (String h1 (String h2 (String h3 (String h4 r')))) =>
            match hex4 h1 h2 h3 h4, scan_string r' with
            | Some code, Some (body, rest) => Some (CodeUnit code :: body, rest)
            | _, _ => None
            end
        | String e r' =>
            match unescape e, scan_string r' with
            | Some ch, Some (body, rest) => Some (Plain ch :: body, rest)
            | _, _ => None
            end
        | EmptyString => None
        end
      else if (N_of_ascii c <? 32)%N then None
      else
        match scan_string r with
        | Some (body, rest) => Some (Plain c :: body, rest)
        | None => None
        end
  end.

Definition byte (n : N) : ascii := ascii_of_N n.

(** The UTF-8 bytes of a code point (of a lone surrogate too). *)
Definition utf8 (code : N) : string :=
  if (code <? 128)%N then String (byte code) EmptyString
  else if (code <? 2048)%N then
    String (byte (192 + code / 64))
      (String (byte (128 + code mod 64)) EmptyString)
  else if (code <? 65536)%N then
    String (byte (224 + code / 4096))
      (String (byte (128 + (code / 64) mod 64))
         (String (byte (128 + code mod 64)) EmptyString))
  else
    String (byte (240 + code / 262144))
      (String (byte (128 + (code / 4096) mod 64))
         (String (byte (128 + (code / 64) mod 64))
            (String (byte (128 + code mod 64)) EmptyString))).

Definition is_high_surrogate (code : N) : bool := ((55296 <=? code) && (code <=? 56319))%N.

Definition is_low_surrogate (code : N) : bool := ((56320 <=? code) && (code <=? 57343))%N.

(** The string of the pieces: an escaped high surrogate directly followed
    by an escaped low surrogate is the one character of the pair. *)
Fixpoint assemble (pieces : list piece) : string :=
  match pieces with
  | [] => EmptyString
  | Plain c :: rest => String c (assemble rest)
  | CodeUnit code :: rest =>
      match rest with
      | CodeUnit low :: rest' =>
          if is_high_surrogate code && is_low_surrogate low
          then utf8 (65536 + (code - 55296) * 1024 + (low - 56320)) ++ assemble rest'
          else utf8 code ++ assemble rest
      | _ => utf8 code ++ assemble rest
      end
  end.

(** The body of a string literal, after its opening quote. *)
Definition parse_string (s : string) : option (string * string) :=
  match scan_string s with
  | Some (pieces, rest) => Some (assemble pieces, rest)
  | None => None
  end.

Definition parse_scalar (s : string) : option (json * string) :=
  match strip_prefix "null" s, strip_prefix "true" s, strip_prefix "false" s with
  | Some r, _, _ => Some (JNull, r)
  | _, Some r, _ => Some (JBool true, r)
  | _, _, Some r => Some (JBool false, r)
  | None, None, None =>
      match parse_number s with
      | Some (q, r) => Some (JNum q, r)
      | None => None
      end
  end.

Fixpoint parse_value (fuel : nat) (s : string) {struct fuel}
  : option (json * string) :=
  match fuel with
  | O => None
  | S fuel' =>
      match skip_ws s with
      | String "["%char r =>
          match skip_ws r with
          | String "]"%char r' => Some (JArr [], r')
          | _ => parse_elements fuel' r []
          end
      | String "{"%char r =>
          match skip_ws r with
          | String "}"%char r' => Some (JObj [], r')
          | _ => parse_members fuel' r []
          end
      | String "034"%char r =>
          match parse_string r with
          | Some (body, r') => Some (JStr body, r')
          | None => None
          end
      | s' => parse_scalar s'
      end
  end

with parse_elements (fuel : nat) (s : string) (acc : list json) {struct fuel}
  : option (json * string) :=
  match fuel with
  | O => None
  | S fuel' =>
      match parse_value fuel' s with
      | None => None
      | Some (v, r) =>
          match skip_ws r with
          | String ","%char r' => parse_elements fuel' r' (acc ++ [v])
          | String "]"%char r' => Some (JArr (acc ++ [v]), r')
          | _ => None
          end
      end
  end

with parse_members (fuel : nat) (s : string) (acc : list (string * json))
    {struct fuel} : option (json * string) :=
  match fuel with
  | O => None
  | S fuel' =>
      match skip_ws s with
      | String "034"%char r =>
          match parse_string r with
          | None => None
          | Some (k, r1) =>
              match skip_ws r1 with
              | String ":"%char r2 =>
                  match parse_value fuel' r2 with
                  | None => None
                  | Some (v, r3) =>
                      match skip_ws r3 with
                      | String ","%char r4 =>
                          parse_members fuel' r4 (PyObj.dict_set acc k v)
                      | String "}"%char r4 =>
                          Some (JObj (PyObj.dict_set acc k v), r4)
                      | _ => None
                      end
                  end
              | _ => None
              end
          end
      | _ => None
      end
  end.

(** [json.loads s].  The fuel bounds the depth of the recursion, which
    grows by one for each value, element or member read. *)
Definition loads (s : string) : option json :=
  match parse_value (2 * String.length s + 2) s with
  | Some (v, rest) =>
      match skip_ws rest with
      | EmptyString => Some v
      | String _ _ => None
      end
  | None => None
  end.

End Json.

(** ** The personality factor on doubles

    The finite layer above reads a number as a real.  This layer reads
    the same lines of the source with the numbers of CPython: an [int] is
    an integer of any size, a [float] is a binary64 of IEEE 754 with its
    rounding, its two infinities and NaN, and the arithmetic raises
    OverflowError where CPython's does.  It is the layer of the documents
    the finite layer cannot hold: the constants [NaN], [Infinity] and
    [-Infinity], and numerals beyond the range of the doubles. *)

Module Float64.

Definition prec : Z := 53.
Definition emax : Z := 1024.

Definition float : Type := spec_float.

Definition nan : float := S754_nan.
Definition infinity : float := S754_infinity false.
Definition neg_infinity : float := S754_infinity true.

Definition add : float -> float -> float := SFadd prec emax.
Definition sub : float -> float -> float := SFsub prec emax.
Definition mul : float -> float -> float := SFmul prec emax.
Definition div : float -> float -> float := SFdiv prec emax.
Definition sqrt : float -> float := SFsqrt prec emax.

(** [x <= y]: false as soon as [x] or [y] is NaN. *)
Definition leb : float -> float -> bool := SFleb.

Definition is_nan (x : float) : bool :=
  match x with
  | S754_nan => true
  | _ => false
  end.

Definition is_zero (x : float) : bool :=
  match x with
  | S754_zero _ => true
  | _ => false
  end.

Definition is_finite (x : float) : bool :=
  match x with
  | S754_zero _ | S754_finite _ _ _ => true
  | S754_infinity _ | S754_nan => false
  end.

(** [float(z)] on an [int]: the nearest double, ties to even, and
    OverflowError when that is beyond the largest double. *)
Definition of_int (z : Z) : result float :=
  let x := binary_normalize prec emax z 0 false in
  if is_finite x then Ok x else Raise OverflowError.

(** [float(numeral)]: the double nearest to [mantissa * 10 ^ exponent],
    ties to even, with the sign of the numeral.  A numeral beyond the
    largest double gives an infinity and one below the least positive
    double gives zero; neither is an error. *)
Definition of_decimal (negative : bool) (mantissa exponent : Z) : float :=
  match mantissa with
  | Zpos m =>
      if (0 <=? exponent)%Z
      then binary_normalize prec emax
             (if negative then - (Zpos m * 10 ^ exponent) else Zpos m * 10 ^ exponent)%Z
             0 negative
      else
        let '(q, e, l) :=
          SFdiv_core_binary prec emax (Zpos m) 0 (10 ^ (- exponent)) 0 in
        binary_round_aux prec emax negative q e l
  | _ => S754_zero negative
  end.

(** The literals [0.5] and [1] (as the [float] it becomes in [1 - x]). *)
Definition half : float := of_decimal false 5 (-1).
Definition one : float := of_decimal false 1 0.

(** *** Decoded documents *)

#[warnings="-register-all"]
Inductive object : Type :=
| ONone
| OBool (b : bool)
| OInt (z : Z)
| OFloat (x : float)
| OStr (s : string)
| OList (items : list object)
| ODict (members : list (string * object)).

(** [d.get(k, default)] on the members of a dict. *)
Fixpoint dict_get (d : list (string * object)) (k : string) (default : object) : object :=
  match d with
  | [] => default
  | (k', v) :: d' => if String.eqb k k' then v else dict_get d' k default
  end.

(** [d[k] = v]: an existing key keeps its place, a new key goes last. *)
Fixpoint dict_set (d : list (string * object)) (k : string) (v : object)
  : list (string * object) :=
  match d with
  | [] => [(k, v)]
  | (k', v') :: d' =>
      if String.eqb k k' then (k, v) :: d' else (k', v') :: dict_set d' k v
  end.

(** A numeral: an [int] when it has neither fraction nor exponent, a
    [float] otherwise. *)
Definition parse_number (s : string) : option (object * string) :=
  let (negative, s1) :=
    match s with
    | String "-"%char r => (true, r)
    | _ => (false, s)
    end in
  match s1 with
  | EmptyString => None
  | String c r =>
      match Json.digit_of c with
      | None => None
      | Some d =>
          let '(ip, _, s2) :=
            if (d =? 0)%Z then (0%Z, 1%nat, r) else Json.read_digits s1 0%Z 0%nat in
          let '(fp, fk, s3) := Json.read_fraction s2 in
          let '(ex, s4) := Json.read_exponent s3 in
          let has_fraction := negb (fk =? 0)%nat in
          let has_exponent := (String.length s4 <? String.length s3)%nat in
          if has_fraction || has_exponent
          then Some (OFloat (of_decimal negative (ip * 10 ^ Z.of_nat fk + fp)%Z
                                        (ex - Z.of_nat fk)%Z), s4)
          else Some (OInt (if negative then - ip else ip)%Z, s4)
      end
  end.

Definition parse_scalar (s : string) : option (object * string) :=
  match Json.strip_prefix "null" s, Json.strip_prefix "true" s,
        Json.strip_prefix "false" s with
  | Some r, _, _ => Some (ONone, r)
  | _, Some r, _ => Some (OBool true, r)
  | _, _, Some r => Some (OBool false, r)
  | None, None, None =>
      match Json.strip_prefix "NaN" s, Json.strip_prefix "Infinity" s,
            Json.strip_prefix "-Infinity" s with
      | Some r, _, _ => Some (OFloat nan, r)
      | _, Some r, _ => Some (OFloat infinity, r)
      | _, _, Some r => Some (OFloat neg_infinity, r)
      | None, None, None => parse_number s
      end
  end.

Fixpoint parse_value (fuel : nat) (s : string) {struct fuel}
  : option (object * string) :=
  match fuel with
  | O => None
  | S fuel' =>
      match Json.skip_ws s with
      | String "["%char r =>
          match Json.skip_ws r with
          | String "]"%char r' => Some (OList [], r')
          | _ => parse_elements fuel' r []
          end
      | String "{"%char r =>
          match Json.skip_ws r with
          | String "}"%char r' => Some (ODict [], r')
          | _ => parse_members fuel' r []
          end
      | String "034"%char r =>
          match Json.parse_string r with
          | Some (body, r') => Some (OStr body, r')
          | None => None
          end
      | s' => parse_scalar s'
      end
  end

with parse_elements (fuel : nat) (s : string) (acc : list object) {struct fuel}
  : option (object * string) :=
  match fuel with
  | O => None
  | S fuel' =>
      match parse_value fuel' s with
      | None => None
      | Some (v, r) =>
          match Json.skip_ws r with
          | String ","%char r' => parse_elements fuel' r' (acc ++ [v])
          | String "]"%char r' => Some (OList (acc ++ [v]), r')
          | _ => None
          end
      end
  end

with parse_members (fuel : nat) (s : string) (acc : list (string * object))
    {struct fuel} : option (object * string) :=
  match fuel with
  | O => None
  | S fuel' =>
      match Json.skip_ws s with
      | String "034"%char r =>
          match Json.parse_string r with
          | None => None
          | Some (k, r1) =>
              match Json.skip_ws r1 with
              | String ":"%char r2 =>
                  match parse_value fuel' r2 with
                  | None => None
                  | Some (v, r3) =>
                      match Json.skip_ws r3 with
                      | String ","%char r4 =>
                          parse_members fuel' r4 (dict_set acc k v)
                      | String "}"%char r4 =>
                          Some (ODict (dict_set acc k v), r4)
                      | _ => None
                      end
                  end
              | _ => None
              end
          end
      | _ => None
      end
  end.

(** [json.loads s], [None] when it raises.  Two limits of the interpreter
    are left out: the recursion limit on nested documents and the limit
    on the number of digits of an integer numeral. *)
Definition loads (s : string) : option object :=
  match parse_value (2 * String.length s + 2) s with
  | Some (v, rest) =>
      match Json.skip_ws rest with
      | EmptyString => Some v
      | String _ _ => None
      end
  | None => None
  end.

(** *** The Python operations of lines 126-141 *)

(** Truth value of an object: NaN and the infinities are true, the two
    zeros are false. *)
Definition truth (v : object) : bool :=
  match v with
  | ONone => false
  | OBool b => b
  | OInt z => negb (z =? 0)%Z
  | OFloat x => negb (is_zero x)
  | OStr s => negb (PyStr.is_empty s)
  | OList l => negb (is_nil l)
  | ODict d => negb (is_nil d)
  end.

(** [for x in v] *)
Definition iter (v : object) : result (list object) :=
  match v with
  | ODict d => Ok (map (fun kv => OStr (fst kv)) d)
  | OList l => Ok l
  | OStr s => Ok (map (fun c => OStr (String c EmptyString)) (list_ascii_of_string s))
  | ONone | OBool _ | OInt _ | OFloat _ => Raise TypeError
  end.

(** [recv.get(key, default)] *)
Definition get (recv key default : object) : result object :=
  match recv with
  | ODict d =>
      match key with
      | OStr k => Ok (dict_get d k default)
      | OList _ | ODict _ => Raise TypeError
      | ONone | OBool _ | OInt _ | OFloat _ => Ok default
      end
  | _ => Raise AttributeError
  end.

(** The numbers of the arithmetic: [bool] is a subtype of [int]. *)
Inductive number : Type :=
| Int (z : Z)
| Float (x : float).

Definition as_number (v : object) : result number :=
  match v with
  | OBool b => Ok (Int (if b then 1 else 0))
  | OInt z => Ok (Int z)
  | OFloat x => Ok (Float x)
  | ONone | OStr _ | OList _ | ODict _ => Raise TypeError
  end.

(** The operand of a [float] operation. *)
Definition to_float (n : number) : result float :=
  match n with
  | Int z => of_int z
  | Float x => Ok x
  end.

(** [a - b]: exact on two [int]s, on doubles otherwise. *)
Definition subtract (a b : object) : result number :=
  x <- as_number a ;;
  y <- as_number b ;;
  match x, y with
  | Int m, Int n => Ok (Int (m - n))
  | _, _ =>
      u <- to_float x ;;
      v <- to_float y ;;
      Ok (Float (sub u v))
  end.

(** [n ** 2].  On a [float]: NaN gives NaN, an infinity gives the positive
    infinity, and a finite double gives its square (C's [pow], taken as
    rounded to nearest), with OverflowError when the square is beyond the
    largest double. *)
Definition square (n : number) : result number :=
  match n with
  | Int z => Ok (Int (z * z))
  | Float x =>
      if is_nan x then Ok (Float x)
      else if is_finite x then
        let y := mul x x in
        if is_finite y then Ok (Float y) else Raise OverflowError
      else Ok (Float infinity)
  end.

(** [a + b], the sum of [distance += b]. *)
Definition plus (a b : number) : result number :=
  match a, b with
  | Int m, Int n => Ok (Int (m + n))
  | _, _ =>
      u <- to_float a ;;
      v <- to_float b ;;
      Ok (Float (add u v))
  end.

(** [math.sqrt n]: ValueError on a negative number, NaN on NaN. *)
Definition math_sqrt (n : number) : result float :=
  x <- to_float n ;;
  let r := sqrt x in
  if is_nan r && negb (is_nan x) then Raise ValueError else Ok r.

(** [a / b] on two [float]s. *)
Definition truediv (a b : float) : result float :=
  if is_zero b then Raise ZeroDivisionError else Ok (div a b).

(** *** Lines 102-143 *)

Definition loads_or_empty (s : string) : object :=
  match loads s with
  | Some v => v
  | None => ODict []
  end.

(** Lines 112-124. *)
Definition select_candidate_traits (c : Candidate) : result (option object) :=
  if truthy (test_personality_traits c) then
    s <- as_str (test_personality_traits c) ;;
    Ok (Some (loads_or_empty s))
  else if truthy (personality_traits c) then
    s <- as_str (personality_traits c) ;;
    Ok (Some (loads_or_empty s))
  else Ok None.

(** Lines 130-134: one turn of the loop. *)
Definition distance_step (required_traits candidate_traits : object)
    (distance : number) (trait : object) : result number :=
  required_value <- get required_traits trait (OFloat half) ;;
  candidate_value <- get candidate_traits trait (OFloat half) ;;
  diff <- subtract required_value candidate_value ;;
  squared <- square diff ;;
  plus distance squared.

(** Lines 102-143. *)
Definition _calculate_personality_score (c : Candidate) (j : Job) : result float :=
  if negb (truthy (required_personality_traits j)) then Ok half
  else
    rs <- as_str (required_personality_traits j) ;;
    match loads rs with
    | None => Ok half
    | Some required_traits =>
        selected <- select_candidate_traits c ;;
        match selected with
        | None => Ok half
        | Some candidate_traits =>
            if negb (truth required_traits) || negb (truth candidate_traits)
            then Ok half
            else
              traits <- iter required_traits ;;
              distance <- for_loop (distance_step required_traits candidate_traits)
                                   traits (Int 0) ;;
              distance <- math_sqrt distance ;;
              max_distance <- math_sqrt (Int 5) ;;
              ratio <- truediv distance max_distance ;;
              let similarity := sub one ratio in
              Ok similarity
        end
    end.

End Float64.

(** ** The skill score as the specification words it

    The specification's sentence, "tokenize both skills fields by comma,
    trim, lowercase", read on its own: the three steps below are written
    without the operations of [PyStr], on lists of characters, and are
    compared with the code's in the properties. *)

(** The blank characters of ASCII: space, tab, line feed, vertical tab,
    form feed, carriage return and the four separators. *)
Definition spec_blanks : list ascii :=
  [" "; "009"; "010"; "011"; "012"; "013"; "028"; "029"; "030"; "031"]%char.

Definition spec_is_blank (c : ascii) : bool :=
  if in_dec ascii_dec c spec_blanks then true else false.

Fixpoint spec_drop_blanks (l : list ascii) : list ascii :=
  match l with
  | [] => []
  | c :: l' => if spec_is_blank c then spec_drop_blanks l' else l
  end.

(** Trim: the blanks in front are dropped, then the blanks at the end. *)
Definition spec_trim (token : string) : string :=
  string_of_list_ascii
    (rev (spec_drop_blanks (rev (spec_drop_blanks (list_ascii_of_string token))))).

Definition spec_capitals : list ascii := list_ascii_of_string "ABCDEFGHIJKLMNOPQRSTUVWXYZ".

Definition spec_small_letters : list ascii :=
  list_ascii_of_string "abcdefghijklmnopqrstuvwxyz".

(** The small letter of a capital, any other character unchanged. *)
Fixpoint spec_small (capitals small_letters : list ascii) (c : ascii) : ascii :=
  match capitals, small_letters with
  | capital :: capitals', letter :: small_letters' =>
      if ascii_dec c capital then letter else spec_small capitals' small_letters' c
  | _, _ => c
  end.

(** Lowercase. *)
Definition spec_lowercase (token : string) : string :=
  string_of_list_ascii
    (map (spec_small spec_capitals spec_small_letters) (list_ascii_of_string token)).

(** Tokenize by comma: [current] holds, last character first, the piece
    read so far; a comma closes it, and so does the end of the field. *)
Fixpoint spec_pieces (current rest : list ascii) : list string :=
  match rest with
  | [] => [string_of_list_ascii (rev current)]
  | c :: rest' =>
      if ascii_dec c ","%char
      then string_of_list_ascii (rev current) :: spec_pieces [] rest'
      else spec_pieces (c :: current) rest'
  end.

Definition spec_tokens (field : string) : list string :=
  map (fun token => spec_lowercase (spec_trim token))
      (spec_pieces [] (list_ascii_of_string field)).

Definition occurs_among (token : string) (tokens : list string) : bool :=
  if in_dec string_dec token tokens then true else false.

(** Either field empty: 0.5; otherwise the number of required tokens that
    occur among the candidate tokens over the number of required tokens. *)
Definition spec_skill_score (required candidate : option string) : R :=
  match required, candidate with
  | Some (String _ _ as r), Some (String _ _ as c) =>
      let required_tokens := spec_tokens r in
      let candidate_tokens := spec_tokens c in
      (INR (length (filter (fun t => occurs_among t candidate_tokens) required_tokens))
       / INR (length required_tokens))%R
  | _, _ => 0.5%R
  end.

(** A field is missing when it is [None] or the empty string. *)
Definition missing (field : option string) : Prop :=
  field = None \/ field = Some EmptyString.

(** ** Example records *)

Definition blank_candidate : Candidate :=
  mkCandidate 0 "" "" None None None None None None None None None.

Definition blank_job : Job := mkJob 0 "" None None None None None None.

Definition with_skills (s : string) (c : Candidate) : Candidate :=
  mkCandidate (cand_id c) (name c) (email c) (phone c) (Some s) (experience c)
    (education c) (certifications c) (interests c) (personality_traits c)
    (test_personality_traits c) (cv_filename c).

Definition job_python_sql : Job :=
  mkJob 1 "Data engineer" None (Some "Python, SQL") None None None None.

Definition cand_python_java_sql : Candidate :=
  with_skills "python, java, sql" blank_candidate.

(** Serialized trait mappings and records for the examples. *)

Fixpoint members_doc (names : list string) (value : string) : string :=
  match names with
  | [] => EmptyString
  | [n] => Json.quoted n ++ ": " ++ value
  | n :: rest => Json.quoted n ++ ": " ++ value ++ ", " ++ members_doc rest value
  end.

(** The document that maps every name to the same numeral. *)
Definition traits_doc (names : list string) (value : string) : string :=
  "{" ++ members_doc names value ++ "}".

Definition big_five : list string :=
  ["openness"; "conscientiousness"; "extraversion"; "agreeableness"; "neuroticism"].

Definition with_traits (cv test : option string) (c : Candidate) : Candidate :=
  mkCandidate (cand_id c) (name c) (email c) (phone c) (skills c) (experience c)
    (education c) (certifications c) (interests c) cv test (cv_filename c).

Definition with_required_traits (traits : option string) (j : Job) : Job :=
  mkJob (job_id j) (title j) (description j) (required_skills j)
    (required_experience j) (required_education j) (required_certifications j)
    traits.

(** Requires openness 0.8. *)
Definition job_openness : Job :=
  with_required_traits (Some (traits_doc ["openness"] "0.8")) blank_job.

(** Test result 0.8, CV analysis 0.2. *)
Definition cand_both_sources : Candidate :=
  with_traits (Some (traits_doc ["openness"] "0.2"))
              (Some (traits_doc ["openness"] "0.8")) blank_candidate.

(** A test result that is not JSON, a well-formed CV analysis. *)
Definition cand_broken_test : Candidate :=
  with_traits (Some (traits_doc ["openness"] "0.8")) (Some "not json")
              blank_candidate.

Definition job_big_five_high : Job :=
  with_required_traits (Some (traits_doc big_five "1.0")) blank_job.

Definition cand_big_five_low : Candidate :=
  with_traits None (Some (traits_doc big_five "0.0")) blank_candidate.

(** Six required traits, each 1, and no keyword in common with
    [cand_six_low]. *)
Definition job_six_high : Job :=
  mkJob 2 "Backend developer" None (Some "python") (Some "backend")
    (Some "phd") (Some "aws") (Some (traits_doc (big_five ++ ["honesty"]) "1.0")).

Definition cand_six_low : Candidate :=
  mkCandidate 7 "A" "a@example.org" None (Some "java") (Some "frontend")
    (Some "bsc") (Some "scrum") None
    (Some (traits_doc (big_five ++ ["honesty"]) "0.0")) None None.

(** A required trait whose target is a word, not a number. *)
Definition job_openness_high : Job :=
  with_required_traits (Some (traits_doc ["openness"] (Json.quoted "high"))) blank_job.

Definition cand_openness : Candidate :=
  with_traits (Some (traits_doc ["openness"] "0.5")) None blank_candidate.

(** Test result 0.2, CV analysis 0.8: the sources of [cand_both_sources]
    exchanged. *)
Definition cand_sources_swapped : Candidate :=
  with_traits (Some (traits_doc ["openness"] "0.8"))
              (Some (traits_doc ["openness"] "0.2")) blank_candidate.

(** A test result that is valid JSON but a list, not a trait mapping, and
    a well-formed CV analysis. *)
Definition cand_list_test : Candidate :=
  with_traits (Some (traits_doc ["openness"] "0.8")) (Some "[1]") blank_candidate.

(** Trait documents that only the layer of doubles can hold: a required
    openness that is NaN, the positive infinity, and 1e200. *)
Definition job_openness_nan : Job :=
  with_required_traits (Some (traits_doc ["openness"] "NaN")) blank_job.

Definition job_openness_infinity : Job :=
  with_required_traits (Some (traits_doc ["openness"] "Infinity")) blank_job.

Definition job_openness_1e200 : Job :=
  with_required_traits (Some (traits_doc ["openness"] "1e200")) blank_job.

(** ** Vocabulary of the statements on the personality factor *)

(** The text attribute [field] is present, not empty, and decodes to [v]. *)
Definition decodes_to (json_loads : string -> option json)
    (field : option string) (v : json) : Prop :=
  exists a s, field = Some (String a s) /\ json_loads (String a s) = Some v.

(** The text attribute [field] is present, not empty, and its decoding
    raises. *)
Definition fails_to_decode (json_loads : string -> option json)
    (field : option string) : Prop :=
  exists a s, field = Some (String a s) /\ json_loads (String a s) = None.

(** The trait source of the candidate decodes to [v]: the test result, or
    the CV analysis when there is no test result. *)
Definition selected_traits (json_loads : string -> option json)
    (c : Candidate) (v : json) : Prop :=
  decodes_to json_loads (test_personality_traits c) v
  \/ (missing (test_personality_traits c)
      /\ decodes_to json_loads (personality_traits c) v).

Definition numeric (v : json) : Prop := exists x, PyObj.number v = Ok x.

(** A trait mapping: every value is a number. *)
Definition trait_mapping (d : list (string * json)) : Prop :=
  Forall (fun kv => numeric (snd kv)) d.

Definition value_of (v : json) : R :=
  match PyObj.number v with
  | Ok x => x
  | Raise _ => 0%R
  end.

(** The value of [trait] in a mapping, 0.5 when it is absent. *)
Definition trait_value (d : list (string * json)) (trait : string) : R :=
  value_of (PyObj.dict_get d trait (JNum 0.5)).

(** Sum over the required traits of the squared differences. *)
Definition squared_distance (required candidate : list (string * json)) : R :=
  fold_right Rplus 0%R
    (map (fun kv => ((trait_value required (fst kv) - trait_value candidate (fst kv)) ^ 2)%R)
         required).

(** A serialized trait mapping the scorer copes with: missing, not
    decodable, or a mapping whose values are numbers. *)
Definition well_formed_traits (json_loads : string -> option json)
    (field : option string) : Prop :=
  missing field
  \/ fails_to_decode json_loads field
  \/ exists d, decodes_to json_loads field (JObj d) /\ trait_mapping d.

(** Every required trait is within distance 1 of the candidate's value. *)
Definition within_unit (required candidate : list (string * json)) : Prop :=
  Forall (fun kv =>
            (Rabs (trait_value required (fst kv) - trait_value candidate (fst kv)) <= 1)%R)
         required.

(** Every required trait is at distance 1 from the candidate's value. *)
Definition unit_apart (required candidate : list (string * json)) : Prop :=
  Forall (fun kv =>
            Rabs (trait_value required (fst kv) - trait_value candidate (fst kv)) = 1%R)
         required.

(** A score that is returned and lies in the unit interval. *)
Definition unit_score (m : result R) : Prop :=
  exists r, m = Ok r /\ (0 <= r <= 1)%R.

(** ** Vocabulary of the statements on the ranking *)

(** Non-increasing order of score. *)
Definition by_score_desc {A : Type} (p q : A * R) : Prop := (snd q <= snd p)%R.

(** The pair carries the score [s]. *)
Definition score_is {A : Type} (s : R) (p : A * R) : bool :=
  if Req_dec_T (snd p) s then true else false.

(** The composite score of the candidate is returned and is [s]. *)
Definition has_score (json_loads : string -> option json) (j : Job) (s : R)
    (c : Candidate) : bool :=
  match _calculate_candidate_score json_loads c j with
  | Ok r => if Req_dec_T r s then true else false
  | Raise _ => false
  end.

(** A job and three candidates whose composite scores are 0.9, 0.3 and
    0.6, and a fourth candidate that ties with the second. *)
Definition job_ranking : Job :=
  mkJob 3 "Backend developer" None (Some "python") (Some "backend") (Some "bsc")
    None (Some (traits_doc ["openness"] "0.8")).

Definition cand_strong : Candidate :=
  mkCandidate 1 "Ada" "ada@example.org" None (Some "python")
    (Some "backend developer") None None None None
    (Some (traits_doc ["openness"] "0.8")) None.

Definition cand_weak : Candidate :=
  mkCandidate 2 "Bob" "bob@example.org" None (Some "java") None
    (Some "high school") None None None None None.

Definition cand_medium : Candidate :=
  mkCandidate 3 "Cy" "cy@example.org" None (Some "python") None
    (Some "high school") None None None None None.

Definition cand_weak_too : Candidate :=
  mkCandidate 4 "Dee" "dee@example.org" None (Some "java") None
    (Some "high school") None None None None None.

(** ** Vocabulary of the statements on scores in range *)

(** A trait mapping whose values all lie in the unit interval. *)
Definition unit_mapping (d : list (string * json)) : Prop :=
  Forall (fun kv => exists x, PyObj.number (snd kv) = Ok x /\ (0 <= x <= 1)%R) d.

(** A serialized trait mapping that is missing, not decodable, or a
    mapping of values of the unit interval. *)
Definition unit_traits (json_loads : string -> option json)
    (field : option string) : Prop :=
  missing field
  \/ fails_to_decode json_loads field
  \/ exists d, decodes_to json_loads field (JObj d) /\ unit_mapping d.

(** The mapping the field decodes to, if any, has at most [n] entries. *)
Definition at_most_traits (json_loads : string -> option json) (n : nat)
    (field : option string) : Prop :=
  forall d, decodes_to json_loads field (JObj d) -> (length d <= n)%nat.

(** On the trait the two mappings hold the same number of the unit
    interval, a trait absent from a mapping counting as 0.5. *)
Definition same_unit_value (required candidate : list (string * json))
    (trait : string) : Prop :=
  exists x, PyObj.number (PyObj.dict_get required trait (JNum 0.5)) = Ok x
            /\ PyObj.number (PyObj.dict_get candidate trait (JNum 0.5)) = Ok x
            /\ (0 <= x <= 1)%R.

(** Documents that decode to something empty or false. *)
Definition job_with_doc (doc : string) : Job :=
  with_required_traits (Some doc) blank_job.

Definition cand_with_cv_doc (doc : string) : Candidate :=
  with_traits (Some doc) None blank_candidate.

(** A test result with a trait the job does not ask for, whose value is
    not even a number. *)
Definition cand_with_humour : Candidate :=
  with_traits None
    (Some ("{" ++ Json.quoted "openness" ++ ": 0.8, "
               ++ Json.quoted "humour" ++ ": " ++ Json.quoted "dry" ++ "}")%string)
    blank_candidate.

(** A job and a candidate whose fields repeat the job's requirements. *)
Definition job_full : Job :=
  mkJob 4 "Data engineer" None (Some "Python, SQL") (Some "Data pipelines")
    (Some "BSc Computer Science") (Some "AWS Certified, PMP") None.

Definition cand_verbatim : Candidate :=
  mkCandidate 5 "Eve" "eve@example.org" None (Some "Python, SQL")
    (Some "Built DATA PIPELINES for five years") (Some "bsc computer science, 2019")
    (Some "AWS Certified, PMP") None None None None.

(** ** The personality analyzer (backend/services/personality_analyzer.py)

    The analyzer's floats take part only in sums, products, quotients and
    comparisons: they are modelled as rationals, which keeps the analyzer
    executable.  The sentiment analyzer and the classifier are libraries:
    they are parameters of [analyze]. *)

Module PyDict.

(** [d.get(k)] on a dict with string keys; [None] when [k] is absent. *)
Fixpoint get {V : Type} (d : list (string * V)) (k : string) : option V :=
  match d with
  | [] => None
  | (k', v) :: d' => if String.eqb k k' then Some v else get d' k
  end.

(** [d[k] = f(d[k])] for a key of [d]; other keys keep their value. *)
Fixpoint update {V : Type} (d : list (string * V)) (k : string) (f : V -> V)
  : list (string * V) :=
  match d with
  | [] => []
  | (k', v) :: d' =>
      if String.eqb k k' then (k', f v) :: d' else (k', v) :: update d' k f
  end.

End PyDict.

(** [max(0, min(1, x))] *)
Definition clamp (x : Q) : Q := Qmax 0 (Qmin 1 x).

(** [a / b] on two [int]s, as a rational. *)
Definition truediv_q (a b : nat) : result Q :=
  if (b =? 0)%nat then Raise ZeroDivisionError
  else Ok (Z.of_nat a # Pos.of_nat b).

(** Lines 126-139, one question:
    [if q in answers: traits[trait] += 0.2 if answers[q] == 'yes' else -0.1]. *)
Definition apply_answer (answers : list (string * string)) (question trait : string)
    (traits : list (string * Q)) : list (string * Q) :=
  match PyDict.get answers question with
  | None => traits
  | Some answer =>
      PyDict.update traits trait
        (fun value => value + (if String.eqb answer "yes" then 0.2 else - 0.1))
  end.

(** Lines 112-145. *)
Definition analyze_test_answers (answers : list (string * string))
  : list (string * Q) :=
  let traits :=
    [("openness", 0.5); ("conscientiousness", 0.5); ("extraversion", 0.5);
     ("agreeableness", 0.5); ("neuroticism", 0.5)] in
  let traits := apply_answer answers "q1" "openness" traits in
  let traits := apply_answer answers "q2" "conscientiousness" traits in
  let traits := apply_answer answers "q3" "extraversion" traits in
  let traits := apply_answer answers "q4" "agreeableness" traits in
  let traits := apply_answer answers "q5" "neuroticism" traits in
  map (fun kv => (fst kv, clamp (snd kv))) traits.

(** Lines 179-183. *)
Definition _calculate_keyword_score (text : string) (keywords : list string)
  : result Q :=
  let text_lower := PyStr.lower text in
  let keyword_count :=
    count_if (fun keyword => PyStr.contains keyword text_lower) keywords in
  ratio <- truediv_q keyword_count (length keywords) ;;
  Ok (Qmin 1 ratio).

(** One output of the classifier: [{'label': ..., 'score': ...}]. *)
Record Prediction : Type := mkPrediction {
  label : string;
  confidence : Q
}.

(** The dict [{'positive': ..., 'negative': ...}]. *)
Record Aggregate : Type := mkAggregate {
  positive_share : Q;
  negative_share : Q
}.

(** Lines 166-177. *)
Definition _aggregate_predictions (predictions : list Prediction) : result Aggregate :=
  let positive_count :=
    count_if (fun p => String.eqb (label p) "POSITIVE") predictions in
  let negative_count :=
    count_if (fun p => String.eqb (label p) "NEGATIVE") predictions in
  let total := length predictions in
  positive <- (if (0 <? total)%nat then truediv_q positive_count total else Ok 0.5) ;;
  negative <- (if (0 <? total)%nat then truediv_q negative_count total else Ok 0.5) ;;
  Ok (mkAggregate positive negative).

(** [re.split(r'(?<=[.!?])\s+', text)]: a run of whitespace that follows
    one of the three marks separates two pieces; the run is dropped. *)
Inductive scan_state : Type := Plain | AfterMark | InGap.

Definition is_mark (c : ascii) : bool :=
  Ascii.eqb c "."%char || Ascii.eqb c "!"%char || Ascii.eqb c "?"%char.

Fixpoint sentence_pieces (state : scan_state) (s : string) : list string :=
  match s with
  | EmptyString => [EmptyString]
  | String c s' =>
      let gap :=
        match state with
        | Plain => false
        | AfterMark | InGap => PyStr.is_space c
        end in
      if gap then
        match state with
        | InGap => sentence_pieces InGap s'
        | _ => EmptyString :: sentence_pieces InGap s'
        end
      else
        match sentence_pieces (if is_mark c then AfterMark else Plain) s' with
        | piece :: pieces => String c piece :: pieces
        | [] => [String c EmptyString]
        end
  end.

Definition split_sentences (text : string) : list string :=
  sentence_pieces Plain text.

(** Lines 153-159: one turn of the loop on [(chunks, current_chunk)]. *)
Definition chunk_step (max_length : nat) (state : list string * string)
    (sentence : string) : list string * string :=
  let (chunks, current_chunk) := state in
  if (String.length current_chunk + String.length sentence <=? max_length)%nat
  then (chunks, (current_chunk ++ sentence ++ " ")%string)
  else
    ((if PyStr.is_empty current_chunk then chunks
      else chunks ++ [PyStr.strip current_chunk]),
     (sentence ++ " ")%string).

(** Lines 147-164. *)
Definition _split_text (text : string) (max_length : nat) : list string :=
  let sentences := split_sentences text in
  let (chunks, current_chunk) := fold_left (chunk_step max_length) sentences ([], EmptyString) in
  if PyStr.is_empty current_chunk then chunks
  else chunks ++ [PyStr.strip current_chunk].

(** The dict of [SentimentIntensityAnalyzer.polarity_scores]. *)
Record Sentiment : Type := mkSentiment {
  sentiment_neg : Q;
  sentiment_neu : Q;
  sentiment_pos : Q;
  sentiment_compound : Q
}.

Definition openness_keywords : list string :=
  ["creative"; "innovative"; "curious"; "adventurous"; "new"; "ideas"; "learn";
   "artistic"; "imaginative"].

Definition conscientiousness_keywords : list string :=
  ["organized"; "detail-oriented"; "responsible"; "disciplined"; "achieve";
   "goal"; "plan"; "reliable"].

Definition extraversion_keywords : list string :=
  ["team"; "lead"; "present"; "communicate"; "social"; "group"; "collaborate";
   "outgoing"; "energetic"].

Definition agreeableness_keywords : list string :=
  ["help"; "support"; "cooperate"; "friendly"; "empathy"; "teamwork"; "kind";
   "compassionate"].

Definition neuroticism_keywords : list string :=
  ["stress"; "pressure"; "anxiety"; "worry"; "nervous"; "tense"; "moody"].

Section Analyze.

(** [self.sia.polarity_scores] *)
Variable polarity_scores : string -> Sentiment.

(** [self.classifier]: [None] when the pipeline could not be loaded. *)
Variable classifier : option (string -> result (list Prediction)).

(** Lines 63-77: [None] is the empty dict the block leaves behind when
    there is no classifier or when anything in it raises. *)
Definition hf_predict (text : string) : option Aggregate :=
  match classifier with
  | None => None
  | Some classify =>
      let chunks := _split_text text 512 in
      match
        (all_predictions <-
           for_loop (fun acc chunk =>
                       prediction <- classify chunk ;; Ok (acc ++ prediction))
                    chunks [] ;;
         _aggregate_predictions all_predictions)
      with
      | Ok hf_prediction => Some hf_prediction
      | Raise _ => None
      end
  end.

(** Lines 92-108: the final score of one trait. *)
Definition combine_scores (sentiment : Sentiment) (hf_prediction : option Aggregate)
    (trait : string) (keyword_score : Q) : Q :=
  let score := keyword_score in
  let score :=
    if String.eqb trait "neuroticism" then score + sentiment_neg sentiment * 0.5
    else score + sentiment_pos sentiment * 0.3 in
  let score :=
    match hf_prediction with
    | Some hf =>
        if String.eqb trait "neuroticism" then score - positive_share hf * 0.2
        else score + positive_share hf * 0.2
    | None => score
    end in
  clamp score.

(** Lines 52-110. *)
Definition analyze (text : string) : result (list (string * Q)) :=
  let sentiment := polarity_scores text in
  let hf_prediction := hf_predict text in
  openness <- _calculate_keyword_score text openness_keywords ;;
  conscientiousness <- _calculate_keyword_score text conscientiousness_keywords ;;
  extraversion <- _calculate_keyword_score text extraversion_keywords ;;
  agreeableness <- _calculate_keyword_score text agreeableness_keywords ;;
  neuroticism <- _calculate_keyword_score text neuroticism_keywords ;;
  let keyword_scores :=
    [("openness", openness); ("conscientiousness", conscientiousness);
     ("extraversion", extraversion); ("agreeableness", agreeableness);
     ("neuroticism", neuroticism)] in
  Ok (map (fun kv => (fst kv, combine_scores sentiment hf_prediction (fst kv) (snd kv)))
          keyword_scores).

End Analyze.

(** The mapping a trait dict is stored as: [json.dumps] then [json.loads]. *)
Definition traits_json (traits : list (string * Q)) : list (string * json) :=
  map (fun kv => (fst kv, JNum (snd kv))) traits.

(** The value the questionnaire gives a trait: 0.7 for the answer
    [yes], 0.4 for any other answer, 0.5 without an answer. *)
Definition expected_trait (answers : list (string * string)) (question : string) : Q :=
  match PyDict.get answers question with
  | None => 0.5
  | Some answer => if String.eqb answer "yes" then 0.7 else 0.4
  end.

Definition questions : list string := ["q1"; "q2"; "q3"; "q4"; "q5"].

(** A value of the unit interval. *)
Definition unit_q (x : Q) : Prop := (0 <= x /\ x <= 1)%Q.

(** The value after one question. *)
Definition answered (answers : list (string * string)) (question : string) (value : Q)
  : Q :=
  match PyDict.get answers question with
  | None => value
  | Some answer => value + (if String.eqb answer "yes" then 0.2 else - 0.1)
  end.

(** The text attribute holds the serialized trait dict [traits]: it
    decodes to a mapping with the same traits in the same order and
    numbers of the same value. *)
Definition stores (json_loads : string -> option json) (field : option string)
    (traits : list (string * Q)) : Prop :=
  exists d,
    decodes_to json_loads field (JObj d)
    /\ Forall2 (fun kv tv => fst kv = fst tv
                             /\ exists q, snd kv = JNum q /\ (q == snd tv)%Q)
               d traits.

(** A sentiment analyzer for the examples: the same scores for any text. *)
Definition flat_sentiment (text : string) : Sentiment :=
  mkSentiment 0 0.5 0.5 0.

(** A candidate as the application stores it after the upload of a CV
    without any keyword and the questionnaire answered yes, no, yes, no,
    yes. *)
Definition cand_from_app : Candidate :=
  with_traits
    (Some ("{" ++ Json.quoted "openness" ++ ": 0.15, "
               ++ Json.quoted "conscientiousness" ++ ": 0.15, "
               ++ Json.quoted "extraversion" ++ ": 0.15, "
               ++ Json.quoted "agreeableness" ++ ": 0.15, "
               ++ Json.quoted "neuroticism" ++ ": 0.0}")%string)
    (Some ("{" ++ Json.quoted "openness" ++ ": 0.7, "
               ++ Json.quoted "conscientiousness" ++ ": 0.4, "
               ++ Json.quoted "extraversion" ++ ": 0.7, "
               ++ Json.quoted "agreeableness" ++ ": 0.4, "
               ++ Json.quoted "neuroticism" ++ ": 0.7}")%string)
    blank_candidate.

Definition answers_from_app : list (string * string) :=
  [("q1", "yes"); ("q2", "no"); ("q3", "yes"); ("q4", "no"); ("q5", "yes")]%string.

(** A chunk that fits the limit or is one sentence on its own. *)
Definition fitting_chunk (max_length : nat) (sentences : list string) (chunk : string)
  : Prop :=
  (String.length chunk <= max_length)%nat
  \/ exists sentence, In sentence sentences
                      /\ chunk = PyStr.strip (sentence ++ " ")%string.

(** What the loop of [_split_text] keeps true of
    [(chunks, current_chunk)] after [k] sentences. *)
Definition chunks_invariant (max_length : nat) (sentences : list string) (k : nat)
    (state : list string * string) : Prop :=
  Forall (fitting_chunk max_length sentences) (fst state)
  /\ (snd state = EmptyString
      \/ fitting_chunk max_length sentences (PyStr.strip (snd state)))
  /\ (length (fst state) + (if PyStr.is_empty (snd state) then 0 else 1) <= k)%nat.

(** ** The CV parser (backend/services/cv_parser.py)

    The extraction of the text from the PDF and the two extractors built
    on regular expressions are not modelled; the other extractors are
    functions of the text. *)

Definition newline : ascii := "010"%char.

(** [text.split('\n')] *)
Definition split_lines (text : string) : list string :=
  PyStr.split_by (Ascii.eqb newline) text.

(** [sep.join(l)] *)
Fixpoint join (sep : string) (l : list string) : string :=
  match l with
  | [] => EmptyString
  | [x] => x
  | x :: l' => (x ++ sep ++ join sep l')%string
  end.

(** [c.isupper()] on one ASCII character. *)
Definition is_upper (c : ascii) : bool :=
  let n := N_of_ascii c in ((65 <=? n) && (n <=? 90))%N.

(** [word[0].isupper()] on a word that is not empty. *)
Definition starts_upper (word : string) : bool :=
  match word with
  | EmptyString => false
  | String c _ => is_upper c
  end.

(** [any(keyword in line for keyword in keywords)] *)
Definition any_in (keywords : list string) (line : string) : bool :=
  existsb (fun keyword => PyStr.contains keyword line) keywords.

Definition skills_keywords : list string :=
  ["python"; "java"; "javascript"; "html"; "css"; "react"; "angular"; "node.js";
   "sql"; "mongodb"; "postgresql"; "mysql"; "aws"; "azure"; "gcp"; "docker";
   "kubernetes"; "git"; "ci/cd"; "agile"; "scrum"; "machine learning";
   "data analysis"; "project management"; "communication"; "leadership";
   "problem solving"].

Definition certification_keywords : list string :=
  ["certified"; "certificate"; "certification"; "pmp"; "csm"; "aws certified";
   "azure certified"; "google cloud certified"; "oracle certified";
   "microsoft certified"].

(** Lines 57-61: the loop over the first lines. *)
Fixpoint name_in (lines : list string) : option string :=
  match lines with
  | [] => None
  | line :: rest =>
      let words := PyStr.split (PyStr.strip line) in
      if (2 <=? length words)%nat
         && forallb starts_upper (filter (fun word => negb (PyStr.is_empty word)) words)
      then Some (join " " (firstn 2 words))
      else name_in rest
  end.

(** Lines 54-61. *)
Definition extract_name (text : string) : string :=
  let lines := split_lines text in
  match name_in (firstn 5 lines) with
  | Some found => found
  | None => "Unknown"
  end.

(** Lines 75-84. *)
Definition extract_skills (text : string) : list string :=
  let text_lower := PyStr.lower text in
  filter (fun skill => PyStr.contains skill text_lower) skills_keywords.

(** The loop the three section extractors share (lines 92-101, 111-120,
    143-152): a line with a heading keyword opens the section and is
    skipped, a line with a closing keyword ends the loop once the section
    is open, any other non-blank line of the open section is kept,
    stripped. *)
Fixpoint section_lines (headings closings : list string) (in_section : bool)
    (lines : list string) : list string :=
  match lines with
  | [] => []
  | line :: rest =>
      let line_lower := PyStr.lower line in
      if any_in headings line_lower then section_lines headings closings true rest
      else if in_section && any_in closings line_lower then []
      else if in_section && negb (PyStr.is_empty (PyStr.strip line))
           then PyStr.strip line :: section_lines headings closings in_section rest
      else section_lines headings closings in_section rest
  end.

Definition experience_headings : list string :=
  ["experience"; "work history"; "employment"].

Definition experience_closings : list string :=
  ["education"; "skills"; "certifications"].

Definition education_headings : list string :=
  ["education"; "academic"; "university"; "college"].

Definition education_closings : list string :=
  ["experience"; "skills"; "certifications"].

Definition interests_headings : list string :=
  ["interests"; "hobbies"; "activities"].

Definition interests_closings : list string :=
  ["experience"; "skills"; "education"; "certifications"].

(** Lines 86-103. *)
Definition extract_experience (text : string) : string :=
  let lines := split_lines text in
  let experience_lines :=
    section_lines experience_headings experience_closings false lines in
  if is_nil experience_lines then "No experience information found"
  else join (String newline EmptyString) experience_lines.

(** Lines 105-122. *)
Definition extract_education (text : string) : string :=
  let lines := split_lines text in
  let education_lines :=
    section_lines education_headings education_closings false lines in
  if is_nil education_lines then "No education information found"
  else join (String newline EmptyString) education_lines.

(** Lines 124-135. *)
Definition extract_certifications (text : string) : list string :=
  let lines := split_lines text in
  map PyStr.strip
      (filter (fun line => any_in certification_keywords (PyStr.lower line)) lines).

(** Lines 137-154. *)
Definition extract_interests (text : string) : list string :=
  let lines := split_lines text in
  let interests_lines :=
    section_lines interests_headings interests_closings false lines in
  if is_nil interests_lines then [] else interests_lines.

(** The dict [parse] returns. *)
Record CvData : Type := mkCvData {
  cv_name : string;
  cv_email : string;
  cv_phone : string;
  cv_skills : list string;
  cv_experience : string;
  cv_education : string;
  cv_certifications : list string;
  cv_interests : list string;
  cv_text : string
}.

Section Parse.

(** The two extractors built on regular expressions. *)
Variable extract_email : string -> string.
Variable extract_phone : string -> string.

(** Lines 33-52: the dict built from the text of the PDF. *)
Definition parse_text (text : string) : CvData :=
  mkCvData (extract_name text) (extract_email text) (extract_phone text)
           (extract_skills text) (extract_experience text) (extract_education text)
           (extract_certifications text) (extract_interests text) text.

End Parse.

(** ** The application (backend/app.py) *)

(** Lines 92-105: the record stored for an uploaded CV; [new_id] is the
    key the database assigns and [traits] is [json.dumps] of the CV
    analysis. *)
Definition candidate_of_cv (new_id : Z) (cv_data : CvData) (traits : string)
    (filename : string) : Candidate :=
  mkCandidate new_id (cv_name cv_data) (cv_email cv_data) (Some (cv_phone cv_data))
    (Some (join ", " (cv_skills cv_data)))
    (Some (cv_experience cv_data))
    (Some (cv_education cv_data))
    (Some (join ", " (cv_certifications cv_data)))
    (Some (join ", " (cv_interests cv_data)))
    (Some traits) None (Some filename).

(** A token that survives the trip through a comma-separated field: no
    comma, no surrounding whitespace, no capital. *)
Definition clean_token (token : string) : bool :=
  negb (PyStr.contains "," token) && String.eqb (normalize token) token.

(** No whitespace in the word. *)
Definition no_space (word : string) : bool :=
  forallb (fun c => negb (PyStr.is_space c)) (list_ascii_of_string word).

(** A line a section extractor keeps: a non-blank line of the text,
    stripped, with no heading keyword and no closing keyword in it. *)
Definition kept_line (headings closings : list string) (text : string)
    (kept : string) : Prop :=
  kept <> EmptyString
  /\ any_in headings (PyStr.lower kept) = false
  /\ any_in closings (PyStr.lower kept) = false
  /\ exists line, In line (split_lines text) /\ kept = PyStr.strip line.

(** No line of the text holds a heading keyword. *)
Definition no_heading (headings : list string) (text : string) : Prop :=
  Forall (fun line => any_in headings (PyStr.lower line) = false) (split_lines text).

(** What a request handler does: a rendered body, an [HTTPException]
    with its status code, or an exception that escapes. *)
Inductive response (A : Type) : Type :=
| Rendered (body : A)
| HttpError (status : Z)
| Crashed (e : exn).

Arguments Rendered {A} body.
Arguments HttpError {A} status.
Arguments Crashed {A} e.

(** [db.query(job.Job).filter(job.Job.id == job_id).first()] on the rows
    of the table. *)
Definition find_job (jobs : list Job) (wanted : Z) : option Job :=
  find (fun j => Z.eqb (job_id j) wanted) jobs.

(** The dict [candidate_dict] of the candidates page. *)
Record PageRow : Type := mkPageRow {
  row_id : Z;
  row_name : string;
  row_email : string;
  row_phone : option string;
  row_skills : option string;
  row_experience : option string;
  row_education : option string;
  row_certifications : option string;
  row_interests : option string;
  row_personality_traits : json;
  row_test_personality_traits : json;
  row_cv_filename : option string
}.

Section Handlers.

Variable json_loads : string -> option json.

(** Lines 206-211 and 214-219: the decoded document, [None] (here
    [JNull]) when the field is empty or its decoding raises. *)
Definition decoded_or_none (field : option string) : json :=
  match field with
  | Some (String a s) =>
      match json_loads (String a s) with
      | Some v => v
      | None => JNull
      end
  | _ => JNull
  end.

(** Lines 204-236: one turn of the loop. *)
Definition page_row (candidate_obj : Candidate) : PageRow :=
  let personality_traits := decoded_or_none (personality_traits candidate_obj) in
  let test_personality_traits :=
    decoded_or_none (test_personality_traits candidate_obj) in
  mkPageRow (cand_id candidate_obj) (name candidate_obj) (email candidate_obj)
    (phone candidate_obj) (skills candidate_obj) (experience candidate_obj)
    (education candidate_obj) (certifications candidate_obj) (interests candidate_obj)
    personality_traits test_personality_traits (cv_filename candidate_obj).

(** Lines 184-246, the data handed to the template; [selected] is the
    query parameter [job_id]. *)
Definition candidates_page (jobs : list Job) (all_candidates : list Candidate)
    (selected : option Z) : response (list (PageRow * R)) :=
  let process (ranked_candidates : list (Candidate * R)) :=
    Rendered (map (fun cs => (page_row (fst cs), snd cs)) ranked_candidates) in
  match selected with
  | Some wanted =>
      if Z.eqb wanted 0 then process (map (fun c => (c, 0.5%R)) all_candidates)
      else
        match find_job jobs wanted with
        | None => HttpError 404
        | Some db_job =>
            match rank_candidates json_loads all_candidates db_job with
            | Ok ranked_candidates => process ranked_candidates
            | Raise e => Crashed e
            end
        end
  | None => process (map (fun c => (c, 0.5%R)) all_candidates)
  end.

(** Lines 249-275.  The loop at line 259, [for candidate, score in ...],
    assigns the name [candidate], so the name is a local variable of the
    whole body and hides the module [candidate] imported at line 14.
    Line 255 reads [candidate.Candidate] before the loop has bound the
    name, which raises [UnboundLocalError]: with a job of the wanted id
    the handler stops there, and the ranking at line 256 and the loop of
    lines 258-273 are never reached. *)
Definition api_rank_candidates (jobs : list Job) (all_candidates : list Candidate)
    (wanted : Z) : response (list (Candidate * R)) :=
  match find_job jobs wanted with
  | None => HttpError 404
  | Some db_job => Crashed UnboundLocalError
  end.

End Handlers.

(** Two text attributes that differ at most in the case of their
    letters. *)
Definition same_up_to_case (a b : option string) : Prop :=
  option_map PyStr.lower a = option_map PyStr.lower b.

(** * Properties *)

Local Open Scope R_scope.

(** ** The Python operations on examples *)

Example split_comma_ex :
  map normalize (PyStr.split_comma "Python, SQL") = ["python"; "sql"].
Proof. reflexivity. Qed.

Example loads_ex1 :
  Json.loads ("{" ++ Json.quoted "openness" ++ ": 0.8, "
                  ++ Json.quoted "a" ++ " : [1, -2.5e1, true, null]}")
  = Some (JObj [("openness", JNum (8 # 10));
                ("a", JArr [JNum (1 # 1); JNum (-25 # 1); JBool true; JNull])]).
Proof. vm_compute. reflexivity. Qed.

(** Escapes: a letter written by its code, and a surrogate pair, which is
    the one character U+1F600, four bytes in UTF-8. *)
Example loads_escapes :
  Json.loads (Json.quoted "\u006fpen\/\u0041")
  = Some (JStr "open/A")
  /\ Json.loads (Json.quoted "\ud83d\ude00")
     = Some (JStr (String "240" (String "159" (String "152" (String "128" "")))))
  /\ Json.loads (Json.quoted "\u00zz") = None.
Proof. repeat split; vm_compute; reflexivity. Qed.

(** The constants beyond the finite numbers, and the two kinds of
    numerals. *)
Example loads_doubles :
  Json.loads "[NaN, Infinity, -Infinity]" = None
  /\ Float64.loads "[NaN, Infinity, -Infinity]"
     = Some (Float64.OList [Float64.OFloat Float64.nan;
                            Float64.OFloat Float64.infinity;
                            Float64.OFloat Float64.neg_infinity])
  /\ Float64.loads "[1, 1.0, 1e400, -0.0]"
     = Some (Float64.OList [Float64.OInt 1; Float64.OFloat Float64.one;
                            Float64.OFloat Float64.infinity;
                            Float64.OFloat (S754_zero true)]).
Proof. repeat split; vm_compute; reflexivity. Qed.

Example loads_ex2 : Json.loads "not json" = None.
Proof. reflexivity. Qed.

Example loads_ex3 : Json.loads "[1, 2,]" = None.
Proof. reflexivity. Qed.

Example split_ex : PyStr.split "  senior  backend " = ["senior"; "backend"].
Proof. reflexivity. Qed.

Example split_comma_empty_ex : PyStr.split_comma "" = [""].
Proof. reflexivity. Qed.

Example contains_ex :
  PyStr.contains "back" "backend developer" = true
  /\ PyStr.contains "backend" "frontend" = false.
Proof. split; reflexivity. Qed.

Example skill_partial_ex :
  _calculate_skill_score (with_skills "python" blank_candidate)
    (mkJob 0 "" None (Some "Python, SQL, AWS") None None None None)
  = Ok (1 / 3).
Proof. cbv -[Rdiv INR Q2R IZR]. apply f_equal. simpl. lra. Qed.

(** ** Properties of the keyword factors *)

Lemma truthy_false_iff (o : option string) : truthy o = false <-> missing o.
Proof.
  unfold truthy, missing. destruct o as [[|a s]|]; simpl; split; intro H;
    try reflexivity; try discriminate; auto.
  - destruct H as [H | H]; discriminate.
Qed.

Lemma truthy_as_str (o : option string) :
  truthy o = true -> exists a s, o = Some (String a s) /\ as_str o = Ok (String a s).
Proof.
  destruct o as [[|a s]|]; simpl; try discriminate. intros _. exists a, s. split; reflexivity.
Qed.

Lemma split_by_not_nil (sep : ascii -> bool) (s : string) : PyStr.split_by sep s <> [].
Proof.
  induction s as [|c s IH]; simpl; [discriminate|].
  destruct (sep c); [discriminate|].
  destruct (PyStr.split_by sep s); discriminate.
Qed.

Lemma count_if_length {A : Type} (p : A -> bool) (l : list A) :
  count_if p l = length (filter p l).
Proof.
  unfold count_if. induction (filter p l) as [|x f IH]; simpl; [reflexivity|].
  now rewrite IH.
Qed.

Lemma count_if_le {A : Type} (p : A -> bool) (l : list A) :
  (count_if p l <= length l)%nat.
Proof. rewrite count_if_length. apply filter_length_le. Qed.

Lemma mem_occurs (x : string) (l : list string) : PyStr.mem x l = occurs_among x l.
Proof.
  unfold PyStr.mem, occurs_among. destruct (in_dec string_dec x l) as [Hin | Hnin].
  - apply existsb_exists. exists x. split; [assumption | apply String.eqb_refl].
  - apply not_true_is_false. intro H. apply existsb_exists in H.
    destruct H as [y [Hy Heq]]. apply String.eqb_eq in Heq. subst y. contradiction.
Qed.

Lemma truediv_ok (a b : nat) :
  b <> 0%nat -> truediv a b = Ok (INR a / INR b).
Proof.
  intro Hb. unfold truediv. destruct (Nat.eqb_spec b 0); [contradiction | reflexivity].
Qed.

Lemma ratio_bounds (a b : nat) :
  (a <= b)%nat -> b <> 0%nat -> 0 <= INR a / INR b <= 1.
Proof.
  intros Hab Hb.
  assert (0 < INR b) by (apply lt_0_INR; lia).
  assert (0 <= INR a) by apply pos_INR.
  assert (INR a <= INR b) by (apply le_INR; assumption).
  split.
  - apply Rmult_le_pos; [assumption | left; apply Rinv_0_lt_compat; assumption].
  - apply Rmult_le_reg_r with (r := INR b); [assumption|].
    unfold Rdiv. rewrite Rmult_assoc, Rinv_l by lra. lra.
Qed.

Lemma is_nil_false_length {A : Type} (l : list A) : is_nil l = false -> length l <> 0%nat.
Proof. destruct l; simpl; [discriminate | discriminate]. Qed.

Lemma unit_score_half : unit_score (Ok 0.5).
Proof. exists 0.5. split; [reflexivity | lra]. Qed.

Lemma unit_score_truediv {A : Type} (p : A -> bool) (l : list A) :
  length l <> 0%nat -> unit_score (truediv (count_if p l) (length l)).
Proof.
  intro Hl. exists (INR (count_if p l) / INR (length l)). split.
  - apply truediv_ok. assumption.
  - apply ratio_bounds; [apply count_if_le | assumption].
Qed.

Ltac scorer_cases c j f g :=
  destruct (truthy (f j)) eqn:Hj; simpl; [| apply unit_score_half];
  destruct (truthy (g c)) eqn:Hc; simpl; [| apply unit_score_half];
  destruct (truthy_as_str _ Hj) as [a1 [s1 [_ ->]]];
  destruct (truthy_as_str _ Hc) as [a2 [s2 [_ ->]]]; cbv beta iota delta [bind].

Lemma skill_score_unit (c : Candidate) (j : Job) :
  unit_score (_calculate_skill_score c j).
Proof.
  unfold _calculate_skill_score. scorer_cases c j required_skills skills.
  destruct (is_nil _) eqn:Hn; [apply unit_score_half|].
  apply unit_score_truediv. apply is_nil_false_length. assumption.
Qed.

Lemma certification_score_unit (c : Candidate) (j : Job) :
  unit_score (_calculate_certification_score c j).
Proof.
  unfold _calculate_certification_score.
  scorer_cases c j required_certifications certifications.
  destruct (is_nil _) eqn:Hn; [apply unit_score_half|].
  apply unit_score_truediv. apply is_nil_false_length. assumption.
Qed.

Lemma experience_score_unit (c : Candidate) (j : Job) :
  unit_score (_calculate_experience_score c j).
Proof.
  unfold _calculate_experience_score.
  scorer_cases c j required_experience experience.
  destruct (is_nil _) eqn:Hn; [apply unit_score_half|].
  apply unit_score_truediv. apply is_nil_false_length. assumption.
Qed.

Lemma education_score_unit (c : Candidate) (j : Job) :
  unit_score (_calculate_education_score c j).
Proof.
  unfold _calculate_education_score.
  scorer_cases c j required_education education.
  destruct (is_nil _) eqn:Hn; [apply unit_score_half|].
  apply unit_score_truediv. apply is_nil_false_length. assumption.
Qed.

(** The specification's three steps against the code's operations. *)

Lemma spec_is_blank_is_space (c : ascii) : spec_is_blank c = PyStr.is_space c.
Proof. destruct c as [[] [] [] [] [] [] [] []]; reflexivity. Qed.

Lemma spec_small_lower_char (c : ascii) :
  spec_small spec_capitals spec_small_letters c = PyStr.lower_char c.
Proof. destruct c as [[] [] [] [] [] [] [] []]; vm_compute; reflexivity. Qed.

Lemma spec_lowercase_lower (s : string) : spec_lowercase s = PyStr.lower s.
Proof.
  unfold spec_lowercase. induction s as [|c s IH]; [reflexivity|].
  cbn [list_ascii_of_string map string_of_list_ascii PyStr.lower].
  rewrite spec_small_lower_char, IH. reflexivity.
Qed.

Lemma drop_blanks_lstrip (s : string) :
  spec_drop_blanks (list_ascii_of_string s) = list_ascii_of_string (PyStr.lstrip s).
Proof.
  induction s as [|c s IH]; [reflexivity|].
  cbn [list_ascii_of_string spec_drop_blanks PyStr.lstrip].
  rewrite spec_is_blank_is_space. destruct (PyStr.is_space c); [exact IH | reflexivity].
Qed.

Lemma drop_blanks_last (l : list ascii) (c : ascii) :
  spec_drop_blanks (l ++ [c])
  = match spec_drop_blanks l with
    | [] => spec_drop_blanks [c]
    | _ :: _ => spec_drop_blanks l ++ [c]
    end.
Proof.
  induction l as [|a l IH]; [reflexivity|].
  cbn [app spec_drop_blanks]. destruct (spec_is_blank a); [exact IH | reflexivity].
Qed.

Lemma rev_drop_blanks_rstrip (s : string) :
  rev (spec_drop_blanks (rev (list_ascii_of_string s)))
  = list_ascii_of_string (PyStr.rstrip s).
Proof.
  induction s as [|c s IH]; [reflexivity|].
  cbn [list_ascii_of_string rev PyStr.rstrip]. rewrite drop_blanks_last.
  destruct (spec_drop_blanks (rev (list_ascii_of_string s))) as [|a l] eqn:E.
  - cbn [rev] in IH. destruct (PyStr.rstrip s) as [|a' s']; [| discriminate].
    cbn [spec_drop_blanks PyStr.is_empty]. rewrite spec_is_blank_is_space, andb_true_r.
    destruct (PyStr.is_space c); reflexivity.
  - rewrite rev_app_distr. change (rev [c]) with [c]. cbn [app]. rewrite IH.
    destruct (PyStr.rstrip s) as [|a' s'] eqn:Er.
    + exfalso. cbn [list_ascii_of_string] in IH.
      apply (f_equal (@length ascii)) in IH. rewrite length_rev in IH. discriminate.
    + cbn [PyStr.is_empty]. rewrite andb_false_r. reflexivity.
Qed.

Lemma spec_trim_strip (s : string) : spec_trim s = PyStr.strip s.
Proof.
  unfold spec_trim, PyStr.strip.
  rewrite drop_blanks_lstrip, rev_drop_blanks_rstrip.
  apply string_of_list_ascii_of_string.
Qed.

Lemma string_app_nil_r (a : string) : (a ++ "")%string = a.
Proof. induction a as [|x a IH]; simpl; [reflexivity | now rewrite IH]. Qed.

Lemma string_of_list_ascii_last (l : list ascii) (c : ascii) (w : string) :
  (string_of_list_ascii (l ++ [c]) ++ w)%string
  = (string_of_list_ascii l ++ String c w)%string.
Proof. induction l as [|a l IH]; [reflexivity|]. cbn. rewrite IH. reflexivity. Qed.

Lemma spec_pieces_split_by (rest : string) :
  forall current,
    spec_pieces current (list_ascii_of_string rest)
    = match PyStr.split_by (Ascii.eqb ","%char) rest with
      | w :: ws => (string_of_list_ascii (rev current) ++ w)%string :: ws
      | [] => []
      end.
Proof.
  induction rest as [|c rest IH]; intro current.
  - cbn. rewrite string_app_nil_r. reflexivity.
  - cbn [list_ascii_of_string spec_pieces PyStr.split_by].
    destruct (ascii_dec c ","%char) as [-> | Hc].
    + rewrite Ascii.eqb_refl, string_app_nil_r.
      f_equal. rewrite (IH []). cbn [rev string_of_list_ascii].
      destruct (PyStr.split_by (Ascii.eqb ","%char) rest); reflexivity.
    + replace (Ascii.eqb ","%char c) with false
        by (symmetry; apply Ascii.eqb_neq; congruence).
      rewrite (IH (c :: current)).
      destruct (PyStr.split_by (Ascii.eqb ","%char) rest) as [|w ws] eqn:E.
      * exfalso. exact (split_by_not_nil _ _ E).
      * cbn [rev]. rewrite string_of_list_ascii_last. reflexivity.
Qed.

Lemma spec_tokens_normalize (field : string) :
  spec_tokens field = map normalize (PyStr.split_comma field).
Proof.
  unfold spec_tokens, PyStr.split_comma. rewrite (spec_pieces_split_by field []).
  cbn [rev string_of_list_ascii].
  destruct (PyStr.split_by (Ascii.eqb ","%char) field) as [|w ws] eqn:E.
  - exfalso. exact (split_by_not_nil _ _ E).
  - cbn [append]. apply map_ext. intro token. unfold normalize.
    rewrite spec_trim_strip. apply spec_lowercase_lower.
Qed.



(** C6. Each of the four keyword factors is exactly 0.5, returned and not
    raised, as soon as the job's field or the candidate's field is missing
    or empty, whatever the other field holds. *)
Theorem keyword_factors_neutral (c : Candidate) (j : Job) :
  (missing (required_skills j) \/ missing (skills c) ->
   _calculate_skill_score c j = Ok 0.5)
  /\ (missing (required_experience j) \/ missing (experience c) ->
      _calculate_experience_score c j = Ok 0.5)
  /\ (missing (required_education j) \/ missing (education c) ->
      _calculate_education_score c j = Ok 0.5)
  /\ (missing (required_certifications j) \/ missing (certifications c) ->
      _calculate_certification_score c j = Ok 0.5).
Proof.
  unfold _calculate_skill_score, _calculate_experience_score,
    _calculate_education_score, _calculate_certification_score.
  repeat split; intros [H | H]; apply truthy_false_iff in H; rewrite H;
    try reflexivity; rewrite orb_true_r; reflexivity.
Qed.

Lemma keyword_factors_neutral_witness :
  _calculate_skill_score cand_python_java_sql blank_job = Ok 0.5
  /\ _calculate_experience_score blank_candidate job_python_sql = Ok 0.5
  /\ _calculate_education_score blank_candidate blank_job = Ok 0.5
  /\ _calculate_certification_score cand_python_java_sql job_python_sql = Ok 0.5.
Proof.
  pose proof (keyword_factors_neutral cand_python_java_sql blank_job) as [H1 _].
  pose proof (keyword_factors_neutral blank_candidate job_python_sql) as [_ [H2 _]].
  pose proof (keyword_factors_neutral blank_candidate blank_job) as [_ [_ [H3 _]]].
  pose proof (keyword_factors_neutral cand_python_java_sql job_python_sql)
    as [_ [_ [_ H4]]].
  split; [apply H1; left; left; reflexivity |].
  split; [apply H2; right; left; reflexivity |].
  split; [apply H3; left; left; reflexivity |].
  apply H4; left; left; reflexivity.
Defined.

(** ** Properties of the personality factor *)

Lemma max_distance_pos : 0 < max_distance.
Proof. unfold max_distance. apply sqrt_lt_R0. lra. Qed.

Lemma numeric_value_of (v : json) : numeric v -> PyObj.number v = Ok (value_of v).
Proof. intros [x Hx]. unfold value_of. rewrite Hx. reflexivity. Qed.

Lemma numeric_dict_get (d : list (string * json)) (k : string) (default : json) :
  trait_mapping d -> numeric default -> numeric (PyObj.dict_get d k default).
Proof.
  intros Hd Hdef. induction Hd as [|[k' v] d' Hv _ IH]; simpl; [assumption|].
  destruct (String.eqb k k'); [exact Hv | exact IH].
Qed.

Lemma numeric_half : numeric (JNum 0.5).
Proof. eexists. reflexivity. Qed.

Lemma decodes_to_truthy loads field v :
  decodes_to loads field v ->
  exists s, truthy field = true /\ as_str field = Ok s /\ loads s = Some v.
Proof.
  intros [a [s [-> Hl]]]. exists (String a s). repeat split; assumption.
Qed.

Lemma selected_traits_select loads c v :
  selected_traits loads c v -> select_candidate_traits loads c = Ok (Some v).
Proof.
  unfold select_candidate_traits, loads_or_empty.
  intros [H | [Hm H]].
  - destruct (decodes_to_truthy _ _ _ H) as [s [-> [-> Hl]]]. simpl. now rewrite Hl.
  - apply truthy_false_iff in Hm. rewrite Hm.
    destruct (decodes_to_truthy _ _ _ H) as [s [-> [-> Hl]]]. simpl. now rewrite Hl.
Qed.

Lemma distance_loop (req cand : list (string * json)) :
  trait_mapping req -> trait_mapping cand ->
  forall (keys : list (string * json)) (acc : R),
    for_loop (distance_step (JObj req) (JObj cand))
             (map (fun kv => JStr (fst kv)) keys) acc
    = Ok (acc + fold_right Rplus 0
                  (map (fun kv => (trait_value req (fst kv) - trait_value cand (fst kv)) ^ 2)
                       keys)).
Proof.
  intros Hreq Hcand keys. induction keys as [|[k v] keys IH]; intro acc; simpl.
  - apply f_equal. lra.
  - unfold distance_step at 1. simpl. unfold PyObj.sub.
    rewrite (numeric_value_of _ (numeric_dict_get req k _ Hreq numeric_half)).
    rewrite (numeric_value_of _ (numeric_dict_get cand k _ Hcand numeric_half)).
    simpl. rewrite IH. unfold trait_value. apply f_equal. simpl. lra.
Qed.

Lemma sum_squares_nonneg {A : Type} (f : A -> R) (l : list A) :
  0 <= fold_right Rplus 0 (map (fun a => f a ^ 2) l).
Proof.
  induction l as [|a l IH]; cbn [map fold_right]; [lra|].
  pose proof (pow2_ge_0 (f a)). lra.
Qed.

Lemma squared_distance_nonneg req cand : 0 <= squared_distance req cand.
Proof.
  unfold squared_distance.
  apply (sum_squares_nonneg (fun kv => trait_value req (fst kv) - trait_value cand (fst kv))).
Qed.

Lemma math_sqrt_nonneg (x : R) : 0 <= x -> PyObj.math_sqrt x = Ok (sqrt x).
Proof.
  intro Hx. unfold PyObj.math_sqrt. destruct (Rlt_dec x 0); [lra | reflexivity].
Qed.

(** On two non-empty trait mappings the score is the closed formula. *)
Lemma personality_formula_selected loads c j req cand :
  decodes_to loads (required_personality_traits j) (JObj req) ->
  select_candidate_traits loads c = Ok (Some (JObj cand)) ->
  req <> [] -> cand <> [] ->
  trait_mapping req -> trait_mapping cand ->
  _calculate_personality_score loads c j
  = Ok (1 - sqrt (squared_distance req cand) / sqrt 5).
Proof.
  intros Hr Hc Hreq Hcand Mreq Mcand. unfold _calculate_personality_score.
  destruct (decodes_to_truthy _ _ _ Hr) as [s [-> [-> Hl]]]. simpl. rewrite Hl.
  rewrite Hc. simpl.
  destruct req as [|kv req']; [contradiction|].
  destruct cand as [|kv' cand']; [contradiction|].
  cbn [is_nil negb orb].
  change (kv :: req') with ([] ++ kv :: req') at 2.
  rewrite app_nil_l.
  rewrite (distance_loop (kv :: req') (kv' :: cand') Mreq Mcand (kv :: req') 0).
  cbn [bind]. rewrite Rplus_0_l.
  fold (squared_distance (kv :: req') (kv' :: cand')).
  rewrite math_sqrt_nonneg by apply squared_distance_nonneg.
  reflexivity.
Qed.

Lemma personality_formula loads c j req cand :
  decodes_to loads (required_personality_traits j) (JObj req) ->
  selected_traits loads c (JObj cand) ->
  req <> [] -> cand <> [] ->
  trait_mapping req -> trait_mapping cand ->
  _calculate_personality_score loads c j
  = Ok (1 - sqrt (squared_distance req cand) / sqrt 5).
Proof.
  intros Hr Hc. apply personality_formula_selected; [exact Hr|].
  apply selected_traits_select. exact Hc.
Qed.

(** An empty mapping on either side gives the neutral score. *)
Lemma personality_empty_mapping loads c j req cand :
  decodes_to loads (required_personality_traits j) (JObj req) ->
  select_candidate_traits loads c = Ok (Some (JObj cand)) ->
  req = [] \/ cand = [] ->
  _calculate_personality_score loads c j = Ok 0.5.
Proof.
  intros Hr Hc He. unfold _calculate_personality_score.
  destruct (decodes_to_truthy _ _ _ Hr) as [s [-> [-> Hl]]]. simpl. rewrite Hl.
  rewrite Hc. simpl. destruct He as [-> | ->]; simpl;
    [reflexivity | rewrite orb_true_r; reflexivity].
Qed.

Lemma bind_ok {A B : Type} (m : result A) (k : A -> result B) (b : B) :
  bind m k = Ok b -> exists a, m = Ok a /\ k a = Ok b.
Proof. destruct m as [a|e]; simpl; [eauto | discriminate]. Qed.

Lemma distance_step_grows rt ct (acc : R) (trait : json) (acc' : R) :
  distance_step rt ct acc trait = Ok acc' -> acc <= acc'.
Proof.
  unfold distance_step. intro H.
  apply bind_ok in H. destruct H as [rv [_ H]].
  apply bind_ok in H. destruct H as [cv [_ H]].
  apply bind_ok in H. destruct H as [diff [_ H]].
  injection H as <-. pose proof (pow2_ge_0 diff). lra.
Qed.

Lemma for_loop_distance_nonneg rt ct (traits : list json) :
  forall acc d, 0 <= acc ->
    for_loop (distance_step rt ct) traits acc = Ok d -> 0 <= d.
Proof.
  induction traits as [|t traits IH]; intros acc d Hacc H; simpl in H.
  - injection H as <-. assumption.
  - apply bind_ok in H. destruct H as [acc' [Hstep H]].
    apply distance_step_grows in Hstep. apply (IH acc'); [lra | assumption].
Qed.

Lemma similarity_le_1 (distance : R) : 1 - sqrt distance / max_distance <= 1.
Proof.
  pose proof (sqrt_pos distance). pose proof max_distance_pos.
  assert (0 <= sqrt distance / max_distance).
  { apply Rmult_le_pos; [assumption | left; apply Rinv_0_lt_compat; assumption]. }
  lra.
Qed.

(** Every returned personality score is 0.5 or the similarity of a
    non-negative squared distance. *)
Lemma personality_score_shape loads c j r :
  _calculate_personality_score loads c j = Ok r ->
  r = 0.5 \/ exists d, 0 <= d /\ r = 1 - sqrt d / max_distance.
Proof.
  unfold _calculate_personality_score. intro H.
  destruct (negb (truthy (required_personality_traits j)));
    [injection H as <-; left; reflexivity|].
  apply bind_ok in H. destruct H as [rs [_ H]].
  destruct (loads rs) as [rt|]; [| injection H as <-; left; reflexivity].
  apply bind_ok in H. destruct H as [[ct|] [_ H]];
    [| injection H as <-; left; reflexivity].
  destruct (negb (PyObj.truth rt) || negb (PyObj.truth ct));
    [injection H as <-; left; reflexivity|].
  apply bind_ok in H. destruct H as [traits [_ H]].
  apply bind_ok in H. destruct H as [d [Hloop H]].
  apply bind_ok in H. destruct H as [d' [Hsqrt H]].
  injection H as <-. unfold PyObj.math_sqrt in Hsqrt.
  destruct (Rlt_dec d 0); [discriminate|]. injection Hsqrt as <-.
  right. exists d. split; [| reflexivity].
  apply (for_loop_distance_nonneg _ _ _ 0 d (Rle_refl 0) Hloop).
Qed.

(** Decoding the example documents. *)

Lemma loads_openness_08 :
  Json.loads (traits_doc ["openness"] "0.8") = Some (JObj [("openness", JNum 0.8)]).
Proof. vm_compute. reflexivity. Qed.

Lemma loads_openness_02 :
  Json.loads (traits_doc ["openness"] "0.2") = Some (JObj [("openness", JNum 0.2)]).
Proof. vm_compute. reflexivity. Qed.

Lemma loads_openness_05 :
  Json.loads (traits_doc ["openness"] "0.5") = Some (JObj [("openness", JNum 0.5)]).
Proof. vm_compute. reflexivity. Qed.

Lemma loads_openness_high :
  Json.loads (traits_doc ["openness"] (Json.quoted "high"))
  = Some (JObj [("openness", JStr "high")]).
Proof. vm_compute. reflexivity. Qed.

Lemma loads_traits_high (names : list string) :
  names = big_five \/ names = big_five ++ ["honesty"] ->
  Json.loads (traits_doc names "1.0")
  = Some (JObj (map (fun n => (n, JNum (10 # 10))) names)).
Proof. intros [-> | ->]; vm_compute; reflexivity. Qed.

Lemma loads_traits_low (names : list string) :
  names = big_five \/ names = big_five ++ ["honesty"] ->
  Json.loads (traits_doc names "0.0")
  = Some (JObj (map (fun n => (n, JNum (0 # 10))) names)).
Proof. intros [-> | ->]; vm_compute; reflexivity. Qed.

Lemma decodes_to_intro loads (s : string) (v : json) :
  PyStr.is_empty s = false -> loads s = Some v -> decodes_to loads (Some s) v.
Proof.
  destruct s as [|a s]; [discriminate|]. intros _ H. exists a, s. split; [reflexivity | exact H].
Qed.

Lemma trait_mapping_const (names : list string) (q : Q) :
  trait_mapping (map (fun n => (n, JNum q)) names).
Proof.
  unfold trait_mapping. apply Forall_map. apply Forall_forall. intros n _.
  exists (Q2R q). reflexivity.
Qed.

Lemma unit_squares_sum (req cand keys : list (string * json)) :
  Forall (fun kv => Rabs (trait_value req (fst kv) - trait_value cand (fst kv)) = 1) keys ->
  fold_right Rplus 0
    (map (fun kv => (trait_value req (fst kv) - trait_value cand (fst kv)) ^ 2) keys)
  = INR (length keys).
Proof.
  induction 1 as [|kv keys Hkv _ IH]; [reflexivity|].
  cbn [map fold_right length]. rewrite IH, S_INR.
  rewrite <- pow2_abs, Hkv. lra.
Qed.

Lemma similarity_of_max_distance : 1 - sqrt 5 / sqrt 5 = 0.
Proof. pose proof max_distance_pos as H. unfold max_distance in H. field. lra. Qed.

(** The example with one trait, for any decoder. *)
Lemma openness_match loads c j :
  decodes_to loads (test_personality_traits c) (JObj [("openness", JNum 0.8)]) ->
  decodes_to loads (required_personality_traits j) (JObj [("openness", JNum 0.8)]) ->
  _calculate_personality_score loads c j = Ok 1.
Proof.
  intros Hc Hj.
  rewrite (personality_formula loads c j _ _ Hj (or_introl Hc));
    try discriminate; try apply (trait_mapping_const ["openness"] 0.8).
  apply f_equal.
  replace (squared_distance _ _) with 0.
  - rewrite sqrt_0. unfold Rdiv. lra.
  - unfold squared_distance, trait_value, value_of. simpl. lra.
Qed.

Lemma both_sources_score :
  _calculate_personality_score Json.loads cand_both_sources job_openness = Ok 1.
Proof.
  apply openness_match; apply decodes_to_intro;
    solve [reflexivity | apply loads_openness_08].
Qed.

Lemma six_traits_unit_apart :
  unit_apart (map (fun n => (n, JNum (10 # 10))) (big_five ++ ["honesty"]))
             (map (fun n => (n, JNum (0 # 10))) (big_five ++ ["honesty"])).
Proof.
  unfold unit_apart. repeat constructor;
    unfold trait_value, value_of; simpl; unfold Q2R; simpl;
    rewrite Rabs_pos_eq; lra.
Qed.

Lemma six_traits_personality :
  _calculate_personality_score Json.loads cand_six_low job_six_high
  = Ok (1 - sqrt 6 / sqrt 5).
Proof.
  rewrite (personality_formula Json.loads cand_six_low job_six_high
             (map (fun n => (n, JNum (10 # 10))) (big_five ++ ["honesty"]))
             (map (fun n => (n, JNum (0 # 10))) (big_five ++ ["honesty"]))).
  - unfold squared_distance. rewrite (unit_squares_sum _ _ _ six_traits_unit_apart).
    replace (INR (length _)) with 6 by (simpl; lra). reflexivity.
  - apply decodes_to_intro; [reflexivity | apply loads_traits_high; right; reflexivity].
  - right. split; [left; reflexivity|].
    apply decodes_to_intro; [reflexivity | apply loads_traits_low; right; reflexivity].
  - discriminate.
  - discriminate.
  - apply trait_mapping_const.
  - apply trait_mapping_const.
Qed.

Lemma six_traits_negative : 1 - sqrt 6 / sqrt 5 < 0.
Proof.
  pose proof max_distance_pos as H5. unfold max_distance in H5.
  assert (H65 : sqrt 5 < sqrt 6) by (apply sqrt_lt_1; lra).
  assert (1 < sqrt 6 / sqrt 5).
  { apply Rmult_lt_reg_r with (r := sqrt 5); [assumption|].
    unfold Rdiv. rewrite Rmult_assoc, Rinv_l by lra. lra. }
  lra.
Qed.

Lemma six_traits_keywords :
  _calculate_skill_score cand_six_low job_six_high = Ok 0
  /\ _calculate_experience_score cand_six_low job_six_high = Ok 0
  /\ _calculate_education_score cand_six_low job_six_high = Ok 0
  /\ _calculate_certification_score cand_six_low job_six_high = Ok 0.
Proof.
  repeat split; cbv -[Rdiv INR Q2R IZR]; apply f_equal; simpl; lra.
Qed.

Lemma six_traits_composite :
  _calculate_candidate_score Json.loads cand_six_low job_six_high
  = Ok (0.3 * (1 - sqrt 6 / sqrt 5)).
Proof.
  unfold _calculate_candidate_score.
  destruct six_traits_keywords as [-> [-> [-> ->]]].
  rewrite six_traits_personality. cbn [bind]. apply f_equal.
  unfold skill_weight, experience_weight, education_weight, certification_weight,
    personality_weight. lra.
Qed.

(** C1. The invariant that every factor score and the composite score lie
    in [0,1] fails on the code: with six required traits at 1 and the
    candidate's six at 0 the personality score is 1 - sqrt 6 / sqrt 5,
    below 0, and with no keyword matched the composite score is below 0
    too. *)
Theorem six_traits_leave_unit_interval :
  exists personality composite,
    _calculate_personality_score Json.loads cand_six_low job_six_high = Ok personality
    /\ personality < 0
    /\ _calculate_candidate_score Json.loads cand_six_low job_six_high = Ok composite
    /\ composite < 0.
Proof.
  exists (1 - sqrt 6 / sqrt 5), (0.3 * (1 - sqrt 6 / sqrt 5)).
  pose proof six_traits_negative.
  repeat split; [apply six_traits_personality | assumption
                 | apply six_traits_composite | lra].
Qed.

(** In the finite layer, where every number of a document is a rational,
    a personality score that is returned is at most 1, whatever the
    decoder, the candidate and the job; it can be negative, as it is with
    six required traits. *)
Lemma finite_personality_score_at_most_1 :
  (forall loads c j r, _calculate_personality_score loads c j = Ok r -> r <= 1)
  /\ (exists r,
        _calculate_personality_score Json.loads cand_six_low job_six_high = Ok r
        /\ r < 0).
Proof.
  split.
  - intros loads c j r H. apply personality_score_shape in H.
    destruct H as [-> | [d [_ ->]]]; [lra | apply similarity_le_1].
  - exists (1 - sqrt 6 / sqrt 5).
    split; [apply six_traits_personality | apply six_traits_negative].
Qed.

(** *** On doubles *)

Lemma loads_openness_nan :
  Float64.loads (traits_doc ["openness"] "NaN")
  = Some (Float64.ODict [("openness", Float64.OFloat Float64.nan)]).
Proof. vm_compute. reflexivity. Qed.

(** C10. The bound of 1 on the personality score fails on the code.
    [json.loads] accepts the constant NaN, so the required document
    [{"openness": NaN}] decodes to a mapping whose value is the float
    NaN.  Against a candidate with openness 0.5 the difference NaN - 0.5,
    its square, the sum, its square root and the quotient by sqrt 5 are
    all NaN, and the scorer returns 1 - NaN = NaN.  No comparison with
    NaN holds: the returned score is not at most 1. *)
Theorem nan_target_scores_nan :
  Float64.loads (traits_doc ["openness"] "NaN")
  = Some (Float64.ODict [("openness", Float64.OFloat Float64.nan)])
  /\ Float64._calculate_personality_score cand_openness job_openness_nan
     = Ok Float64.nan
  /\ Float64.leb Float64.nan Float64.one = false.
Proof.
  split; [apply loads_openness_nan|]. split; vm_compute; reflexivity.
Qed.

(** The other documents of this layer.  An infinite target gives the
    score minus infinity, a target of 1e200 makes the square overflow
    and line 134 raise OverflowError, and a document that is the numeral
    1e-400 is read as 0.0, a false value, and scores 0.5. *)
Example infinite_target_scores_minus_infinity :
  Float64._calculate_personality_score cand_openness job_openness_infinity
  = Ok Float64.neg_infinity.
Proof. vm_compute. reflexivity. Qed.

Example large_target_overflows :
  Float64._calculate_personality_score cand_openness job_openness_1e200
  = Raise OverflowError.
Proof. vm_compute. reflexivity. Qed.

Lemma loads_1e_minus_400 :
  Json.loads "1e-400" = Some (JNum (Json.scale 1 (-400))).
Proof. vm_compute. reflexivity. Qed.

Lemma tiny_number_is_false : PyObj.truth (JNum (Json.scale 1 (-400))) = false.
Proof. vm_compute. reflexivity. Qed.

Example underflowing_document_is_false :
  Float64._calculate_personality_score cand_openness (job_with_doc "1e-400")
  = Ok Float64.half
  /\ _calculate_personality_score Json.loads cand_openness (job_with_doc "1e-400")
     = Ok 0.5.
Proof.
  split; [vm_compute; reflexivity|].
  unfold _calculate_personality_score.
  change (required_personality_traits (job_with_doc "1e-400")) with (Some "1e-400").
  change (negb (truthy (Some "1e-400"))) with false.
  change (as_str (Some "1e-400")) with (Ok "1e-400"). cbv beta iota delta [bind].
  rewrite loads_1e_minus_400.
  rewrite (selected_traits_select Json.loads cand_openness
             (JObj [("openness", JNum 0.5)])).
  - rewrite tiny_number_is_false. reflexivity.
  - right. split; [left; reflexivity|].
    apply decodes_to_intro; [reflexivity | apply loads_openness_05].
Qed.

(** On the documents of the examples above the two layers agree: the precedence
    example scores the double 1.0, the word target raises TypeError, the
    list raises AttributeError, and six traits at distance 1 score a
    negative double. *)
Example doubles_on_the_examples :
  Float64._calculate_personality_score cand_both_sources job_openness
  = Ok Float64.one
  /\ Float64._calculate_personality_score cand_openness job_openness_high
     = Raise TypeError
  /\ Float64._calculate_personality_score cand_list_test job_openness
     = Raise AttributeError
  /\ Float64._calculate_personality_score cand_broken_test job_openness
     = Ok Float64.half
  /\ Float64._calculate_personality_score cand_big_five_low job_big_five_high
     = Ok (S754_zero false)
  /\ (exists x,
        Float64._calculate_personality_score cand_six_low job_six_high = Ok x
        /\ SFltb x (S754_zero false) = true).
Proof.
  repeat split; try (vm_compute; reflexivity).
  eexists. split; vm_compute; reflexivity.
Qed.

Lemma select_by_test loads c1 c2 a s :
  test_personality_traits c1 = Some (String a s) ->
  test_personality_traits c2 = Some (String a s) ->
  select_candidate_traits loads c1 = select_candidate_traits loads c2.
Proof.
  intros H1 H2. unfold select_candidate_traits. rewrite H1, H2. reflexivity.
Qed.

Lemma unit_mapping_is_trait_mapping (d : list (string * json)) :
  unit_mapping d -> trait_mapping d.
Proof.
  unfold unit_mapping, trait_mapping. apply Forall_impl.
  intros kv [x [Hx _]]. exists x. exact Hx.
Qed.

Lemma unit_mapping_const (names : list string) (q : Q) :
  (0 <= q <= 1)%Q -> unit_mapping (map (fun n => (n, JNum q)) names).
Proof.
  intros [H0 H1]. unfold unit_mapping. apply Forall_map. apply Forall_forall. intros n _.
  exists (Q2R q). split; [reflexivity|].
  apply Qle_Rle in H0, H1. rewrite RMicromega.Q2R_0 in H0. rewrite RMicromega.Q2R_1 in H1.
  split; assumption.
Qed.

(** The example with one trait whose values differ, for any decoder. *)
Lemma openness_mismatch loads c j :
  decodes_to loads (test_personality_traits c) (JObj [("openness", JNum 0.2)]) ->
  decodes_to loads (required_personality_traits j) (JObj [("openness", JNum 0.8)]) ->
  _calculate_personality_score loads c j = Ok (1 - 0.6 / sqrt 5).
Proof.
  intros Hc Hj.
  rewrite (personality_formula loads c j _ _ Hj (or_introl Hc));
    try discriminate;
    try apply (trait_mapping_const ["openness"] 0.8);
    try apply (trait_mapping_const ["openness"] 0.2).
  apply f_equal.
  replace (squared_distance _ _) with (0.6 * 0.6).
  - rewrite sqrt_square by lra. reflexivity.
  - unfold squared_distance, trait_value, value_of. simpl. unfold Q2R. simpl. lra.
Qed.

Lemma similarity_below_1 (d : R) : 0 < d -> 1 - d / sqrt 5 < 1.
Proof.
  intro Hd. pose proof max_distance_pos as H5. unfold max_distance in H5.
  assert (0 < d / sqrt 5) by (apply Rdiv_lt_0_compat; assumption). lra.
Qed.

Lemma select_test_as_only_source loads c a s :
  test_personality_traits c = Some (String a s) ->
  select_candidate_traits loads c
  = select_candidate_traits loads (with_traits (Some (String a s)) None c).
Proof.
  intro H. unfold select_candidate_traits. rewrite H. reflexivity.
Qed.

(** C2. When the test result is present the personality score is computed
    from it and the CV analysis plays no part.  Two candidates with the
    same test result have the same score, whatever their CV analyses
    hold, and the score is the one the test result would get as the only
    source of a candidate.  When the job's document and the test result
    decode to non-empty mappings of values in [0,1], the score is one
    minus the distance between the required values and those of the test
    result, over sqrt 5, whatever the CV analysis holds.  With test
    result openness 0.8, CV analysis openness 0.2 and required openness
    0.8 the score is exactly 1; with the two sources exchanged it is
    1 - 0.6 / sqrt 5, below 1, the value of the test result 0.2 and not
    that of the CV analysis 0.8. *)
Theorem test_traits_take_precedence (loads : string -> option json) :
  (forall c1 c2 j a s,
      test_personality_traits c1 = Some (String a s) ->
      test_personality_traits c2 = Some (String a s) ->
      _calculate_personality_score loads c1 j = _calculate_personality_score loads c2 j)
  /\ (forall c j,
        decodes_to loads (test_personality_traits c) (JObj [("openness", JNum 0.8)]) ->
        decodes_to loads (personality_traits c) (JObj [("openness", JNum 0.2)]) ->
        decodes_to loads (required_personality_traits j) (JObj [("openness", JNum 0.8)]) ->
        _calculate_personality_score loads c j = Ok 1)
  /\ (forall c j req test,
        decodes_to loads (required_personality_traits j) (JObj req) ->
        decodes_to loads (test_personality_traits c) (JObj test) ->
        req <> [] -> test <> [] ->
        unit_mapping req -> unit_mapping test ->
        _calculate_personality_score loads c j
        = Ok (1 - sqrt (squared_distance req test) / sqrt 5))
  /\ (forall c j,
        decodes_to loads (test_personality_traits c) (JObj [("openness", JNum 0.2)]) ->
        decodes_to loads (personality_traits c) (JObj [("openness", JNum 0.8)]) ->
        decodes_to loads (required_personality_traits j) (JObj [("openness", JNum 0.8)]) ->
        _calculate_personality_score loads c j = Ok (1 - 0.6 / sqrt 5)
        /\ 1 - 0.6 / sqrt 5 < 1)
  /\ (forall c j a s,
        test_personality_traits c = Some (String a s) ->
        _calculate_personality_score loads c j
        = _calculate_personality_score loads
            (with_traits (Some (String a s)) None c) j).
Proof.
  split; [| split; [| split; [| split]]].
  - intros c1 c2 j a s H1 H2. unfold _calculate_personality_score.
    rewrite (select_by_test loads c1 c2 a s H1 H2). reflexivity.
  - intros c j Ht _ Hr. apply openness_match; assumption.
  - intros c j req test Hr Ht Hreq Htest Mreq Mtest.
    apply personality_formula; try assumption;
      solve [left; exact Ht | apply unit_mapping_is_trait_mapping; assumption].
  - intros c j Ht _ Hr. split; [apply openness_mismatch; assumption|].
    apply similarity_below_1. lra.
  - intros c j a s H. unfold _calculate_personality_score.
    rewrite (select_test_as_only_source loads c a s H). reflexivity.
Qed.

Lemma loads_openness_08_decodes :
  decodes_to Json.loads (Some (traits_doc ["openness"] "0.8"))
             (JObj [("openness", JNum 0.8)]).
Proof. apply decodes_to_intro; [reflexivity | apply loads_openness_08]. Qed.

Lemma loads_openness_02_decodes :
  decodes_to Json.loads (Some (traits_doc ["openness"] "0.2"))
             (JObj [("openness", JNum 0.2)]).
Proof. apply decodes_to_intro; [reflexivity | apply loads_openness_02]. Qed.

Lemma test_traits_take_precedence_witness :
  _calculate_personality_score Json.loads cand_both_sources job_openness
  = _calculate_personality_score Json.loads
      (with_traits None (test_personality_traits cand_both_sources) blank_candidate)
      job_openness
  /\ _calculate_personality_score Json.loads cand_both_sources job_openness = Ok 1
  /\ _calculate_personality_score Json.loads cand_sources_swapped job_openness
     = Ok (1 - sqrt (squared_distance [("openness", JNum 0.8)] [("openness", JNum 0.2)])
               / sqrt 5)
  /\ (_calculate_personality_score Json.loads cand_sources_swapped job_openness
      = Ok (1 - 0.6 / sqrt 5)
      /\ 1 - 0.6 / sqrt 5 < 1)
  /\ _calculate_personality_score Json.loads cand_sources_swapped job_openness
     = _calculate_personality_score Json.loads
         (with_traits (Some (traits_doc ["openness"] "0.2")) None cand_sources_swapped)
         job_openness.
Proof.
  destruct (test_traits_take_precedence Json.loads) as [H1 [H2 [H3 [H4 H5]]]].
  split; [| split; [| split; [| split]]].
  - apply H1 with (a := "{"%char) (s := (members_doc ["openness"] "0.8" ++ "}")%string);
      reflexivity.
  - apply H2; solve [apply loads_openness_08_decodes | apply loads_openness_02_decodes].
  - apply H3;
      solve [ apply loads_openness_08_decodes | apply loads_openness_02_decodes
            | discriminate
            | apply (unit_mapping_const ["openness"] 0.8); split; discriminate
            | apply (unit_mapping_const ["openness"] 0.2); split; discriminate ].
  - apply H4; solve [apply loads_openness_08_decodes | apply loads_openness_02_decodes].
  - apply (H5 cand_sources_swapped job_openness "{"%char
              (members_doc ["openness"] "0.2" ++ "}")%string).
    reflexivity.
Defined.

(** A source that does not decode is replaced by the empty mapping. *)
Lemma select_undecodable_test loads c :
  fails_to_decode loads (test_personality_traits c) ->
  select_candidate_traits loads c = Ok (Some (JObj [])).
Proof.
  intros [a [s [Ht Hl]]]. unfold select_candidate_traits, loads_or_empty.
  rewrite Ht. cbn [truthy PyStr.is_empty negb as_str bind]. rewrite Hl. reflexivity.
Qed.

Lemma select_undecodable_cv loads c :
  missing (test_personality_traits c) ->
  fails_to_decode loads (personality_traits c) ->
  select_candidate_traits loads c = Ok (Some (JObj [])).
Proof.
  intros Hm [a [s [Hp Hl]]]. apply truthy_false_iff in Hm.
  unfold select_candidate_traits, loads_or_empty.
  rewrite Hm, Hp. cbn [truthy PyStr.is_empty negb as_str bind]. rewrite Hl. reflexivity.
Qed.

(** With the empty mapping selected the score is neutral, whatever the
    job requires. *)
Lemma empty_selection_neutral loads c j :
  select_candidate_traits loads c = Ok (Some (JObj [])) ->
  _calculate_personality_score loads c j = Ok 0.5.
Proof.
  intro Hsel. unfold _calculate_personality_score.
  destruct (required_personality_traits j) as [[|a' s']|]; try reflexivity.
  cbn [truthy PyStr.is_empty negb as_str bind].
  destruct (loads (String a' s')) as [rt|]; [| reflexivity].
  rewrite Hsel. cbn [bind PyObj.truth is_nil negb]. rewrite orb_true_r. reflexivity.
Qed.

(** When the test result is present but its decoding raises, the
    personality score is 0.5 whatever the CV analysis holds: the scorer
    does not turn to the second source. *)
Lemma broken_test_traits_neutral (loads : string -> option json)
    (c : Candidate) (j : Job) :
  fails_to_decode loads (test_personality_traits c) ->
  _calculate_personality_score loads c j = Ok 0.5.
Proof.
  intro Hfail. apply empty_selection_neutral.
  apply select_undecodable_test. exact Hfail.
Qed.

Lemma broken_test_traits_neutral_example :
  fails_to_decode Json.loads (test_personality_traits cand_broken_test)
  /\ decodes_to Json.loads (personality_traits cand_broken_test)
       (JObj [("openness", JNum 0.8)])
  /\ _calculate_personality_score Json.loads cand_broken_test job_openness = Ok 0.5.
Proof.
  assert (H : fails_to_decode Json.loads (test_personality_traits cand_broken_test)).
  { exists "n"%char, "ot json"%string. split; reflexivity. }
  split; [exact H | split].
  - apply decodes_to_intro; [reflexivity | apply loads_openness_08].
  - apply (broken_test_traits_neutral Json.loads cand_broken_test job_openness H).
Qed.

(** A selected source that decodes to a non-empty list has no [get]: with
    a non-empty required mapping the first turn of the loop raises. *)
Lemma list_source_raises loads (c : Candidate) (j : Job)
    (req : list (string * json)) (items : list json) :
  decodes_to loads (required_personality_traits j) (JObj req) ->
  selected_traits loads c (JArr items) ->
  req <> [] -> items <> [] ->
  _calculate_personality_score loads c j = Raise AttributeError.
Proof.
  intros Hr Hc Hreq Hitems. unfold _calculate_personality_score.
  destruct (decodes_to_truthy _ _ _ Hr) as [s [-> [-> Hl]]]. cbn [negb bind].
  rewrite Hl, (selected_traits_select _ _ _ Hc). cbn [bind].
  destruct req as [|[k v] req]; [contradiction|].
  destruct items as [|x items]; [contradiction|].
  reflexivity.
Qed.

Lemma loads_list_of_one : Json.loads "[1]" = Some (JArr [JNum 1]).
Proof. vm_compute. reflexivity. Qed.

(** C3. The neutral score for a malformed test result fails on the
    code.  A test result that is valid JSON but not a trait mapping, here
    the list [[1]], passes the decoding, so the except branch of lines
    116-117 does not replace it by the empty mapping; the list is a true
    value, and the first turn of the loop calls [get] on it, which raises
    AttributeError.  The score is not 0.5: nothing is returned, although
    personality_traits is present and well formed.  Only a test result
    whose decoding raises is scored 0.5. *)
Theorem list_test_traits_raise :
  Json.loads "[1]" = Some (JArr [JNum 1])
  /\ decodes_to Json.loads (personality_traits cand_list_test)
       (JObj [("openness", JNum 0.8)])
  /\ _calculate_personality_score Json.loads cand_list_test job_openness
     = Raise AttributeError
  /\ _calculate_personality_score Json.loads cand_broken_test job_openness = Ok 0.5.
Proof.
  split; [apply loads_list_of_one|].
  split; [apply decodes_to_intro; [reflexivity | apply loads_openness_08]|].
  split.
  - apply (list_source_raises Json.loads cand_list_test job_openness
             [("openness", JNum 0.8)] [JNum 1]).
    + apply decodes_to_intro; [reflexivity | apply loads_openness_08].
    + left. apply decodes_to_intro; [reflexivity | apply loads_list_of_one].
    + discriminate.
    + discriminate.
  - apply empty_selection_neutral, select_undecodable_test.
    exists "n"%char, "ot json"%string. split; reflexivity.
Qed.


Lemma big_five_unit_apart :
  unit_apart (map (fun n => (n, JNum (10 # 10))) big_five)
             (map (fun n => (n, JNum (0 # 10))) big_five).
Proof.
  unfold unit_apart. repeat constructor;
    unfold trait_value, value_of; simpl; unfold Q2R; simpl;
    rewrite Rabs_pos_eq; lra.
Qed.


Lemma word_target_raises :
  _calculate_personality_score Json.loads cand_openness job_openness_high
  = Raise TypeError.
Proof.
  unfold _calculate_personality_score.
  change (required_personality_traits job_openness_high)
    with (Some (traits_doc ["openness"] (Json.quoted "high"))).
  assert (Hs : as_str (Some (traits_doc ["openness"] (Json.quoted "high")))
               = Ok (traits_doc ["openness"] (Json.quoted "high"))) by reflexivity.
  replace (negb (truthy (Some (traits_doc ["openness"] (Json.quoted "high")))))
    with false by reflexivity.
  rewrite Hs. cbn [bind]. rewrite loads_openness_high.
  rewrite (selected_traits_select Json.loads cand_openness (JObj [("openness", JNum 0.5)])).
  - reflexivity.
  - right. split; [left; reflexivity|].
    apply decodes_to_intro; [reflexivity | apply loads_openness_05].
Qed.

(** C9. rank_candidates does raise: a required trait mapping that is valid
    JSON but whose target is a word, not a number, passes the decoding and
    the subtraction in the distance loop raises TypeError, which nothing
    catches. *)
Theorem rank_candidates_raises_on_word_target :
  Json.loads (traits_doc ["openness"] (Json.quoted "high"))
  = Some (JObj [("openness", JStr "high")])
  /\ rank_candidates Json.loads [cand_openness] job_openness_high = Raise TypeError.
Proof.
  split; [apply loads_openness_high|].
  unfold rank_candidates, score_all, _calculate_candidate_score.
  rewrite word_target_raises. reflexivity.
Qed.

(** ** Properties of the sort *)

Section SortDesc.

Context {A : Type}.

Implicit Types (x : A * R) (l : list (A * R)).

Lemma insert_desc_perm x l : Permutation (insert_desc x l) (x :: l).
Proof.
  induction l as [|y l IH]; simpl; [reflexivity|].
  destruct (Rlt_dec (snd x) (snd y)); [| reflexivity].
  apply Permutation_trans with (y :: x :: l); [apply perm_skip, IH | apply perm_swap].
Qed.

Lemma sort_desc_perm l : Permutation (sort_desc l) l.
Proof.
  induction l as [|x l IH]; simpl; [reflexivity|].
  apply Permutation_trans with (x :: sort_desc l);
    [apply insert_desc_perm | apply perm_skip, IH].
Qed.

Lemma insert_desc_sorted x l :
  StronglySorted by_score_desc l -> StronglySorted by_score_desc (insert_desc x l).
Proof.
  induction 1 as [|y l Hl IH Hy]; simpl.
  - constructor; constructor.
  - destruct (Rlt_dec (snd x) (snd y)) as [Hlt | Hge].
    + constructor; [exact IH|].
      apply (Permutation_Forall (Permutation_sym (insert_desc_perm x l))).
      constructor; [unfold by_score_desc; lra | exact Hy].
    + constructor; [constructor; assumption|].
      constructor; [unfold by_score_desc; lra|].
      apply (Forall_impl _ (P := by_score_desc y)); [| exact Hy].
      unfold by_score_desc. intros z Hz. lra.
Qed.

Lemma sort_desc_sorted l : StronglySorted by_score_desc (sort_desc l).
Proof.
  induction l as [|x l IH]; simpl; [constructor | apply insert_desc_sorted, IH].
Qed.

(** An inserted item moves only past items of a strictly greater score. *)
Lemma filter_insert_desc (s : R) x l :
  filter (score_is s) (insert_desc x l) = filter (score_is s) (x :: l).
Proof.
  induction l as [|y l IH]; [reflexivity|].
  cbn [insert_desc]. destruct (Rlt_dec (snd x) (snd y)) as [Hlt | Hge]; [| reflexivity].
  cbn [filter] in *. rewrite IH. unfold score_is.
  destruct (Req_dec_T (snd x) s), (Req_dec_T (snd y) s); try reflexivity.
  exfalso. lra.
Qed.

Lemma filter_sort_desc (s : R) l :
  filter (score_is s) (sort_desc l) = filter (score_is s) l.
Proof.
  induction l as [|x l IH]; [reflexivity|].
  cbn [sort_desc]. rewrite filter_insert_desc. cbn [filter]. rewrite IH. reflexivity.
Qed.

End SortDesc.

(** ** Properties of the ranking *)

Lemma score_all_ok loads (cs : list Candidate) (j : Job) :
  Forall (fun c => returns (_calculate_candidate_score loads c j)) cs ->
  exists scored, score_all loads cs j = Ok scored.
Proof.
  induction 1 as [|c cs [r Hr] _ [scored IH]]; simpl; [eexists; reflexivity|].
  rewrite Hr, IH. simpl. eexists. reflexivity.
Qed.

Lemma score_all_spec loads (cs : list Candidate) (j : Job) :
  forall scored, score_all loads cs j = Ok scored ->
    map fst scored = cs
    /\ Forall (fun p => _calculate_candidate_score loads (fst p) j = Ok (snd p)) scored.
Proof.
  induction cs as [|c cs IH]; simpl; intros scored H.
  - injection H as <-. split; [reflexivity | constructor].
  - apply bind_ok in H. destruct H as [r [Hr H]].
    apply bind_ok in H. destruct H as [rest [Hrest H]].
    injection H as <-. destruct (IH rest Hrest) as [Hfst Hall].
    split; [simpl; now rewrite Hfst | constructor; assumption].
Qed.

Lemma score_all_filter loads (cs : list Candidate) (j : Job) (s : R) :
  forall scored, score_all loads cs j = Ok scored ->
    map fst (filter (score_is s) scored) = filter (has_score loads j s) cs.
Proof.
  induction cs as [|c cs IH]; simpl; intros scored H.
  - injection H as <-. reflexivity.
  - apply bind_ok in H. destruct H as [r [Hr H]].
    apply bind_ok in H. destruct H as [rest [Hrest H]].
    injection H as <-. cbn [filter]. unfold has_score at 1, score_is at 1.
    rewrite Hr. cbn [snd]. destruct (Req_dec_T r s); cbn [map fst];
      rewrite (IH rest Hrest); reflexivity.
Qed.

Lemma no_traits_neutral loads (c : Candidate) (j : Job) :
  missing (test_personality_traits c) -> missing (personality_traits c) ->
  _calculate_personality_score loads c j = Ok 0.5.
Proof.
  intros Ht Hp. apply truthy_false_iff in Ht, Hp.
  unfold _calculate_personality_score, select_candidate_traits. rewrite Ht, Hp.
  destruct (required_personality_traits j) as [[|a s]|]; try reflexivity.
  cbn [truthy PyStr.is_empty negb as_str bind].
  destruct (loads (String a s)); reflexivity.
Qed.

Ltac eval_keyword_score :=
  cbv -[Rdiv INR Q2R IZR]; apply f_equal; unfold Q2R; simpl; lra.

Ltac eval_composite :=
  cbn [bind]; apply f_equal;
  unfold skill_weight, experience_weight, education_weight, certification_weight,
    personality_weight; lra.

Lemma strong_score :
  _calculate_candidate_score Json.loads cand_strong job_ranking = Ok 0.9.
Proof.
  unfold _calculate_candidate_score.
  assert (H1 : _calculate_skill_score cand_strong job_ranking = Ok 1)
    by eval_keyword_score.
  assert (H2 : _calculate_experience_score cand_strong job_ranking = Ok 1)
    by eval_keyword_score.
  assert (H3 : _calculate_education_score cand_strong job_ranking = Ok 0.5)
    by reflexivity.
  assert (H4 : _calculate_certification_score cand_strong job_ranking = Ok 0.5)
    by reflexivity.
  assert (H5 : _calculate_personality_score Json.loads cand_strong job_ranking = Ok 1).
  { apply openness_match; apply decodes_to_intro;
      solve [reflexivity | apply loads_openness_08]. }
  rewrite H1, H2, H3, H4, H5. eval_composite.
Qed.

Lemma weak_score (c : Candidate) :
  c = cand_weak \/ c = cand_weak_too ->
  _calculate_candidate_score Json.loads c job_ranking = Ok 0.3.
Proof.
  intro Hc. unfold _calculate_candidate_score.
  assert (H1 : _calculate_skill_score c job_ranking = Ok 0)
    by (destruct Hc as [-> | ->]; eval_keyword_score).
  assert (H2 : _calculate_experience_score c job_ranking = Ok 0.5)
    by (destruct Hc as [-> | ->]; reflexivity).
  assert (H3 : _calculate_education_score c job_ranking = Ok 0)
    by (destruct Hc as [-> | ->]; eval_keyword_score).
  assert (H4 : _calculate_certification_score c job_ranking = Ok 0.5)
    by (destruct Hc as [-> | ->]; reflexivity).
  assert (H5 : _calculate_personality_score Json.loads c job_ranking = Ok 0.5)
    by (destruct Hc as [-> | ->]; apply no_traits_neutral; left; reflexivity).
  rewrite H1, H2, H3, H4, H5. eval_composite.
Qed.

Lemma medium_score :
  _calculate_candidate_score Json.loads cand_medium job_ranking = Ok 0.6.
Proof.
  unfold _calculate_candidate_score.
  assert (H1 : _calculate_skill_score cand_medium job_ranking = Ok 1)
    by eval_keyword_score.
  assert (H2 : _calculate_experience_score cand_medium job_ranking = Ok 0.5)
    by reflexivity.
  assert (H3 : _calculate_education_score cand_medium job_ranking = Ok 0)
    by eval_keyword_score.
  assert (H4 : _calculate_certification_score cand_medium job_ranking = Ok 0.5)
    by reflexivity.
  assert (H5 : _calculate_personality_score Json.loads cand_medium job_ranking = Ok 0.5)
    by (apply no_traits_neutral; left; reflexivity).
  rewrite H1, H2, H3, H4, H5. eval_composite.
Qed.

Lemma rank_three loads (a b c : Candidate) (j : Job) :
  _calculate_candidate_score loads a j = Ok 0.9 ->
  _calculate_candidate_score loads b j = Ok 0.3 ->
  _calculate_candidate_score loads c j = Ok 0.6 ->
  rank_candidates loads [a; b; c] j = Ok [(a, 0.9); (c, 0.6); (b, 0.3)].
Proof.
  intros Ha Hb Hc. unfold rank_candidates. cbn [score_all].
  rewrite Ha, Hb, Hc. cbn [bind sort_desc insert_desc snd].
  destruct (Rlt_dec 0.3 0.6); [| lra].
  cbn [insert_desc snd]. destruct (Rlt_dec 0.9 0.6); [lra | reflexivity].
Qed.

(** When every composite score is computed, rank_candidates returns one
    pair per input candidate, each candidate with its own composite
    score, nothing dropped and nothing merged, in non-increasing order of
    score.  The empty sequence gives the empty sequence, and candidates
    scoring 0.9, 0.3 and 0.6 come out in the order 0.9, 0.6, 0.3, each
    with its score. *)
Lemma rank_candidates_complete_and_sorted (loads : string -> option json) :
  (forall cs j,
      Forall (fun c => returns (_calculate_candidate_score loads c j)) cs ->
      exists out,
        rank_candidates loads cs j = Ok out
        /\ length out = length cs
        /\ Permutation (map fst out) cs
        /\ Forall (fun p => _calculate_candidate_score loads (fst p) j = Ok (snd p)) out
        /\ StronglySorted by_score_desc out)
  /\ (forall j, rank_candidates loads [] j = Ok [])
  /\ (forall a b c j,
        _calculate_candidate_score loads a j = Ok 0.9 ->
        _calculate_candidate_score loads b j = Ok 0.3 ->
        _calculate_candidate_score loads c j = Ok 0.6 ->
        rank_candidates loads [a; b; c] j = Ok [(a, 0.9); (c, 0.6); (b, 0.3)]).
Proof.
  split; [| split; [reflexivity | apply rank_three]].
  intros cs j Hcs. destruct (score_all_ok loads cs j Hcs) as [scored Hs].
  destruct (score_all_spec loads cs j scored Hs) as [Hfst Hall].
  exists (sort_desc scored). unfold rank_candidates. rewrite Hs.
  pose proof (sort_desc_perm scored) as Hperm.
  split; [reflexivity|]. split; [| split; [| split]].
  - rewrite (Permutation_length Hperm), <- Hfst. symmetry. apply length_map.
  - rewrite <- Hfst. apply Permutation_map. exact Hperm.
  - apply (Permutation_Forall (Permutation_sym Hperm)). exact Hall.
  - apply sort_desc_sorted.
Qed.

Lemma three_candidates_return :
  Forall (fun c => returns (_calculate_candidate_score Json.loads c job_ranking))
         [cand_strong; cand_weak; cand_medium].
Proof.
  repeat constructor; eexists;
    solve [apply strong_score | apply medium_score | apply weak_score; left; reflexivity].
Qed.

Lemma rank_candidates_complete_and_sorted_example :
  (exists out,
      rank_candidates Json.loads [cand_strong; cand_weak; cand_medium] job_ranking = Ok out
      /\ length out = 3%nat
      /\ Permutation (map fst out) [cand_strong; cand_weak; cand_medium]
      /\ Forall (fun p => _calculate_candidate_score Json.loads (fst p) job_ranking
                          = Ok (snd p)) out
      /\ StronglySorted by_score_desc out)
  /\ rank_candidates Json.loads [cand_strong; cand_weak; cand_medium] job_ranking
     = Ok [(cand_strong, 0.9); (cand_medium, 0.6); (cand_weak, 0.3)].
Proof.
  split.
  - apply (proj1 (rank_candidates_complete_and_sorted Json.loads)).
    apply three_candidates_return.
  - apply (proj2 (proj2 (rank_candidates_complete_and_sorted Json.loads))).
    + apply strong_score.
    + apply weak_score. left. reflexivity.
    + apply medium_score.
Qed.

Lemma composite_raises_with_personality loads (c : Candidate) (j : Job) (e : exn) :
  _calculate_personality_score loads c j = Raise e ->
  _calculate_candidate_score loads c j = Raise e.
Proof.
  intro Hp. unfold _calculate_candidate_score.
  destruct (skill_score_unit c j) as [r1 [-> H1]].
  destruct (experience_score_unit c j) as [r2 [-> H2]].
  destruct (education_score_unit c j) as [r3 [-> H3]].
  destruct (certification_score_unit c j) as [r4 [-> H4]].
  rewrite Hp. reflexivity.
Qed.

Lemma list_cv_candidate_raises :
  _calculate_candidate_score Json.loads (cand_with_cv_doc "[1]") job_ranking
  = Raise AttributeError.
Proof.
  apply composite_raises_with_personality.
  apply (list_source_raises Json.loads (cand_with_cv_doc "[1]") job_ranking
           [("openness", JNum 0.8)] [JNum 1]).
  - apply decodes_to_intro; [reflexivity | apply loads_openness_08].
  - right. split; [left; reflexivity|].
    apply decodes_to_intro; [reflexivity | apply loads_list_of_one].
  - discriminate.
  - discriminate.
Qed.

(** C7. One pair per input candidate fails on the code: rank_candidates
    does not return for every input.  The scoring loop of lines 23-25
    has no handler, so the exception one candidate raises ends the whole
    call.  Two candidates alone are ranked, 0.9 before 0.6; with a third
    candidate between them whose CV analysis is the JSON list [[1]], the
    scorer raises AttributeError on it and rank_candidates returns no
    pair at all, not even those of the two candidates it can score. *)
Theorem rank_candidates_returns_no_pair_on_one_raise :
  rank_candidates Json.loads [cand_medium; cand_strong] job_ranking
  = Ok [(cand_strong, 0.9); (cand_medium, 0.6)]
  /\ _calculate_candidate_score Json.loads (cand_with_cv_doc "[1]") job_ranking
     = Raise AttributeError
  /\ rank_candidates Json.loads [cand_medium; cand_with_cv_doc "[1]"; cand_strong]
       job_ranking
     = Raise AttributeError.
Proof.
  split; [| split; [apply list_cv_candidate_raises|]].
  - unfold rank_candidates. cbn [score_all]. rewrite medium_score, strong_score.
    cbn [bind sort_desc insert_desc snd].
    destruct (Rlt_dec 0.6 0.9); [reflexivity | lra].
  - unfold rank_candidates. cbn [score_all].
    rewrite medium_score, list_cv_candidate_raises. reflexivity.
Qed.


Lemma tied_candidates_return :
  Forall (fun c => returns (_calculate_candidate_score Json.loads c job_ranking))
         [cand_weak; cand_medium; cand_weak_too].
Proof.
  repeat constructor; eexists;
    solve [apply medium_score | apply weak_score; left; reflexivity
           | apply weak_score; right; reflexivity].
Qed.


(** The tie of the example, spelled out. *)
Example rank_tied_example :
  rank_candidates Json.loads [cand_weak; cand_medium; cand_weak_too] job_ranking
  = Ok [(cand_medium, 0.6); (cand_weak, 0.3); (cand_weak_too, 0.3)].
Proof.
  unfold rank_candidates. cbn [score_all].
  rewrite medium_score, !weak_score by (auto; fail). cbn [bind sort_desc insert_desc snd].
  destruct (Rlt_dec 0.6 0.3); [lra|].
  cbn [insert_desc snd]. destruct (Rlt_dec 0.3 0.6); [| lra].
  cbn [insert_desc snd]. destruct (Rlt_dec 0.3 0.3); [lra | reflexivity].
Qed.

(** ** Where the engine returns, and where the scores are in range *)

Lemma select_well_formed loads (c : Candidate) :
  well_formed_traits loads (test_personality_traits c) ->
  well_formed_traits loads (personality_traits c) ->
  select_candidate_traits loads c = Ok None
  \/ exists d, select_candidate_traits loads c = Ok (Some (JObj d)) /\ trait_mapping d.
Proof.
  intros [Ht | [Ht | [d [Ht Md]]]] Hp.
  - destruct Hp as [Hp | [Hp | [d [Hp Md]]]].
    + left. apply truthy_false_iff in Ht, Hp.
      unfold select_candidate_traits. rewrite Ht, Hp. reflexivity.
    + right. exists []. split; [apply select_undecodable_cv; assumption | constructor].
    + right. exists d. split; [| exact Md].
      apply selected_traits_select. right. split; assumption.
  - right. exists []. split; [apply select_undecodable_test; assumption | constructor].
  - right. exists d. split; [| exact Md].
    apply selected_traits_select. left. exact Ht.
Qed.

(** On well-formed trait documents the personality scorer returns. *)
Lemma personality_returns loads (c : Candidate) (j : Job) :
  well_formed_traits loads (required_personality_traits j) ->
  well_formed_traits loads (test_personality_traits c) ->
  well_formed_traits loads (personality_traits c) ->
  returns (_calculate_personality_score loads c j).
Proof.
  intros Hj Ht Hp. unfold returns.
  destruct (select_well_formed loads c Ht Hp) as [Hsel | [cand [Hsel Mcand]]].
  - exists 0.5. unfold _calculate_personality_score. rewrite Hsel.
    destruct (required_personality_traits j) as [[|a s]|]; try reflexivity.
    cbn [truthy PyStr.is_empty negb as_str bind].
    destruct (loads (String a s)); reflexivity.
  - destruct Hj as [Hj | [[a [s [Hj Hl]]] | [req [Hj Mreq]]]].
    + exists 0.5. apply truthy_false_iff in Hj.
      unfold _calculate_personality_score. rewrite Hj. reflexivity.
    + exists 0.5. unfold _calculate_personality_score. rewrite Hj.
      cbn [truthy PyStr.is_empty negb as_str bind]. rewrite Hl. reflexivity.
    + destruct req as [|kv req'].
      { exists 0.5. apply (personality_empty_mapping loads c j [] cand); auto. }
      destruct cand as [|kv' cand'].
      { exists 0.5. apply (personality_empty_mapping loads c j (kv :: req') []); auto. }
      eexists. apply (personality_formula_selected loads c j (kv :: req') (kv' :: cand'));
        solve [assumption | discriminate].
Qed.

Lemma candidate_score_returns loads (c : Candidate) (j : Job) :
  returns (_calculate_personality_score loads c j) ->
  returns (_calculate_candidate_score loads c j).
Proof.
  intros [p Hp]. unfold _calculate_candidate_score.
  destruct (skill_score_unit c j) as [r1 [-> _]].
  destruct (experience_score_unit c j) as [r2 [-> _]].
  destruct (education_score_unit c j) as [r3 [-> _]].
  destruct (certification_score_unit c j) as [r4 [-> _]].
  rewrite Hp. cbn [bind]. eexists. reflexivity.
Qed.

(** On well-formed trait documents the ranking returns. *)
Lemma rank_candidates_returns loads (cs : list Candidate) (j : Job) :
  well_formed_traits loads (required_personality_traits j) ->
  Forall (fun c => well_formed_traits loads (test_personality_traits c)
                   /\ well_formed_traits loads (personality_traits c)) cs ->
  returns (rank_candidates loads cs j).
Proof.
  intros Hj Hcs.
  assert (H : Forall (fun c => returns (_calculate_candidate_score loads c j)) cs).
  { apply (Forall_impl _ (P := fun c =>
             well_formed_traits loads (test_personality_traits c)
             /\ well_formed_traits loads (personality_traits c))); [| exact Hcs].
    intros c [Ht Hp]. apply candidate_score_returns, personality_returns; assumption. }
  destruct (score_all_ok loads cs j H) as [scored Hs].
  unfold rank_candidates. rewrite Hs. eexists. reflexivity.
Qed.

Lemma bounded_squares_sum (req cand keys : list (string * json)) :
  Forall (fun kv => Rabs (trait_value req (fst kv) - trait_value cand (fst kv)) <= 1) keys ->
  fold_right Rplus 0
    (map (fun kv => (trait_value req (fst kv) - trait_value cand (fst kv)) ^ 2) keys)
  <= INR (length keys).
Proof.
  induction 1 as [|kv keys Hkv _ IH]; [simpl; lra|].
  cbn [map fold_right length]. rewrite S_INR, <- pow2_abs.
  set (x := Rabs (trait_value req (fst kv) - trait_value cand (fst kv))) in *.
  assert (0 <= x) by apply Rabs_pos.
  assert (x ^ 2 <= 1) by (simpl; nra).
  lra.
Qed.

(** With at most five required traits, each within distance 1 of the
    candidate's value, the personality score is in the unit interval. *)
Lemma personality_unit_up_to_five loads c j req cand :
  decodes_to loads (required_personality_traits j) (JObj req) ->
  selected_traits loads c (JObj cand) ->
  req <> [] -> cand <> [] ->
  trait_mapping req -> trait_mapping cand ->
  (length req <= 5)%nat -> within_unit req cand ->
  unit_score (_calculate_personality_score loads c j).
Proof.
  intros Hr Hc Hreq Hcand Mreq Mcand H5 Hunit.
  exists (1 - sqrt (squared_distance req cand) / sqrt 5).
  split; [apply personality_formula; assumption|].
  split; [| apply similarity_le_1].
  assert (Hd : squared_distance req cand <= 5).
  { unfold squared_distance.
    apply Rle_trans with (INR (length req)); [apply bounded_squares_sum, Hunit|].
    replace 5 with (INR 5) by (simpl; lra). apply le_INR. exact H5. }
  pose proof max_distance_pos as Hpos. unfold max_distance in Hpos.
  assert (Hs : sqrt (squared_distance req cand) <= sqrt 5) by (apply sqrt_le_1_alt, Hd).
  assert (sqrt (squared_distance req cand) / sqrt 5 <= 1).
  { apply Rmult_le_reg_r with (r := sqrt 5); [assumption|].
    unfold Rdiv. rewrite Rmult_assoc, Rinv_l by lra. lra. }
  lra.
Qed.

(** * Further properties of the ranking engine *)

(** X1. The four keyword scorers never raise and always return a value of
    the unit interval: the divisor of the ratio is never 0 and the count
    of matches never exceeds it. *)
Theorem keyword_scorers_total_and_unit (c : Candidate) (j : Job) :
  unit_score (_calculate_skill_score c j)
  /\ unit_score (_calculate_experience_score c j)
  /\ unit_score (_calculate_education_score c j)
  /\ unit_score (_calculate_certification_score c j).
Proof.
  split; [apply skill_score_unit|].
  split; [apply experience_score_unit|].
  split; [apply education_score_unit | apply certification_score_unit].
Qed.

Lemma composite_of_personality loads (c : Candidate) (j : Job) (p : R) :
  _calculate_personality_score loads c j = Ok p ->
  exists t, _calculate_candidate_score loads c j = Ok t
            /\ 0.3 * p <= t <= 0.7 + 0.3 * p.
Proof.
  intro Hp. unfold _calculate_candidate_score.
  destruct (skill_score_unit c j) as [r1 [-> H1]].
  destruct (experience_score_unit c j) as [r2 [-> H2]].
  destruct (education_score_unit c j) as [r3 [-> H3]].
  destruct (certification_score_unit c j) as [r4 [-> H4]].
  rewrite Hp. cbn [bind]. eexists. split; [reflexivity|].
  unfold skill_weight, experience_weight, education_weight, certification_weight,
    personality_weight. lra.
Qed.

Lemma unit_mapping_value (d : list (string * json)) (k : string) :
  unit_mapping d -> 0 <= trait_value d k <= 1.
Proof.
  unfold trait_value. induction 1 as [|[k' v] d' [x [Hx Hb]] _ IH]; simpl.
  - unfold value_of. simpl. unfold Q2R. simpl. lra.
  - destruct (String.eqb k k'); [| exact IH].
    unfold value_of. simpl in Hx. rewrite Hx. exact Hb.
Qed.

Lemma unit_mappings_within_unit (req cand : list (string * json)) :
  unit_mapping req -> unit_mapping cand -> within_unit req cand.
Proof.
  intros Hr Hc. unfold within_unit. apply Forall_forall. intros kv _.
  pose proof (unit_mapping_value req (fst kv) Hr).
  pose proof (unit_mapping_value cand (fst kv) Hc).
  apply Rabs_le. lra.
Qed.

Lemma similarity_unit (d : R) : 0 <= d <= 5 -> 0 <= 1 - sqrt d / sqrt 5 <= 1.
Proof.
  intros [H0 H5]. split; [| apply similarity_le_1].
  pose proof max_distance_pos as Hpos. unfold max_distance in Hpos.
  assert (Hs : sqrt d <= sqrt 5) by (apply sqrt_le_1_alt, H5).
  assert (sqrt d / sqrt 5 <= 1).
  { apply Rmult_le_reg_r with (r := sqrt 5); [assumption|].
    unfold Rdiv. rewrite Rmult_assoc, Rinv_l by lra. lra. }
  lra.
Qed.

Lemma select_unit loads (c : Candidate) :
  unit_traits loads (test_personality_traits c) ->
  unit_traits loads (personality_traits c) ->
  select_candidate_traits loads c = Ok None
  \/ exists d, select_candidate_traits loads c = Ok (Some (JObj d)) /\ unit_mapping d.
Proof.
  intros [Ht | [Ht | [d [Ht Md]]]] Hp.
  - destruct Hp as [Hp | [Hp | [d [Hp Md]]]].
    + left. apply truthy_false_iff in Ht, Hp.
      unfold select_candidate_traits. rewrite Ht, Hp. reflexivity.
    + right. exists []. split; [apply select_undecodable_cv; assumption | constructor].
    + right. exists d. split; [| exact Md].
      apply selected_traits_select. right. split; assumption.
  - right. exists []. split; [apply select_undecodable_test; assumption | constructor].
  - right. exists d. split; [| exact Md].
    apply selected_traits_select. left. exact Ht.
Qed.

Lemma neutral_without_selection loads (c : Candidate) (j : Job) :
  select_candidate_traits loads c = Ok None ->
  _calculate_personality_score loads c j = Ok 0.5.
Proof.
  intro Hsel. unfold _calculate_personality_score. rewrite Hsel.
  destruct (required_personality_traits j) as [[|a s]|]; try reflexivity.
  cbn [truthy PyStr.is_empty negb as_str bind].
  destruct (loads (String a s)); reflexivity.
Qed.

Lemma neutral_without_requirement loads (c : Candidate) (j : Job) :
  missing (required_personality_traits j)
  \/ fails_to_decode loads (required_personality_traits j) ->
  _calculate_personality_score loads c j = Ok 0.5.
Proof.
  unfold _calculate_personality_score. intros [Hj | [a [s [Hj Hl]]]].
  - apply truthy_false_iff in Hj. rewrite Hj. reflexivity.
  - rewrite Hj. cbn [truthy PyStr.is_empty negb as_str bind]. rewrite Hl. reflexivity.
Qed.

Lemma personality_unit_on_unit_traits loads (c : Candidate) (j : Job) :
  unit_traits loads (required_personality_traits j) ->
  at_most_traits loads 5 (required_personality_traits j) ->
  unit_traits loads (test_personality_traits c) ->
  unit_traits loads (personality_traits c) ->
  unit_score (_calculate_personality_score loads c j).
Proof.
  intros Hj H5 Ht Hp.
  destruct (select_unit loads c Ht Hp) as [Hsel | [cand [Hsel Mcand]]].
  { rewrite (neutral_without_selection loads c j Hsel). apply unit_score_half. }
  destruct Hj as [Hj | [Hj | [req [Hj Mreq]]]].
  - rewrite (neutral_without_requirement loads c j (or_introl Hj)). apply unit_score_half.
  - rewrite (neutral_without_requirement loads c j (or_intror Hj)). apply unit_score_half.
  - destruct req as [|kv req'].
    { rewrite (personality_empty_mapping loads c j [] cand); auto. apply unit_score_half. }
    destruct cand as [|kv' cand'].
    { rewrite (personality_empty_mapping loads c j (kv :: req') []); auto.
      apply unit_score_half. }
    rewrite (personality_formula_selected loads c j (kv :: req') (kv' :: cand'));
      try solve [assumption | discriminate | apply unit_mapping_is_trait_mapping; assumption].
    eexists. split; [reflexivity|]. apply similarity_unit.
    split; [apply squared_distance_nonneg|].
    unfold squared_distance.
    apply Rle_trans with (INR (length (kv :: req'))).
    + apply bounded_squares_sum. apply unit_mappings_within_unit; assumption.
    + replace 5 with (INR 5) by (simpl; lra). apply le_INR. apply H5. exact Hj.
Qed.

Lemma personality_le_1_on_unit_traits loads (c : Candidate) (j : Job) :
  unit_traits loads (required_personality_traits j) ->
  unit_traits loads (test_personality_traits c) ->
  unit_traits loads (personality_traits c) ->
  exists p, _calculate_personality_score loads c j = Ok p /\ p <= 1.
Proof.
  intros Hj Ht Hp.
  assert (Hhalf : exists p, Ok 0.5 = Ok p /\ p <= 1) by (exists 0.5; split; [reflexivity | lra]).
  destruct (select_unit loads c Ht Hp) as [Hsel | [cand [Hsel Mcand]]].
  { rewrite (neutral_without_selection loads c j Hsel). exact Hhalf. }
  destruct Hj as [Hj | [Hj | [req [Hj Mreq]]]].
  - rewrite (neutral_without_requirement loads c j (or_introl Hj)). exact Hhalf.
  - rewrite (neutral_without_requirement loads c j (or_intror Hj)). exact Hhalf.
  - destruct req as [|kv req'].
    { rewrite (personality_empty_mapping loads c j [] cand); auto. }
    destruct cand as [|kv' cand'].
    { rewrite (personality_empty_mapping loads c j (kv :: req') []); auto. }
    rewrite (personality_formula_selected loads c j (kv :: req') (kv' :: cand'));
      try solve [assumption | discriminate | apply unit_mapping_is_trait_mapping; assumption].
    eexists. split; [reflexivity | apply similarity_le_1].
Qed.

(** X2. The composite score follows the personality score.  When the
    personality scorer raises, the composite scorer raises the same
    exception.  When the trait documents of the job and of the candidate
    hold values of [0,1] (or are missing or do not decode), whatever the
    number of traits, the personality score p is returned and is at most
    1, and the composite score t is returned with
    0.3 p <= t <= 0.7 + 0.3 p, hence t <= 1. *)
Theorem composite_follows_personality (loads : string -> option json)
    (c : Candidate) (j : Job) :
  (forall e, _calculate_personality_score loads c j = Raise e ->
             _calculate_candidate_score loads c j = Raise e)
  /\ (unit_traits loads (required_personality_traits j) ->
      unit_traits loads (test_personality_traits c) ->
      unit_traits loads (personality_traits c) ->
      exists p t,
        _calculate_personality_score loads c j = Ok p
        /\ _calculate_candidate_score loads c j = Ok t
        /\ p <= 1
        /\ 0.3 * p <= t <= 0.7 + 0.3 * p
        /\ t <= 1).
Proof.
  split; [intros e; apply composite_raises_with_personality|].
  intros Hj Ht Hp.
  destruct (personality_le_1_on_unit_traits loads c j Hj Ht Hp) as [p [Hscore Hle]].
  destruct (composite_of_personality loads c j p Hscore) as [t [Hcomp Hb]].
  exists p, t. repeat split; try assumption; lra.
Qed.

Lemma unit_traits_six (value : string) (q : Q) :
  (0 <= q <= 1)%Q ->
  Json.loads (traits_doc (big_five ++ ["honesty"]) value)
  = Some (JObj (map (fun n => (n, JNum q)) (big_five ++ ["honesty"]))) ->
  unit_traits Json.loads (Some (traits_doc (big_five ++ ["honesty"]) value)).
Proof.
  intros Hq Hl. right. right. eexists. split.
  - apply decodes_to_intro; [reflexivity | exact Hl].
  - apply unit_mapping_const. exact Hq.
Qed.

Lemma composite_follows_personality_witness :
  exists p t,
    _calculate_personality_score Json.loads cand_six_low job_six_high = Ok p
    /\ _calculate_candidate_score Json.loads cand_six_low job_six_high = Ok t
    /\ p <= 1
    /\ 0.3 * p <= t <= 0.7 + 0.3 * p
    /\ t <= 1.
Proof.
  apply (proj2 (composite_follows_personality Json.loads cand_six_low job_six_high)).
  - apply (unit_traits_six "1.0" (10 # 10)); [split; discriminate|].
    apply loads_traits_high. right. reflexivity.
  - left. left. reflexivity.
  - apply (unit_traits_six "0.0" (0 # 10)); [split; discriminate|].
    apply loads_traits_low. right. reflexivity.
Defined.

(** X3. When the job requires at most five traits with targets in [0,1]
    and every candidate's trait documents hold values in [0,1] (or are
    missing or undecodable), rank_candidates returns and every composite
    score of the ranking lies in [0,1]. *)
Theorem ranking_scores_in_unit_interval (loads : string -> option json)
    (cs : list Candidate) (j : Job) :
  unit_traits loads (required_personality_traits j) ->
  at_most_traits loads 5 (required_personality_traits j) ->
  Forall (fun c => unit_traits loads (test_personality_traits c)
                   /\ unit_traits loads (personality_traits c)) cs ->
  exists out, rank_candidates loads cs j = Ok out
              /\ Forall (fun p => 0 <= snd p <= 1) out.
Proof.
  intros Hj H5 Hcs.
  assert (Hall : Forall (fun c => unit_score (_calculate_candidate_score loads c j)) cs).
  { apply (Forall_impl _ (P := fun c => unit_traits loads (test_personality_traits c)
                                       /\ unit_traits loads (personality_traits c)));
      [| exact Hcs].
    intros c [Ht Hp].
    destruct (personality_unit_on_unit_traits loads c j Hj H5 Ht Hp) as [p [Hp' Hb]].
    destruct (composite_of_personality loads c j p Hp') as [t [Ht' Hb']].
    exists t. split; [exact Ht' | lra]. }
  assert (Hret : Forall (fun c => returns (_calculate_candidate_score loads c j)) cs).
  { apply (Forall_impl _ (P := fun c => unit_score (_calculate_candidate_score loads c j)));
      [| exact Hall]. intros c [t [Ht _]]. exists t. exact Ht. }
  destruct (score_all_ok loads cs j Hret) as [scored Hs].
  exists (sort_desc scored). unfold rank_candidates. rewrite Hs. split; [reflexivity|].
  apply (Permutation_Forall (Permutation_sym (sort_desc_perm scored))).
  destruct (score_all_spec loads cs j scored Hs) as [Hfst Hsc].
  apply Forall_forall. intros [c r] Hin.
  assert (Hc : In c cs) by (rewrite <- Hfst; apply (in_map fst _ _ Hin)).
  pose proof (proj1 (Forall_forall _ _) Hall c Hc) as [t [Ht Hb]].
  pose proof (proj1 (Forall_forall _ _) Hsc (c, r) Hin) as Hr. simpl in Hr.
  rewrite Hr in Ht. injection Ht as <-. exact Hb.
Qed.

Lemma at_most_traits_intro loads (s : string) (d : list (string * json)) (n : nat) :
  loads s = Some (JObj d) -> (length d <= n)%nat -> at_most_traits loads n (Some s).
Proof.
  intros Hl Hn d' [a [s' [Hs Hl']]]. injection Hs as ->. rewrite Hl in Hl'.
  injection Hl' as <-. exact Hn.
Qed.

Lemma unit_traits_missing loads (field : option string) :
  field = None -> unit_traits loads field.
Proof. intros ->. left. left. reflexivity. Qed.

Lemma unit_traits_openness_08 :
  unit_traits Json.loads (Some (traits_doc ["openness"] "0.8")).
Proof.
  right. right. exists [("openness", JNum 0.8)]. split.
  - apply decodes_to_intro; [reflexivity | apply loads_openness_08].
  - repeat constructor. exists (Q2R 0.8). split; [reflexivity|].
    unfold Q2R. simpl. lra.
Qed.

Lemma ranking_scores_in_unit_interval_witness :
  exists out,
    rank_candidates Json.loads [cand_strong; cand_weak; cand_medium] job_ranking = Ok out
    /\ Forall (fun p => 0 <= snd p <= 1) out.
Proof.
  apply (ranking_scores_in_unit_interval Json.loads
           [cand_strong; cand_weak; cand_medium] job_ranking).
  - apply unit_traits_openness_08.
  - apply (at_most_traits_intro Json.loads _ [("openness", JNum 0.8)]);
      [apply loads_openness_08 | simpl; lia].
  - repeat (apply Forall_cons; [split|]); try apply Forall_nil;
      solve [apply unit_traits_missing; reflexivity | apply unit_traits_openness_08].
Defined.

(** X4. Without data the personality score is the neutral 0.5 and
    nothing is raised: when the job's trait document is missing or does
    not decode, whatever the candidate holds; when the candidate has
    neither trait source, whatever the job holds; and when either decoded
    document is empty or false (an empty mapping, null, 0, an empty list
    or string). *)
Theorem personality_neutral_without_data (loads : string -> option json)
    (c : Candidate) (j : Job) :
  (missing (required_personality_traits j)
   \/ fails_to_decode loads (required_personality_traits j) ->
   _calculate_personality_score loads c j = Ok 0.5)
  /\ (missing (test_personality_traits c) -> missing (personality_traits c) ->
      _calculate_personality_score loads c j = Ok 0.5)
  /\ (forall rt ct,
        decodes_to loads (required_personality_traits j) rt ->
        selected_traits loads c ct ->
        PyObj.truth rt = false \/ PyObj.truth ct = false ->
        _calculate_personality_score loads c j = Ok 0.5).
Proof.
  split; [apply neutral_without_requirement|].
  split; [apply no_traits_neutral|].
  intros rt ct Hr Hc Hf. unfold _calculate_personality_score.
  destruct (decodes_to_truthy _ _ _ Hr) as [s [-> [-> Hl]]]. cbn [negb bind].
  rewrite Hl, (selected_traits_select _ _ _ Hc). cbn [bind].
  destruct Hf as [-> | ->]; cbn [negb orb]; [reflexivity | rewrite orb_true_r; reflexivity].
Qed.

Lemma personality_neutral_without_data_witness :
  _calculate_personality_score Json.loads cand_openness blank_job = Ok 0.5
  /\ _calculate_personality_score Json.loads cand_openness (job_with_doc "oops") = Ok 0.5
  /\ _calculate_personality_score Json.loads blank_candidate (job_with_doc "[1, 2]")
     = Ok 0.5
  /\ _calculate_personality_score Json.loads (cand_with_cv_doc "null") job_openness
     = Ok 0.5
  /\ _calculate_personality_score Json.loads cand_openness (job_with_doc "{}") = Ok 0.5.
Proof.
  assert (Hc : selected_traits Json.loads cand_openness (JObj [("openness", JNum 0.5)])).
  { right. split; [left; reflexivity|].
    apply decodes_to_intro; [reflexivity | apply loads_openness_05]. }
  split; [| split; [| split; [| split]]].
  - apply (proj1 (personality_neutral_without_data Json.loads cand_openness blank_job)).
    left. left. reflexivity.
  - apply (proj1 (personality_neutral_without_data Json.loads cand_openness
                    (job_with_doc "oops"))).
    right. exists "o"%char, "ops"%string. split; reflexivity.
  - apply (proj1 (proj2 (personality_neutral_without_data Json.loads blank_candidate
                           (job_with_doc "[1, 2]")))); left; reflexivity.
  - apply (proj2 (proj2 (personality_neutral_without_data Json.loads
                           (cand_with_cv_doc "null") job_openness))
             (JObj [("openness", JNum 0.8)]) JNull).
    + apply decodes_to_intro; [reflexivity | apply loads_openness_08].
    + right. split; [left; reflexivity|].
      apply decodes_to_intro; reflexivity.
    + right. reflexivity.
  - apply (proj2 (proj2 (personality_neutral_without_data Json.loads cand_openness
                           (job_with_doc "{}")))
             (JObj []) (JObj [("openness", JNum 0.5)])).
    + apply decodes_to_intro; reflexivity.
    + exact Hc.
    + left. reflexivity.
Defined.

Lemma loads_humour :
  Json.loads ("{" ++ Json.quoted "openness" ++ ": 0.8, "
                  ++ Json.quoted "humour" ++ ": " ++ Json.quoted "dry" ++ "}")%string
  = Some (JObj [("openness", JNum 0.8); ("humour", JStr "dry")]).
Proof. vm_compute. reflexivity. Qed.

Lemma exact_match_loop (req cand keys : list (string * json)) :
  Forall (fun kv => same_unit_value req cand (fst kv)) keys ->
  forall acc,
    for_loop (distance_step (JObj req) (JObj cand))
             (map (fun kv => JStr (fst kv)) keys) acc = Ok acc.
Proof.
  induction 1 as [|[k v] keys [x [Hr [Hc _]]] _ IH]; intro acc; [reflexivity|].
  cbn [map fst for_loop]. unfold distance_step at 1, PyObj.sub.
  cbn [PyObj.get bind]. cbn [fst] in Hr, Hc. rewrite Hr, Hc. cbn [bind].
  replace (acc + (x - x) ^ 2) with acc by (simpl; lra). apply IH.
Qed.

(** X5. An exact match scores exactly 1.  When on every required trait
    the candidate's mapping holds the same number of [0,1] as the job's
    (a trait absent from the candidate's counting as 0.5), the
    personality score is 1, whatever the number of traits and whatever
    else the candidate's mapping holds. *)
Theorem exact_match_scores_one (loads : string -> option json)
    (c : Candidate) (j : Job) (req cand : list (string * json)) :
  decodes_to loads (required_personality_traits j) (JObj req) ->
  selected_traits loads c (JObj cand) ->
  req <> [] -> cand <> [] ->
  Forall (fun kv => same_unit_value req cand (fst kv)) req ->
  _calculate_personality_score loads c j = Ok 1.
Proof.
  intros Hr Hc Hreq Hcand Hsame. unfold _calculate_personality_score.
  destruct (decodes_to_truthy _ _ _ Hr) as [s [-> [-> Hl]]]. cbn [negb bind].
  rewrite Hl, (selected_traits_select _ _ _ Hc). cbn [bind].
  destruct req as [|kv req']; [contradiction|].
  destruct cand as [|kv' cand']; [contradiction|].
  cbn [PyObj.truth is_nil negb orb PyObj.iter bind].
  rewrite (exact_match_loop (kv :: req') (kv' :: cand') (kv :: req') Hsame 0).
  cbn [bind]. rewrite math_sqrt_nonneg by lra. cbn [bind].
  rewrite sqrt_0. apply f_equal. unfold Rdiv. lra.
Qed.

Lemma exact_match_scores_one_witness :
  _calculate_personality_score Json.loads cand_with_humour job_openness = Ok 1.
Proof.
  apply (exact_match_scores_one Json.loads cand_with_humour job_openness
           [("openness", JNum 0.8)]
           [("openness", JNum 0.8); ("humour", JStr "dry")]).
  - apply decodes_to_intro; [reflexivity | apply loads_openness_08].
  - left. apply decodes_to_intro; [reflexivity | apply loads_humour].
  - discriminate.
  - discriminate.
  - constructor; [| constructor]. exists (Q2R 0.8).
    split; [reflexivity | split; [reflexivity|]]. unfold Q2R. simpl. lra.
Defined.

Lemma for_loop_ext {A S : Type} (f g : S -> A -> result S) (l : list A) :
  (forall x, In x l -> forall s, f s x = g s x) ->
  forall s, for_loop f l s = for_loop g l s.
Proof.
  induction l as [|x l IH]; intros H s; simpl; [reflexivity|].
  rewrite (H x (or_introl eq_refl) s). destruct (g s x) as [s'|e]; simpl; [| reflexivity].
  apply IH. intros y Hy. apply H. right. exact Hy.
Qed.

(** X6. The scorer reads the candidate's mapping only at the required
    traits: two candidates whose non-empty mappings agree on every
    required trait (value or absence) get the same result, whatever else
    their mappings hold. *)
Theorem personality_reads_required_traits_only (loads : string -> option json)
    (c1 c2 : Candidate) (j : Job) (req cand1 cand2 : list (string * json)) :
  decodes_to loads (required_personality_traits j) (JObj req) ->
  selected_traits loads c1 (JObj cand1) ->
  selected_traits loads c2 (JObj cand2) ->
  cand1 <> [] -> cand2 <> [] ->
  (forall kv, In kv req ->
     PyObj.dict_get cand1 (fst kv) (JNum 0.5) = PyObj.dict_get cand2 (fst kv) (JNum 0.5)) ->
  _calculate_personality_score loads c1 j = _calculate_personality_score loads c2 j.
Proof.
  intros Hr H1 H2 N1 N2 Hagree. unfold _calculate_personality_score.
  destruct (decodes_to_truthy _ _ _ Hr) as [s [-> [-> Hl]]]. cbn [negb bind].
  rewrite Hl, (selected_traits_select _ _ _ H1), (selected_traits_select _ _ _ H2).
  cbn [bind].
  destruct cand1 as [|kv1 cand1']; [contradiction|].
  destruct cand2 as [|kv2 cand2']; [contradiction|].
  cbn [PyObj.truth is_nil negb]. destruct (negb (is_nil req) ) eqn:Hn; cbn [negb orb];
    [| reflexivity].
  cbn [PyObj.iter bind].
  rewrite (for_loop_ext (distance_step (JObj req) (JObj (kv1 :: cand1')))
                        (distance_step (JObj req) (JObj (kv2 :: cand2')))).
  - reflexivity.
  - intros x Hx acc. apply in_map_iff in Hx. destruct Hx as [kv [<- Hin]].
    unfold distance_step. cbn [PyObj.get]. rewrite (Hagree kv Hin). reflexivity.
Qed.

Lemma personality_reads_required_traits_only_witness :
  _calculate_personality_score Json.loads cand_both_sources job_openness
  = _calculate_personality_score Json.loads cand_with_humour job_openness.
Proof.
  apply (personality_reads_required_traits_only Json.loads cand_both_sources
           cand_with_humour job_openness
           [("openness", JNum 0.8)] [("openness", JNum 0.8)]
           [("openness", JNum 0.8); ("humour", JStr "dry")]).
  - apply decodes_to_intro; [reflexivity | apply loads_openness_08].
  - left. apply decodes_to_intro; [reflexivity | apply loads_openness_08].
  - left. apply decodes_to_intro; [reflexivity | apply loads_humour].
  - discriminate.
  - discriminate.
  - intros kv [<- | []]. reflexivity.
Defined.

(** X7. A trait document that decodes to something true that is not a
    mapping makes the scorer raise: a required document that is a
    non-empty list or string raises AttributeError (it has no [get]), one
    that is a number not read as zero or [true] raises TypeError (it is
    not iterable), and with a non-empty required mapping a candidate
    document that is true and not a mapping raises AttributeError. *)
Theorem personality_raises_on_non_mappings (loads : string -> option json)
    (c : Candidate) (j : Job) (rt ct : json) :
  decodes_to loads (required_personality_traits j) rt ->
  selected_traits loads c ct ->
  PyObj.truth rt = true -> PyObj.truth ct = true ->
  match rt with
  | JArr _ | JStr _ => _calculate_personality_score loads c j = Raise AttributeError
  | JNum _ | JBool _ | JNull => _calculate_personality_score loads c j = Raise TypeError
  | JObj _ =>
      match ct with
      | JObj _ => True
      | _ => _calculate_personality_score loads c j = Raise AttributeError
      end
  end.
Proof.
  intros Hr Hc Htr Htc.
  assert (E : _calculate_personality_score loads c j
              = (traits <- PyObj.iter rt ;;
                 distance <- for_loop (distance_step rt ct) traits 0 ;;
                 distance <- PyObj.math_sqrt distance ;;
                 Ok (1 - distance / max_distance))).
  { unfold _calculate_personality_score.
    destruct (decodes_to_truthy _ _ _ Hr) as [s [-> [-> Hl]]]. cbn [negb bind].
    rewrite Hl, (selected_traits_select _ _ _ Hc). cbn [bind].
    rewrite Htr, Htc. reflexivity. }
  rewrite E. clear E.
  destruct rt as [|b|q|s|l|req]; try reflexivity.
  - destruct s as [|a s]; [discriminate | reflexivity].
  - destruct l as [|x l]; [discriminate | reflexivity].
  - destruct req as [|[k v] req]; [discriminate|].
    destruct ct as [|b|q|s|l|cand]; solve [reflexivity | exact I].
Qed.

Lemma personality_raises_on_non_mappings_witness :
  _calculate_personality_score Json.loads cand_openness (job_with_doc "[0.5]")
  = Raise AttributeError
  /\ _calculate_personality_score Json.loads cand_openness (job_with_doc "7")
     = Raise TypeError
  /\ _calculate_personality_score Json.loads (cand_with_cv_doc "[1]") job_openness
     = Raise AttributeError.
Proof.
  assert (Hc : selected_traits Json.loads cand_openness (JObj [("openness", JNum 0.5)])).
  { right. split; [left; reflexivity|].
    apply decodes_to_intro; [reflexivity | apply loads_openness_05]. }
  split; [| split].
  - apply (personality_raises_on_non_mappings Json.loads cand_openness
             (job_with_doc "[0.5]") (JArr [JNum 0.5]) (JObj [("openness", JNum 0.5)]));
      [apply decodes_to_intro; reflexivity | exact Hc | reflexivity | reflexivity].
  - apply (personality_raises_on_non_mappings Json.loads cand_openness
             (job_with_doc "7") (JNum 7) (JObj [("openness", JNum 0.5)]));
      [apply decodes_to_intro; reflexivity | exact Hc | reflexivity | reflexivity].
  - apply (personality_raises_on_non_mappings Json.loads (cand_with_cv_doc "[1]")
             job_openness (JObj [("openness", JNum 0.8)]) (JArr [JNum 1])).
    + apply decodes_to_intro; [reflexivity | apply loads_openness_08].
    + right. split; [left; reflexivity | apply decodes_to_intro; reflexivity].
    + reflexivity.
    + reflexivity.
Defined.

Lemma candidate_raises_iff loads (c : Candidate) (j : Job) (e : exn) :
  _calculate_candidate_score loads c j = Raise e
  <-> _calculate_personality_score loads c j = Raise e.
Proof.
  split; [| apply composite_raises_with_personality].
  intro H. destruct (_calculate_personality_score loads c j) as [p|e'] eqn:Hp.
  - destruct (composite_of_personality loads c j p Hp) as [t [Ht _]].
    rewrite Ht in H. discriminate.
  - rewrite (composite_raises_with_personality loads c j e' Hp) in H. exact H.
Qed.

Lemma candidate_returns_iff loads (c : Candidate) (j : Job) :
  returns (_calculate_candidate_score loads c j)
  <-> returns (_calculate_personality_score loads c j).
Proof.
  split; [| apply candidate_score_returns].
  intros [t Ht]. destruct (_calculate_personality_score loads c j) as [p|e] eqn:Hp.
  - exists p. reflexivity.
  - rewrite (composite_raises_with_personality loads c j e Hp) in Ht. discriminate.
Qed.

Lemma score_all_raises_iff loads (cs : list Candidate) (j : Job) (e : exn) :
  score_all loads cs j = Raise e
  <-> exists before c after,
        cs = before ++ c :: after
        /\ Forall (fun c' => returns (_calculate_candidate_score loads c' j)) before
        /\ _calculate_candidate_score loads c j = Raise e.
Proof.
  induction cs as [|c cs IH]; simpl.
  - split; [discriminate|]. intros [[|b before] [c [after [H _]]]]; discriminate.
  - destruct (_calculate_candidate_score loads c j) as [r|e'] eqn:Hc; cbn [bind].
    + destruct (score_all loads cs j) as [scored|e''] eqn:Hs; cbn [bind].
      * split; [discriminate|].
        intros [[|b before] [c' [after [Hcs [Hbefore Hraise]]]]].
        -- injection Hcs as <- _. rewrite Hc in Hraise. discriminate.
        -- injection Hcs as <- ->. inversion Hbefore as [|? ? _ Hrest]; subst.
           assert (H : @Ok (list (Candidate * R)) scored = Raise e).
           { apply IH. exists before, c', after. repeat split; assumption. }
           discriminate.
      * split.
        -- intro H. injection H as ->.
           destruct (proj1 IH eq_refl) as [before [c' [after [-> [Hb Hr]]]]].
           exists (c :: before), c', after. repeat split; try assumption.
           constructor; [exists r; exact Hc | assumption].
        -- intros [[|b before] [c' [after [Hcs [Hbefore Hraise]]]]].
           ++ injection Hcs as <- _. rewrite Hc in Hraise. discriminate.
           ++ injection Hcs as <- ->. inversion Hbefore as [|? ? _ Hrest]; subst.
              apply IH. exists before, c', after. repeat split; assumption.
    + split.
      * intro H. injection H as ->. exists [], c, cs. repeat split; [constructor | exact Hc].
      * intros [[|b before] [c' [after [Hcs [Hbefore Hraise]]]]].
        -- injection Hcs as <- _. rewrite Hc in Hraise. injection Hraise as ->.
           reflexivity.
        -- injection Hcs as <- _. inversion Hbefore as [|? ? [r Hr] _]; subst.
           rewrite Hc in Hr. discriminate.
Qed.

(** X8. rank_candidates raises exactly when some candidate's personality
    score raises, and the exception is the one of the first such candidate
    in input order; the candidates after it are not scored. *)
Theorem rank_candidates_raises_iff (loads : string -> option json)
    (cs : list Candidate) (j : Job) (e : exn) :
  rank_candidates loads cs j = Raise e
  <-> exists before c after,
        cs = before ++ c :: after
        /\ Forall (fun c' => returns (_calculate_personality_score loads c' j)) before
        /\ _calculate_personality_score loads c j = Raise e.
Proof.
  unfold rank_candidates.
  assert (H : score_all loads cs j = Raise e
              <-> bind (score_all loads cs j) (fun r => Ok (sort_desc r)) = Raise e).
  { destruct (score_all loads cs j); cbn [bind]; split; intro H; try discriminate;
      exact H. }
  rewrite <- H, score_all_raises_iff.
  split; intros [before [c [after [Hcs [Hb Hr]]]]]; exists before, c, after;
    (split; [exact Hcs | split]).
  - apply (Forall_impl _ (P := fun c' => returns (_calculate_candidate_score loads c' j)));
      [| exact Hb]. intros c' Hc'. apply candidate_returns_iff. exact Hc'.
  - apply candidate_raises_iff. exact Hr.
  - apply (Forall_impl _ (P := fun c' => returns (_calculate_personality_score loads c' j)));
      [| exact Hb]. intros c' Hc'. apply candidate_returns_iff. exact Hc'.
  - apply candidate_raises_iff. exact Hr.
Qed.

Section StableArrangement.

Context {A : Type}.

Implicit Types (x y : A * R) (l : list (A * R)).

Lemma score_is_own x : score_is (snd x) x = true.
Proof. unfold score_is. destruct (Req_dec_T (snd x) (snd x)); [reflexivity | contradiction]. Qed.

Lemma score_is_true s x : score_is s x = true -> snd x = s.
Proof. unfold score_is. destruct (Req_dec_T (snd x) s); [auto | discriminate]. Qed.

Lemma filter_score_head_le x y l :
  StronglySorted by_score_desc (y :: l) ->
  In x (filter (score_is (snd x)) (y :: l)) -> snd x <= snd y.
Proof.
  intros Hs Hin. apply filter_In in Hin. destruct Hin as [[<- | Hin] _]; [lra|].
  inversion Hs as [|? ? _ Hall]; subst.
  apply (proj1 (Forall_forall _ _) Hall x Hin).
Qed.

(** Two lists in non-increasing order of score that hold, for every
    score, the same items in the same order, are equal. *)
Lemma sorted_stable_unique l1 :
  forall l2,
    StronglySorted by_score_desc l1 -> StronglySorted by_score_desc l2 ->
    (forall s, filter (score_is s) l1 = filter (score_is s) l2) ->
    l1 = l2.
Proof.
  induction l1 as [|x l1 IH]; intros [|y l2] H1 H2 Hf.
  - reflexivity.
  - specialize (Hf (snd y)). cbn [filter] in Hf. rewrite score_is_own in Hf. discriminate.
  - specialize (Hf (snd x)). cbn [filter] in Hf. rewrite score_is_own in Hf. discriminate.
  - assert (Hxy : snd x <= snd y).
    { apply (filter_score_head_le x y l2 H2). rewrite <- Hf.
      cbn [filter]. rewrite score_is_own. left. reflexivity. }
    assert (Hyx : snd y <= snd x).
    { apply (filter_score_head_le y x l1 H1). rewrite Hf.
      cbn [filter]. rewrite score_is_own. left. reflexivity. }
    assert (Heq : snd x = snd y) by lra.
    pose proof (Hf (snd x)) as Hx. cbn [filter] in Hx.
    rewrite score_is_own in Hx. rewrite Heq in Hx at 2. rewrite score_is_own in Hx.
    injection Hx as <- Htail. f_equal.
    inversion H1; inversion H2; subst. apply IH; try assumption.
    intro s. destruct (score_is s x) eqn:Hsx.
    + apply score_is_true in Hsx. subst s. exact Htail.
    + specialize (Hf s). cbn [filter] in Hf. rewrite Hsx in Hf. exact Hf.
Qed.

End StableArrangement.

(** X9. The ranking does not depend on how the sort proceeds: any
    arrangement of the scored candidates that is in non-increasing order
    of score and keeps the candidates of each score in their input order
    is the list rank_candidates returns. *)
Theorem ranking_is_the_stable_sorted_arrangement (loads : string -> option json)
    (cs : list Candidate) (j : Job) (scored out : list (Candidate * R)) :
  score_all loads cs j = Ok scored ->
  StronglySorted by_score_desc out ->
  (forall s, filter (score_is s) out = filter (score_is s) scored) ->
  rank_candidates loads cs j = Ok out.
Proof.
  intros Hs Hsorted Hstable. unfold rank_candidates. rewrite Hs. cbn [bind].
  apply f_equal. symmetry.
  apply sorted_stable_unique; [exact Hsorted | apply sort_desc_sorted|].
  intro s. rewrite filter_sort_desc. apply Hstable.
Qed.

Lemma ranking_is_the_stable_sorted_arrangement_witness :
  rank_candidates Json.loads [cand_weak; cand_medium; cand_weak_too] job_ranking
  = Ok [(cand_medium, 0.6); (cand_weak, 0.3); (cand_weak_too, 0.3)].
Proof.
  apply (ranking_is_the_stable_sorted_arrangement Json.loads _ _
           [(cand_weak, 0.3); (cand_medium, 0.6); (cand_weak_too, 0.3)]).
  - cbn [score_all]. rewrite medium_score, !weak_score by (auto; fail). reflexivity.
  - repeat constructor; unfold by_score_desc; simpl; lra.
  - intro s. unfold score_is. cbn [filter snd].
    destruct (Req_dec_T 0.6 s), (Req_dec_T 0.3 s); try reflexivity.
    exfalso. lra.
Defined.

(** ** Substrings and tokens *)

Local Open Scope string_scope.

Lemma string_app_assoc (a b c : string) : (a ++ b) ++ c = a ++ (b ++ c).
Proof. induction a as [|x a IH]; simpl; [reflexivity | now rewrite IH]. Qed.

Lemma prefix_nil (q : string) : String.prefix "" q = true.
Proof. destruct q; reflexivity. Qed.

Lemma prefix_app (n q : string) : String.prefix n (n ++ q) = true.
Proof.
  induction n as [|a n IH]; simpl; [apply prefix_nil|].
  destruct (ascii_dec a a); [exact IH | contradiction].
Qed.

Lemma prefix_elim (n : string) : forall h, String.prefix n h = true -> exists q, h = n ++ q.
Proof.
  induction n as [|a n IH]; intros h H.
  - exists h. reflexivity.
  - destruct h as [|b h]; simpl in H; [discriminate|].
    destruct (ascii_dec a b) as [<- | _]; [| discriminate].
    destruct (IH h H) as [q ->]. exists q. reflexivity.
Qed.

Lemma contains_intro (p n q : string) : PyStr.contains n (p ++ n ++ q) = true.
Proof.
  induction p as [|a p IH].
  - change ("" ++ n ++ q) with (n ++ q).
    destruct (n ++ q) as [|b r] eqn:E; cbn [PyStr.contains];
      rewrite <- E, prefix_app; reflexivity.
  - change (String a p ++ n ++ q) with (String a (p ++ n ++ q)).
    cbn [PyStr.contains]. rewrite IH. apply orb_true_r.
Qed.

Lemma contains_elim (n : string) :
  forall h, PyStr.contains n h = true -> exists p q, h = p ++ n ++ q.
Proof.
  induction h as [|a h IH]; intro H.
  - cbn [PyStr.contains] in H. rewrite orb_false_r in H. apply prefix_elim in H.
    destruct H as [q ->]. exists "", q. reflexivity.
  - cbn [PyStr.contains] in H. apply orb_true_iff in H. destruct H as [H | H].
    + apply prefix_elim in H. destruct H as [q ->]. exists "", q. reflexivity.
    + destruct (IH H) as [p [q ->]]. exists (String a p), q. reflexivity.
Qed.

(** Every piece of a split is a substring of the string, and the first
    piece is a prefix of it. *)
Lemma split_by_pieces (sep : ascii -> bool) (s : string) :
  (exists w ws q, PyStr.split_by sep s = w :: ws /\ s = w ++ q)
  /\ (forall w, In w (PyStr.split_by sep s) -> exists p q, s = p ++ w ++ q).
Proof.
  induction s as [|c s [[w0 [ws [q0 [Hsplit Hs]]]] IH]]; simpl.
  - split.
    + exists "", [], "". split; reflexivity.
    + intros w [<- | []]. exists "", "". reflexivity.
  - destruct (sep c).
    + split.
      * exists "", (PyStr.split_by sep s), (String c s). split; reflexivity.
      * intros w [<- | Hin].
        -- exists "", (String c s). reflexivity.
        -- destruct (IH w Hin) as [p [q ->]]. exists (String c p), q. reflexivity.
    + rewrite Hsplit. split.
      * exists (String c w0), ws, q0. split; [reflexivity|]. simpl. now rewrite <- Hs.
      * intros w [<- | Hin].
        -- exists "", q0. simpl. now rewrite <- Hs.
        -- assert (Hin' : In w (PyStr.split_by sep s)) by (rewrite Hsplit; right; exact Hin).
           destruct (IH w Hin') as [p [q ->]]. exists (String c p), q. reflexivity.
Qed.

Lemma token_in_containing_text (w text hay : string) :
  In w (PyStr.split text) -> PyStr.contains text hay = true ->
  PyStr.contains w hay = true.
Proof.
  unfold PyStr.split. intros Hin Hc. apply filter_In in Hin. destruct Hin as [Hin _].
  destruct (proj2 (split_by_pieces PyStr.is_space text) w Hin) as [p [q ->]].
  destruct (contains_elim _ _ Hc) as [p' [q' ->]].
  replace (p' ++ (p ++ w ++ q) ++ q') with ((p' ++ p) ++ w ++ (q ++ q')).
  - apply contains_intro.
  - rewrite !string_app_assoc. reflexivity.
Qed.

Local Open Scope list_scope.
Local Open Scope R_scope.

Lemma count_if_all {A : Type} (p : A -> bool) (l : list A) :
  (forall x, In x l -> p x = true) -> count_if p l = length l.
Proof.
  intro H. rewrite count_if_length. induction l as [|x l IH]; [reflexivity|].
  cbn [filter]. rewrite (H x (or_introl eq_refl)). simpl. f_equal.
  apply IH. intros y Hy. apply H. right. exact Hy.
Qed.

Lemma mem_self (x : string) (l : list string) : In x l -> PyStr.mem x l = true.
Proof.
  intro H. unfold PyStr.mem. apply existsb_exists. exists x.
  split; [exact H | apply String.eqb_refl].
Qed.

Lemma truediv_full (n : nat) : n <> 0%nat -> truediv n n = Ok 1.
Proof.
  intro Hn. rewrite truediv_ok by exact Hn. apply f_equal.
  apply Rinv_r. apply not_0_INR. exact Hn.
Qed.

Lemma normalized_tokens_not_nil (s : string) :
  is_nil (map normalize (PyStr.split_comma s)) = false.
Proof.
  unfold PyStr.split_comma.
  destruct (PyStr.split_by (Ascii.eqb ","%char) s) eqn:E; [| reflexivity].
  exfalso. exact (split_by_not_nil _ _ E).
Qed.

Lemma comma_tokens_self_match (s : string) :
  truediv (count_if (fun t => PyStr.mem t (map normalize (PyStr.split_comma s)))
                    (map normalize (PyStr.split_comma s)))
          (length (map normalize (PyStr.split_comma s)))
  = Ok 1.
Proof.
  rewrite count_if_all by (intros x Hx; apply mem_self; exact Hx).
  apply truediv_full. apply is_nil_false_length. apply normalized_tokens_not_nil.
Qed.

Lemma contains_empty_hay (n : string) : PyStr.contains n EmptyString = true -> n = EmptyString.
Proof. destruct n; [reflexivity | discriminate]. Qed.

Lemma keywords_match_containing_text (rs cs : string) :
  PyStr.split (PyStr.lower rs) <> [] ->
  PyStr.contains (PyStr.lower rs) (PyStr.lower cs) = true ->
  rs <> EmptyString /\ cs <> EmptyString
  /\ truediv (count_if (fun keyword => PyStr.contains keyword (PyStr.lower cs))
                       (PyStr.split (PyStr.lower rs)))
             (length (PyStr.split (PyStr.lower rs)))
     = Ok 1.
Proof.
  intros Hk Hc.
  assert (Hrs : rs <> EmptyString) by (intros ->; apply Hk; reflexivity).
  split; [exact Hrs | split].
  - intros ->. apply contains_empty_hay in Hc. destruct rs; [contradiction | discriminate].
  - rewrite count_if_all.
    + apply truediv_full. intro H. apply length_zero_iff_nil in H. contradiction.
    + intros w Hw. apply (token_in_containing_text w (PyStr.lower rs)); assumption.
Qed.

(** X10. A candidate who repeats the requirement scores 1 on the factor:
    on skills and certifications when the candidate's field is the job's
    field, and on experience and education when the candidate's text
    contains the job's text (case apart) and that text has a keyword. *)
Theorem verbatim_requirement_scores_one (c : Candidate) (j : Job) :
  (forall s, s <> EmptyString ->
     required_skills j = Some s -> skills c = Some s ->
     _calculate_skill_score c j = Ok 1)
  /\ (forall s, s <> EmptyString ->
        required_certifications j = Some s -> certifications c = Some s ->
        _calculate_certification_score c j = Ok 1)
  /\ (forall rs cs,
        required_experience j = Some rs -> experience c = Some cs ->
        PyStr.split (PyStr.lower rs) <> [] ->
        PyStr.contains (PyStr.lower rs) (PyStr.lower cs) = true ->
        _calculate_experience_score c j = Ok 1)
  /\ (forall rs cs,
        required_education j = Some rs -> education c = Some cs ->
        PyStr.split (PyStr.lower rs) <> [] ->
        PyStr.contains (PyStr.lower rs) (PyStr.lower cs) = true ->
        _calculate_education_score c j = Ok 1).
Proof.
  split; [| split; [| split]].
  - intros s Hs Hj Hc. unfold _calculate_skill_score. rewrite Hj, Hc.
    destruct s as [|a s]; [contradiction|].
    cbn [truthy PyStr.is_empty negb orb as_str bind].
    rewrite normalized_tokens_not_nil. apply comma_tokens_self_match.
  - intros s Hs Hj Hc. unfold _calculate_certification_score. rewrite Hj, Hc.
    destruct s as [|a s]; [contradiction|].
    cbn [truthy PyStr.is_empty negb orb as_str bind].
    rewrite normalized_tokens_not_nil. apply comma_tokens_self_match.
  - intros rs cs Hj Hc Hk Hin. unfold _calculate_experience_score. rewrite Hj, Hc.
    destruct (keywords_match_containing_text rs cs Hk Hin) as [Hrs [Hcs Hv]].
    destruct rs as [|a rs]; [contradiction|]. destruct cs as [|b cs]; [contradiction|].
    cbn [truthy PyStr.is_empty negb orb as_str bind].
    destruct (PyStr.split (PyStr.lower (String a rs))) eqn:E; [contradiction|].
    cbn [is_nil]. exact Hv.
  - intros rs cs Hj Hc Hk Hin. unfold _calculate_education_score. rewrite Hj, Hc.
    destruct (keywords_match_containing_text rs cs Hk Hin) as [Hrs [Hcs Hv]].
    destruct rs as [|a rs]; [contradiction|]. destruct cs as [|b cs]; [contradiction|].
    cbn [truthy PyStr.is_empty negb orb as_str bind].
    destruct (PyStr.split (PyStr.lower (String a rs))) eqn:E; [contradiction|].
    cbn [is_nil]. exact Hv.
Qed.

Lemma verbatim_requirement_scores_one_witness :
  _calculate_skill_score cand_verbatim job_full = Ok 1
  /\ _calculate_certification_score cand_verbatim job_full = Ok 1
  /\ _calculate_experience_score cand_verbatim job_full = Ok 1
  /\ _calculate_education_score cand_verbatim job_full = Ok 1.
Proof.
  destruct (verbatim_requirement_scores_one cand_verbatim job_full)
    as [H1 [H2 [H3 H4]]].
  split; [| split; [| split]].
  - apply (H1 "Python, SQL"%string); [discriminate | reflexivity | reflexivity].
  - apply (H2 "AWS Certified, PMP"%string); [discriminate | reflexivity | reflexivity].
  - apply (H3 "Data pipelines"%string "Built DATA PIPELINES for five years"%string);
      [reflexivity | reflexivity | discriminate | reflexivity].
  - apply (H4 "BSc Computer Science"%string "bsc computer science, 2019"%string);
      [reflexivity | reflexivity | discriminate | reflexivity].
Defined.

(** * Properties of the personality analyzer *)

Example split_sentences_ex :
  split_sentences "Hello world. How are you?  Fine!"
  = ["Hello world."; "How are you?"; "Fine!"]%string
  /\ split_sentences "Hi. " = ["Hi."; ""]%string
  /\ split_sentences "v1.2 is out" = ["v1.2 is out"]%string.
Proof. repeat split; reflexivity. Qed.

Example split_text_ex :
  _split_text "One. Two. Three." 9 = ["One. Two."; "Three."]%string
  /\ _split_text "" 512 = [""]%string.
Proof. split; reflexivity. Qed.

Example analyze_test_answers_ex :
  map (fun kv => (fst kv, Qred (snd kv)))
      (analyze_test_answers
         [("q1", "yes"); ("q2", "no"); ("q3", "Yes"); ("q5", "yes")]%string)
  = [("openness", 7 # 10); ("conscientiousness", 2 # 5); ("extraversion", 2 # 5);
     ("agreeableness", 1 # 2); ("neuroticism", 7 # 10)]%string.
Proof. vm_compute. reflexivity. Qed.

Lemma update_identity {V : Type} (d : list (string * V)) (k : string) :
  PyDict.update d k (fun v => v) = d.
Proof.
  induction d as [|[k' v] d IH]; simpl; [reflexivity|].
  destruct (String.eqb k k'); [reflexivity | now rewrite IH].
Qed.

Lemma apply_answer_update answers question trait traits :
  apply_answer answers question trait traits
  = PyDict.update traits trait (answered answers question).
Proof.
  unfold apply_answer, answered. destruct (PyDict.get answers question).
  - reflexivity.
  - symmetry. apply update_identity.
Qed.

Lemma analyze_test_answers_values (answers : list (string * string)) :
  analyze_test_answers answers
  = [("openness", clamp (answered answers "q1" 0.5));
     ("conscientiousness", clamp (answered answers "q2" 0.5));
     ("extraversion", clamp (answered answers "q3" 0.5));
     ("agreeableness", clamp (answered answers "q4" 0.5));
     ("neuroticism", clamp (answered answers "q5" 0.5))]%string.
Proof.
  unfold analyze_test_answers. rewrite !apply_answer_update. reflexivity.
Qed.

Lemma clamp_answered (answers : list (string * string)) (question : string) :
  (clamp (answered answers question 0.5) == expected_trait answers question)%Q
  /\ unit_q (clamp (answered answers question 0.5)).
Proof.
  unfold answered, expected_trait, unit_q.
  destruct (PyDict.get answers question) as [a|]; [destruct (String.eqb a "yes")|];
    vm_compute; repeat split; intro; discriminate.
Qed.

(** X11. Whatever the answers, analyze_test_answers returns the five Big
    Five traits in their order; the value of a trait is 0.7 when its
    question is answered exactly [yes], 0.4 for any other answer and 0.5
    without an answer, so it lies in [0,1] and the final clamp changes
    nothing. *)
Theorem test_traits_values (answers : list (string * string)) :
  map fst (analyze_test_answers answers) = big_five
  /\ Forall2 (fun question kv => (snd kv == expected_trait answers question)%Q)
             questions (analyze_test_answers answers)
  /\ Forall (fun kv => unit_q (snd kv)) (analyze_test_answers answers).
Proof.
  rewrite analyze_test_answers_values. unfold questions.
  split; [reflexivity | split];
    repeat constructor; cbn [snd]; apply clamp_answered.
Qed.

Local Open Scope Q_scope.

Lemma pos_of_nat_Z (n : nat) : n <> 0%nat -> Zpos (Pos.of_nat n) = Z.of_nat n.
Proof.
  intro Hn. rewrite <- (positive_nat_Z (Pos.of_nat n)), Nat2Pos.id by exact Hn.
  reflexivity.
Qed.

Lemma ratio_unit_q (a n : nat) :
  (a <= n)%nat -> n <> 0%nat -> unit_q (Z.of_nat a # Pos.of_nat n).
Proof.
  intros Ha Hn. unfold unit_q, Qle. cbn [Qnum Qden].
  rewrite (pos_of_nat_Z n Hn). split; lia.
Qed.

Lemma truediv_q_ok (a n : nat) :
  n <> 0%nat -> truediv_q a n = Ok (Z.of_nat a # Pos.of_nat n).
Proof.
  intro Hn. unfold truediv_q. destruct (Nat.eqb_spec n 0); [contradiction | reflexivity].
Qed.

Lemma clamp_unit (x : Q) : unit_q (clamp x).
Proof.
  unfold unit_q, clamp. split.
  - apply Q.le_max_l.
  - apply Q.max_lub; [discriminate | apply Q.le_min_l].
Qed.

Lemma min_one_idle (x : Q) : x <= 1 -> Qmin 1 x == x.
Proof. intro H. apply Q.min_r. exact H. Qed.

Lemma keyword_score_value (text : string) (keywords : list string) :
  keywords <> [] ->
  _calculate_keyword_score text keywords
  = Ok (Qmin 1 (Z.of_nat (count_if (fun keyword =>
                                      PyStr.contains keyword (PyStr.lower text))
                                   keywords)
                # Pos.of_nat (length keywords))).
Proof.
  intro Hk. unfold _calculate_keyword_score. rewrite truediv_q_ok; [reflexivity|].
  intro H. apply length_zero_iff_nil in H. contradiction.
Qed.

(** X12. On a non-empty keyword list _calculate_keyword_score returns the
    share of the keywords found in the lowercased text, a value of [0,1]
    that the cap at 1.0 never changes; on the empty list it raises
    ZeroDivisionError. *)
Theorem keyword_score_is_a_share (text : string) (keywords : list string) :
  (keywords = [] -> _calculate_keyword_score text keywords = Raise ZeroDivisionError)
  /\ (keywords <> [] ->
      exists r, _calculate_keyword_score text keywords = Ok r
                /\ unit_q r
                /\ r == Z.of_nat (count_if (fun keyword =>
                                              PyStr.contains keyword (PyStr.lower text))
                                           keywords)
                        # Pos.of_nat (length keywords)).
Proof.
  split.
  - intros ->. reflexivity.
  - intro Hk. rewrite (keyword_score_value text keywords Hk).
    assert (Hn : length keywords <> 0%nat).
    { intro H. apply length_zero_iff_nil in H. contradiction. }
    pose proof (ratio_unit_q _ _ (count_if_le
                  (fun keyword => PyStr.contains keyword (PyStr.lower text)) keywords) Hn)
      as [H0 H1].
    eexists. split; [reflexivity|].
    pose proof (min_one_idle _ H1) as Hmin.
    split; [| exact Hmin]. unfold unit_q. rewrite Hmin. split; assumption.
Qed.

Lemma keyword_score_is_a_share_witness :
  _calculate_keyword_score "anything" [] = Raise ZeroDivisionError
  /\ exists r, _calculate_keyword_score "A creative and CURIOUS mind" openness_keywords
               = Ok r
               /\ unit_q r
               /\ r == 2 # 9.
Proof.
  split.
  - apply (proj1 (keyword_score_is_a_share "anything" [])). reflexivity.
  - destruct (proj2 (keyword_score_is_a_share "A creative and CURIOUS mind"
                       openness_keywords)) as [r [Hr [Hu He]]]; [discriminate|].
    exists r. split; [exact Hr | split; [exact Hu|]].
    rewrite He. reflexivity.
Defined.

Local Close Scope Q_scope.

Lemma lower_app (a b : string) :
  PyStr.lower (a ++ b)%string = (PyStr.lower a ++ PyStr.lower b)%string.
Proof. induction a as [|x a IH]; simpl; [reflexivity | now rewrite IH]. Qed.

Lemma contains_in_longer_text (k before text after : string) :
  PyStr.contains k text = true ->
  PyStr.contains k (before ++ text ++ after)%string = true.
Proof.
  intro H. destruct (contains_elim _ _ H) as [p [q ->]].
  replace (before ++ (p ++ k ++ q) ++ after)%string
    with ((before ++ p) ++ k ++ (q ++ after))%string.
  - apply contains_intro.
  - rewrite !string_app_assoc. reflexivity.
Qed.

Lemma count_if_monotone {A : Type} (p q : A -> bool) (l : list A) :
  (forall x, p x = true -> q x = true) -> (count_if p l <= count_if q l)%nat.
Proof.
  intro H. rewrite !count_if_length. induction l as [|x l IH]; [apply Nat.le_refl|].
  cbn [filter]. destruct (p x) eqn:Hp.
  - rewrite (H x Hp). simpl. lia.
  - destruct (q x); simpl; lia.
Qed.

(** X13. Text around a text never lowers a keyword score: the score of
    [before ++ text ++ after] is at least the score of [text], on any
    keyword list. *)
Theorem keyword_score_monotone (before text after : string) (keywords : list string)
    (r r' : Q) :
  _calculate_keyword_score text keywords = Ok r ->
  _calculate_keyword_score (before ++ text ++ after)%string keywords = Ok r' ->
  (r <= r')%Q.
Proof.
  destruct keywords as [|k keywords]; [discriminate|].
  rewrite !keyword_score_value by discriminate.
  intros H H'. injection H as <-. injection H' as <-.
  apply Q.min_le_compat_l. unfold Qle. cbn [Qnum Qden].
  apply Z.mul_le_mono_nonneg_r; [lia|]. apply Nat2Z.inj_le.
  apply count_if_monotone. intros x Hx.
  rewrite !lower_app. apply contains_in_longer_text. exact Hx.
Qed.

Lemma keyword_score_monotone_witness :
  exists r r',
    _calculate_keyword_score "creative" openness_keywords = Ok r
    /\ _calculate_keyword_score "A creative and curious mind" openness_keywords = Ok r'
    /\ (r <= r')%Q.
Proof.
  eexists. eexists. split; [reflexivity | split; [reflexivity|]].
  apply (keyword_score_monotone "A " "creative" " and curious mind" openness_keywords);
    reflexivity.
Defined.

Lemma count_if_disjoint {A : Type} (p q : A -> bool) (l : list A) :
  (forall x, p x = true -> q x = false) ->
  (count_if p l + count_if q l <= length l)%nat.
Proof.
  intro H. rewrite !count_if_length. induction l as [|x l IH]; [simpl; lia|].
  cbn [filter]. destruct (p x) eqn:Hp.
  - rewrite (H x Hp). simpl. lia.
  - destruct (q x); simpl; lia.
Qed.

Lemma count_if_cover {A : Type} (p q : A -> bool) (l : list A) :
  (forall x, p x = true -> q x = false) ->
  Forall (fun x => p x = true \/ q x = true) l ->
  (count_if p l + count_if q l = length l)%nat.
Proof.
  intros H Hall. rewrite !count_if_length.
  induction Hall as [|x l Hx _ IH]; [reflexivity|].
  cbn [filter]. destruct (p x) eqn:Hp.
  - rewrite (H x Hp). simpl. lia.
  - destruct Hx as [Hx | Hx]; [discriminate|]. rewrite Hx. simpl. lia.
Qed.

Lemma labels_disjoint (p : Prediction) :
  String.eqb (label p) "POSITIVE" = true -> String.eqb (label p) "NEGATIVE" = false.
Proof. intro H. apply String.eqb_eq in H. rewrite H. reflexivity. Qed.

(** X14. _aggregate_predictions never raises.  Without predictions both
    shares are 0.5; otherwise each share lies in [0,1], the two add up to
    at most 1, and to exactly 1 when every label is POSITIVE or
    NEGATIVE. *)
Theorem aggregate_shares (predictions : list Prediction) :
  exists agg,
    _aggregate_predictions predictions = Ok agg
    /\ unit_q (positive_share agg) /\ unit_q (negative_share agg)
    /\ (predictions = [] ->
        (positive_share agg == 0.5 /\ negative_share agg == 0.5)%Q)
    /\ (predictions <> [] ->
        (positive_share agg + negative_share agg <= 1)%Q
        /\ (Forall (fun p => label p = "POSITIVE"%string \/ label p = "NEGATIVE"%string)
                   predictions ->
            (positive_share agg + negative_share agg == 1)%Q)).
Proof.
  unfold _aggregate_predictions. destruct predictions as [|p0 predictions].
  - eexists. split; [reflexivity|]. cbn [positive_share negative_share].
    repeat split; try discriminate; try reflexivity.
  - set (l := p0 :: predictions).
    assert (Hn : length l <> 0%nat) by discriminate.
    replace (0 <? length l)%nat with true by reflexivity.
    rewrite !truediv_q_ok by exact Hn. cbn [bind].
    eexists. split; [reflexivity|]. cbn [positive_share negative_share].
    pose proof (count_if_le (fun p => String.eqb (label p) "POSITIVE") l) as Hp.
    pose proof (count_if_le (fun p => String.eqb (label p) "NEGATIVE") l) as Hq.
    pose proof (count_if_disjoint (fun p => String.eqb (label p) "POSITIVE")
                  (fun p => String.eqb (label p) "NEGATIVE") l labels_disjoint) as Hd.
    split; [apply ratio_unit_q; assumption|].
    split; [apply ratio_unit_q; assumption|].
    split; [discriminate|]. intros _.
    unfold Qle, Qeq, Qplus. cbn [Qnum Qden]. rewrite (pos_of_nat_Z _ Hn).
    rewrite Pos2Z.inj_mul, (pos_of_nat_Z _ Hn).
    split; [nia|].
    intro Hall.
    assert (He : (count_if (fun p => String.eqb (label p) "POSITIVE") l
                  + count_if (fun p => String.eqb (label p) "NEGATIVE") l
                  = length l)%nat).
    { apply count_if_cover; [exact labels_disjoint|].
      apply (Forall_impl _ (P := fun p => label p = "POSITIVE"%string
                                          \/ label p = "NEGATIVE"%string));
        [| exact Hall].
      intros p [H | H]; rewrite H; [left | right]; reflexivity. }
    nia.
Qed.

Lemma aggregate_shares_witness :
  exists agg,
    _aggregate_predictions
      [mkPrediction "POSITIVE" 0.9; mkPrediction "NEGATIVE" 0.8; mkPrediction "POSITIVE" 0.6]
    = Ok agg
    /\ (positive_share agg + negative_share agg == 1)%Q.
Proof.
  destruct (aggregate_shares
              [mkPrediction "POSITIVE" 0.9; mkPrediction "NEGATIVE" 0.8;
               mkPrediction "POSITIVE" 0.6])
    as [agg [Hagg [_ [_ [_ Hsum]]]]].
  exists agg. split; [exact Hagg|].
  apply Hsum; [discriminate|].
  repeat constructor; solve [left; reflexivity | right; reflexivity].
Defined.

Lemma keyword_score_returns_unit (text : string) (keywords : list string) :
  keywords <> [] ->
  exists r, _calculate_keyword_score text keywords = Ok r /\ unit_q r.
Proof.
  intro Hk. rewrite (keyword_score_value text keywords Hk).
  assert (Hn : length keywords <> 0%nat).
  { intro H. apply length_zero_iff_nil in H. contradiction. }
  pose proof (ratio_unit_q _ _ (count_if_le
                (fun keyword => PyStr.contains keyword (PyStr.lower text)) keywords) Hn)
    as [H0 H1].
  eexists. split; [reflexivity|]. unfold unit_q.
  rewrite (min_one_idle _ H1). split; assumption.
Qed.

Lemma analyze_returns_unit_traits (polarity_scores : string -> Sentiment)
    (classifier : option (string -> result (list Prediction))) (text : string) :
  exists traits,
    analyze polarity_scores classifier text = Ok traits
    /\ map fst traits = big_five
    /\ Forall (fun kv => unit_q (snd kv)) traits.
Proof.
  unfold analyze.
  destruct (keyword_score_returns_unit text openness_keywords) as [o [-> _]];
    [discriminate|].
  destruct (keyword_score_returns_unit text conscientiousness_keywords) as [c [-> _]];
    [discriminate|].
  destruct (keyword_score_returns_unit text extraversion_keywords) as [e [-> _]];
    [discriminate|].
  destruct (keyword_score_returns_unit text agreeableness_keywords) as [a [-> _]];
    [discriminate|].
  destruct (keyword_score_returns_unit text neuroticism_keywords) as [n [-> _]];
    [discriminate|].
  cbn [bind]. eexists. split; [reflexivity|]. split; [reflexivity|].
  cbn [map fst snd]. repeat constructor; apply clamp_unit.
Qed.

(** X15. Whatever the sentiment analyzer and the classifier return, and
    also when there is no classifier or it raises, analyze returns the
    five Big Five traits in their order, each with a value in [0,1]. *)
Theorem analyze_traits_in_range (polarity_scores : string -> Sentiment)
    (classifier : option (string -> result (list Prediction))) (text : string) :
  exists traits,
    analyze polarity_scores classifier text = Ok traits
    /\ map fst traits = big_five
    /\ Forall (fun kv => unit_q (snd kv)) traits.
Proof. apply analyze_returns_unit_traits. Qed.

Lemma analyze_test_answers_unit (answers : list (string * string)) :
  Forall (fun kv => unit_q (snd kv)) (analyze_test_answers answers).
Proof.
  rewrite analyze_test_answers_values. repeat constructor; apply clamp_unit.
Qed.

Lemma unit_q_real (q : Q) : unit_q q -> 0 <= Q2R q <= 1.
Proof.
  intros [H0 H1]. apply Qle_Rle in H0, H1.
  replace (Q2R 0) with 0 in H0 by (unfold Q2R; simpl; lra).
  replace (Q2R 1) with 1 in H1 by (unfold Q2R; simpl; lra).
  split; assumption.
Qed.

Lemma stored_unit_traits loads (field : option string) (traits : list (string * Q)) :
  stores loads field traits ->
  Forall (fun kv => unit_q (snd kv)) traits ->
  unit_traits loads field.
Proof.
  intros [d [Hd Hsame]] Hunit. right. right. exists d. split; [exact Hd|].
  unfold unit_mapping. clear Hd.
  induction Hsame as [|kv tv d traits [_ [q [Hq Heq]]] _ IH]; [constructor|].
  inversion Hunit as [|? ? Htv Hrest]; subst.
  constructor; [| apply IH; exact Hrest].
  exists (Q2R q). rewrite Hq. split; [reflexivity|].
  apply unit_q_real. unfold unit_q in *. rewrite Heq. exact Htv.
Qed.

(** X16. For a candidate as the application stores it, the CV analysis
    of some text in personality_traits and, when the questionnaire was
    filled in, its result in test_personality_traits, the personality
    score against a job that requires at most five traits with targets in
    [0,1] is returned and lies in [0,1]. *)
Theorem stored_candidate_score_in_unit (loads : string -> option json)
    (polarity_scores : string -> Sentiment)
    (classifier : option (string -> result (list Prediction)))
    (text : string) (answers : list (string * string))
    (cv_traits : list (string * Q)) (c : Candidate) (j : Job) :
  analyze polarity_scores classifier text = Ok cv_traits ->
  stores loads (personality_traits c) cv_traits ->
  missing (test_personality_traits c)
  \/ stores loads (test_personality_traits c) (analyze_test_answers answers) ->
  unit_traits loads (required_personality_traits j) ->
  at_most_traits loads 5 (required_personality_traits j) ->
  unit_score (_calculate_personality_score loads c j).
Proof.
  intros Hcv Hstored Htest Hj H5.
  destruct (analyze_returns_unit_traits polarity_scores classifier text)
    as [traits [Htraits [_ Hunit]]].
  rewrite Hcv in Htraits. injection Htraits as <-.
  apply (personality_unit_on_unit_traits loads c j Hj H5).
  - destruct Htest as [Hm | Hs]; [left; exact Hm|].
    apply (stored_unit_traits loads _ _ Hs). apply analyze_test_answers_unit.
  - apply (stored_unit_traits loads _ _ Hstored Hunit).
Qed.

Ltac same_traits :=
  repeat (apply Forall2_cons;
          [split; [reflexivity | eexists; split; [reflexivity | vm_compute; reflexivity]]|]);
  apply Forall2_nil.

Lemma stored_candidate_score_in_unit_witness :
  unit_score (_calculate_personality_score Json.loads cand_from_app job_openness).
Proof.
  eapply (stored_candidate_score_in_unit Json.loads flat_sentiment None ""
            answers_from_app).
  - vm_compute. reflexivity.
  - eexists. split.
    + apply decodes_to_intro; [reflexivity | vm_compute; reflexivity].
    + same_traits.
  - right. eexists. split.
    + apply decodes_to_intro; [reflexivity | vm_compute; reflexivity].
    + same_traits.
  - apply unit_traits_openness_08.
  - apply (at_most_traits_intro Json.loads _ [("openness", JNum 0.8)]);
      [apply loads_openness_08 | simpl; lia].
Defined.

(** ** The chunks of _split_text *)

Lemma string_length_app (a b : string) :
  String.length (a ++ b)%string = (String.length a + String.length b)%nat.
Proof. induction a as [|x a IH]; simpl; [reflexivity | now rewrite IH]. Qed.

Lemma rstrip_length (s : string) : (String.length (PyStr.rstrip s) <= String.length s)%nat.
Proof.
  induction s as [|c s IH]; simpl; [apply Nat.le_refl|].
  destruct (PyStr.is_space c && PyStr.is_empty (PyStr.rstrip s)); simpl; lia.
Qed.

Lemma rstrip_trailing_space (s : string) :
  PyStr.rstrip (s ++ " ")%string = PyStr.rstrip s.
Proof.
  induction s as [|c s IH]; [reflexivity|].
  cbn [append PyStr.rstrip]. rewrite IH. reflexivity.
Qed.

Lemma lstrip_trailing_space (s : string) :
  PyStr.lstrip (s ++ " ")%string = EmptyString
  \/ exists t, PyStr.lstrip (s ++ " ")%string = (t ++ " ")%string
               /\ (String.length t <= String.length s)%nat.
Proof.
  induction s as [|c s IH].
  - left. reflexivity.
  - cbn [append PyStr.lstrip]. destruct (PyStr.is_space c).
    + destruct IH as [IH | [t [IH Hl]]]; [left; exact IH|].
      right. exists t. split; [exact IH | simpl; lia].
    + right. exists (String c s). split; [reflexivity | apply Nat.le_refl].
Qed.

Lemma strip_trailing_space (s : string) :
  (String.length (PyStr.strip (s ++ " ")%string) <= String.length s)%nat.
Proof.
  unfold PyStr.strip. destruct (lstrip_trailing_space s) as [-> | [t [-> Hl]]].
  - simpl. lia.
  - rewrite rstrip_trailing_space. pose proof (rstrip_length t). lia.
Qed.

Lemma sentence_pieces_not_nil (state : scan_state) (s : string) :
  sentence_pieces state s <> [].
Proof.
  revert state. induction s as [|c s IH]; intro state; cbn [sentence_pieces];
    [discriminate|].
  destruct state; cbn; try destruct (PyStr.is_space c);
    try discriminate; try apply IH;
    destruct (sentence_pieces _ s); discriminate.
Qed.

Section Chunks.

Variable max_length : nat.
Variable sentences : list string.

Lemma chunk_step_invariant (k : nat) (state : list string * string) (sentence : string) :
  In sentence sentences ->
  chunks_invariant max_length sentences k state ->
  chunks_invariant max_length sentences (S k) (chunk_step max_length state sentence)
  /\ PyStr.is_empty (snd (chunk_step max_length state sentence)) = false.
Proof.
  intros Hin [Hchunks [Hcur Hcount]]. destruct state as [chunks current].
  cbn [fst snd] in *. unfold chunk_step.
  assert (Hne : forall a b, PyStr.is_empty (a ++ b ++ " ")%string = false).
  { intros a b. destruct a; [destruct b|]; reflexivity. }
  unfold chunks_invariant.
  destruct (Nat.leb_spec (String.length current + String.length sentence) max_length)
    as [Hfit | Hover]; cbn [fst snd].
  - split; [| apply Hne]. split; [exact Hchunks | split].
    + right. left.
      replace (current ++ sentence ++ " ")%string
        with ((current ++ sentence) ++ " ")%string by apply string_app_assoc.
      pose proof (strip_trailing_space (current ++ sentence)%string) as Hs.
      rewrite string_length_app in Hs. lia.
    + rewrite Hne. destruct (PyStr.is_empty current); lia.
  - pose proof (Hne EmptyString sentence) as Hne'. cbn [append] in Hne'.
    split; [| exact Hne']. split; [| split].
    + destruct current as [|c current]; cbn [PyStr.is_empty]; [exact Hchunks|].
      apply Forall_app. split; [exact Hchunks|]. constructor; [| constructor].
      destruct Hcur as [Hcur | Hcur]; [discriminate | exact Hcur].
    + right. right. exists sentence. split; [exact Hin | reflexivity].
    + rewrite Hne'. destruct current as [|c current];
        cbn [PyStr.is_empty] in *; [lia|]. rewrite length_app. simpl. lia.
Qed.

Lemma chunk_fold_invariant (todo : list string) :
  forall (k : nat) (state : list string * string),
    incl todo sentences ->
    chunks_invariant max_length sentences k state ->
    chunks_invariant max_length sentences (k + length todo) (fold_left (chunk_step max_length) todo state)
    /\ (todo <> [] ->
        PyStr.is_empty (snd (fold_left (chunk_step max_length) todo state)) = false).
Proof.
  induction todo as [|s todo IH]; intros k state Hincl Hinv.
  - simpl. rewrite Nat.add_0_r. split; [exact Hinv | intro H; contradiction].
  - cbn [fold_left length].
    destruct (chunk_step_invariant k state s (Hincl s (or_introl eq_refl)) Hinv)
      as [Hstep Hne].
    destruct (IH (S k) (chunk_step max_length state s)
                (fun x Hx => Hincl x (or_intror Hx)) Hstep) as [Hfold Hlast].
    replace (k + S (length todo))%nat with (S k + length todo)%nat by lia.
    split; [exact Hfold|]. intros _.
    destruct todo as [|s' todo]; [exact Hne | apply Hlast; discriminate].
Qed.

End Chunks.

(** X17. _split_text always returns at least one chunk and never more
    chunks than the text has sentences; every chunk is at most max_length
    characters long, unless it is a single sentence on its own. *)
Theorem split_text_chunks_fit (text : string) (max_length : nat) :
  _split_text text max_length <> []
  /\ (length (_split_text text max_length) <= length (split_sentences text))%nat
  /\ Forall (fitting_chunk max_length (split_sentences text))
            (_split_text text max_length).
Proof.
  unfold _split_text.
  assert (Hinit : chunks_invariant max_length (split_sentences text) 0 ([], EmptyString)).
  { split; [constructor | split; [left; reflexivity | simpl; lia]]. }
  destruct (chunk_fold_invariant max_length (split_sentences text)
              (split_sentences text) 0 ([], EmptyString) (incl_refl _) Hinit)
    as [[Hchunks [Hcur Hcount]] Hlast].
  specialize (Hlast (sentence_pieces_not_nil Plain text)).
  destruct (fold_left (chunk_step max_length) (split_sentences text) ([], EmptyString))
    as [chunks current].
  cbn [fst snd] in *. rewrite Hlast in *. cbn [plus] in Hcount.
  split; [| split].
  - destruct chunks; discriminate.
  - rewrite length_app. simpl. lia.
  - apply Forall_app. split; [exact Hchunks|]. constructor; [| constructor].
    destruct Hcur as [-> | Hcur]; [discriminate | exact Hcur].
Qed.

(** * Properties of the CV parser *)

Example extract_name_ex :
  extract_name (String newline "Curriculum Vitae" ++ String newline "jane doe"
                  ++ String newline "  Jane Mary Doe  " ++ String newline "Python")%string
  = "Curriculum Vitae"%string
  /\ extract_name (String newline "jane doe" ++ String newline "  Jane Mary Doe  ")%string
     = "Jane Mary"%string
  /\ extract_name "" = "Unknown"%string.
Proof. repeat split; reflexivity. Qed.

Example extract_experience_ex :
  extract_experience
    ("Jane Doe" ++ String newline "Work Experience"
       ++ String newline "  Acme, backend developer  " ++ String newline ""
       ++ String newline "Initech, intern" ++ String newline "Education"
       ++ String newline "BSc")%string
  = ("Acme, backend developer" ++ String newline "Initech, intern")%string
  /\ extract_experience "Jane Doe" = "No experience information found"%string.
Proof. split; reflexivity. Qed.

Example extract_skills_ex :
  extract_skills "I know Python, JavaScript and SQL."
  = ["python"; "java"; "javascript"; "sql"]%string.
Proof. reflexivity. Qed.

Lemma comma_free_cons (c : ascii) (k : string) :
  PyStr.contains "," (String c k) = false ->
  Ascii.eqb ","%char c = false /\ PyStr.contains "," k = false.
Proof.
  cbn [PyStr.contains String.prefix]. intro H. apply orb_false_iff in H.
  destruct H as [Hp Hk]. split; [| exact Hk].
  destruct (ascii_dec ","%char c) as [<- | Hne].
  - rewrite prefix_nil in Hp. discriminate.
  - apply Ascii.eqb_neq. exact Hne.
Qed.

Lemma split_comma_free (k : string) :
  PyStr.contains "," k = false -> PyStr.split_comma k = [k].
Proof.
  unfold PyStr.split_comma. induction k as [|c k IH]; intro H; [reflexivity|].
  apply comma_free_cons in H. destruct H as [Hc Hk].
  cbn [PyStr.split_by]. rewrite Hc, (IH Hk). reflexivity.
Qed.

Lemma split_comma_app (k rest : string) :
  PyStr.contains "," k = false ->
  PyStr.split_comma (k ++ String ","%char rest)%string = k :: PyStr.split_comma rest.
Proof.
  unfold PyStr.split_comma. induction k as [|c k IH]; intro H; [reflexivity|].
  apply comma_free_cons in H. destruct H as [Hc Hk].
  cbn [append PyStr.split_by]. rewrite Hc, (IH Hk). reflexivity.
Qed.

Lemma normalize_after_space (k : string) : normalize (String " "%char k) = normalize k.
Proof. reflexivity. Qed.

Lemma clean_token_spec (k : string) :
  clean_token k = true -> PyStr.contains "," k = false /\ normalize k = k.
Proof.
  unfold clean_token. intro H. apply andb_true_iff in H. destruct H as [Hc Hn].
  split; [apply negb_true_iff; exact Hc | apply String.eqb_eq; exact Hn].
Qed.

(** Tokens joined with a comma and a space come back from the scorer's
    tokenization. *)
Lemma tokens_round_trip (l : list string) :
  l <> [] -> forallb clean_token l = true ->
  map normalize (PyStr.split_comma (join ", " l)) = l.
Proof.
  induction l as [|k l IH]; intros Hne Hclean; [contradiction|].
  cbn [forallb] in Hclean. apply andb_true_iff in Hclean. destruct Hclean as [Hk Hl].
  destruct (clean_token_spec k Hk) as [Hcomma Hnorm].
  destruct l as [|k' l].
  - cbn [join]. rewrite (split_comma_free k Hcomma). cbn [map]. now rewrite Hnorm.
  - change (join ", " (k :: k' :: l))
      with (k ++ String ","%char (String " "%char (join ", " (k' :: l))))%string.
    rewrite (split_comma_app k _ Hcomma). cbn [map]. rewrite Hnorm. f_equal.
    specialize (IH ltac:(discriminate) Hl).
    destruct (clean_token_spec k') as [Hcomma' _];
      [cbn [forallb] in Hl; apply andb_true_iff in Hl; apply Hl|].
    revert IH. generalize (join ", " (k' :: l)). intros s IH.
    unfold PyStr.split_comma in *. cbn [PyStr.split_by].
    replace (Ascii.eqb ","%char " "%char) with false by reflexivity.
    replace (Ascii.eqb " "%char ","%char) with false by reflexivity.
    destruct (PyStr.split_by (Ascii.eqb ","%char) s) as [|w ws] eqn:E.
    + exfalso. exact (split_by_not_nil _ _ E).
    + cbn [map] in *. rewrite normalize_after_space. exact IH.
Qed.

Lemma skills_keywords_clean : forallb clean_token skills_keywords = true.
Proof. vm_compute. reflexivity. Qed.

Lemma forallb_filter {A : Type} (p q : A -> bool) (l : list A) :
  forallb p l = true -> forallb p (filter q l) = true.
Proof.
  induction l as [|x l IH]; [reflexivity|]. cbn [forallb filter]. intro H.
  apply andb_true_iff in H. destruct H as [Hx Hl].
  destruct (q x); [cbn [forallb]; rewrite Hx; apply IH; exact Hl | apply IH; exact Hl].
Qed.

Lemma extracted_skills_round_trip (text : string) :
  extract_skills text <> [] ->
  map normalize (PyStr.split_comma (join ", " (extract_skills text)))
  = extract_skills text.
Proof.
  intro H. apply tokens_round_trip; [exact H|].
  unfold extract_skills. apply forallb_filter. apply skills_keywords_clean.
Qed.

(** X18. The skills found in a CV survive storage: joined with ", " as
    the upload does and tokenized as the skill scorer does, they come
    back as the same list, in the same order; the extraction itself finds
    exactly the keywords that occur in the lowercased text, in the order
    of the keyword list. *)
Theorem extracted_skills_survive_storage (text : string) :
  (forall skill, In skill (extract_skills text)
                 <-> In skill skills_keywords
                     /\ PyStr.contains skill (PyStr.lower text) = true)
  /\ (extract_skills text <> [] ->
      map normalize (PyStr.split_comma (join ", " (extract_skills text)))
      = extract_skills text).
Proof.
  split; [| apply extracted_skills_round_trip].
  intro skill. unfold extract_skills.
  apply (filter_In (fun s => PyStr.contains s (PyStr.lower text))).
Qed.

Lemma extracted_skills_survive_storage_witness :
  map normalize
      (PyStr.split_comma
         (join ", " (extract_skills "I know Python, JavaScript and SQL.")))
  = ["python"; "java"; "javascript"; "sql"]%string.
Proof.
  apply (proj2 (extracted_skills_survive_storage "I know Python, JavaScript and SQL.")).
  discriminate.
Defined.

Lemma skill_score_of_fields (c : Candidate) (j : Job) (a b : ascii) (rs cs : string) :
  required_skills j = Some (String a rs) ->
  skills c = Some (String b cs) ->
  _calculate_skill_score c j
  = Ok (INR (count_if (fun skill =>
                         PyStr.mem skill (map normalize (PyStr.split_comma (String b cs))))
                      (map normalize (PyStr.split_comma (String a rs))))
        / INR (length (map normalize (PyStr.split_comma (String a rs))))).
Proof.
  intros Hj Hc. unfold _calculate_skill_score. rewrite Hj, Hc.
  cbn [truthy PyStr.is_empty negb orb as_str bind].
  rewrite (normalized_tokens_not_nil (String a rs)).
  apply truediv_ok. apply is_nil_false_length.
  apply (normalized_tokens_not_nil (String a rs)).
Qed.

Lemma skill_score_of_empty_field (c : Candidate) (j : Job) :
  skills c = Some EmptyString -> _calculate_skill_score c j = Ok 0.5.
Proof.
  intro Hc. unfold _calculate_skill_score. rewrite Hc.
  cbn [truthy PyStr.is_empty negb]. rewrite orb_true_r. reflexivity.
Qed.

Lemma join_not_empty (sep : string) (l : list string) :
  l <> [] -> Forall (fun x => x <> EmptyString) l ->
  exists b cs, join sep l = String b cs.
Proof.
  intros Hne Hall. destruct l as [|x l]; [contradiction|].
  inversion Hall as [|? ? Hx _]; subst.
  destruct x as [|b x]; [contradiction|].
  destruct l as [|y l]; cbn [join append]; eexists; eexists; reflexivity.
Qed.

Lemma extracted_skills_not_empty (text : string) :
  Forall (fun skill => skill <> EmptyString) (extract_skills text).
Proof.
  unfold extract_skills. apply Forall_forall. intros skill Hin.
  apply filter_In in Hin. destruct Hin as [Hin _]. intros ->.
  revert Hin. vm_compute. intuition discriminate.
Qed.

(** X19. The skill score of an uploaded candidate against a job with
    required skills: 0.5 when no skill keyword was found in the CV (the
    stored field is empty), otherwise the share of the job's tokens that
    are among the skills found. *)
Theorem uploaded_candidate_skill_score (extract_email extract_phone : string -> string)
    (text traits filename : string) (new_id : Z) (j : Job) (a : ascii) (rs : string) :
  required_skills j = Some (String a rs) ->
  let c := candidate_of_cv new_id (parse_text extract_email extract_phone text)
                           traits filename in
  let required := map normalize (PyStr.split_comma (String a rs)) in
  (extract_skills text = [] -> _calculate_skill_score c j = Ok 0.5)
  /\ (extract_skills text <> [] ->
      _calculate_skill_score c j
      = Ok (INR (count_if (fun skill => PyStr.mem skill (extract_skills text)) required)
            / INR (length required))).
Proof.
  intros Hj c required.
  assert (Hc : skills c = Some (join ", " (extract_skills text))) by reflexivity.
  clearbody c. split.
  - intro Hnone. rewrite Hnone in Hc. apply skill_score_of_empty_field. exact Hc.
  - intro Hfound.
    destruct (join_not_empty ", " (extract_skills text) Hfound
                (extracted_skills_not_empty text)) as [b [cs Hjoin]].
    rewrite Hjoin in Hc.
    rewrite (skill_score_of_fields c j a b rs cs Hj Hc), <- Hjoin.
    rewrite (extracted_skills_round_trip text Hfound). reflexivity.
Qed.

Lemma uploaded_candidate_skill_score_witness :
  _calculate_skill_score
    (candidate_of_cv 9 (parse_text (fun _ => "a@b.c"%string) (fun _ => "Unknown"%string)
                                   "I know Python, JavaScript and SQL.")
                     "{}" "cv.pdf")
    job_python_sql
  = Ok (INR (count_if (fun skill =>
                         PyStr.mem skill
                           (extract_skills "I know Python, JavaScript and SQL."))
                      (map normalize (PyStr.split_comma "Python, SQL")))
        / INR (length (map normalize (PyStr.split_comma "Python, SQL")))).
Proof.
  apply (proj2 (uploaded_candidate_skill_score (fun _ => "a@b.c"%string)
                  (fun _ => "Unknown"%string) "I know Python, JavaScript and SQL."
                  "{}" "cv.pdf" 9 job_python_sql "P"%char "ython, SQL" eq_refl)).
  discriminate.
Defined.

Lemma split_by_free (sep : ascii -> bool) (s : string) :
  Forall (fun w => forallb (fun c => negb (sep c)) (list_ascii_of_string w) = true)
         (PyStr.split_by sep s).
Proof.
  induction s as [|c s IH]; cbn [PyStr.split_by].
  - repeat constructor.
  - destruct (sep c) eqn:Hc.
    + constructor; [reflexivity | exact IH].
    + destruct (PyStr.split_by sep s) as [|w ws]; [repeat constructor; cbn; now rewrite Hc|].
      inversion IH as [|? ? Hw Hws]; subst.
      constructor; [| exact Hws]. cbn [list_ascii_of_string forallb].
      rewrite Hc, Hw. reflexivity.
Qed.

Lemma split_words (s w : string) :
  In w (PyStr.split s) -> PyStr.is_empty w = false /\ no_space w = true.
Proof.
  unfold PyStr.split. intro H. apply filter_In in H. destruct H as [Hin Hne].
  split; [apply negb_true_iff; exact Hne|].
  apply (proj1 (Forall_forall _ _) (split_by_free PyStr.is_space s) w Hin).
Qed.

Lemma name_in_shape (lines : list string) (found : string) :
  name_in lines = Some found ->
  exists w1 w2,
    found = (w1 ++ " " ++ w2)%string
    /\ starts_upper w1 = true /\ starts_upper w2 = true
    /\ no_space w1 = true /\ no_space w2 = true.
Proof.
  induction lines as [|line lines IH]; cbn [name_in]; [discriminate|].
  destruct (PyStr.split (PyStr.strip line)) as [|w1 [|w2 words]] eqn:E;
    cbn [length Nat.leb andb]; try exact IH.
  destruct (forallb starts_upper _) eqn:Hup; cbn [andb]; [| exact IH].
  intro H. injection H as <-. exists w1, w2.
  assert (H1 : In w1 (PyStr.split (PyStr.strip line))) by (rewrite E; left; reflexivity).
  assert (H2 : In w2 (PyStr.split (PyStr.strip line)))
    by (rewrite E; right; left; reflexivity).
  destruct (split_words _ _ H1) as [Hne1 Hs1].
  destruct (split_words _ _ H2) as [Hne2 Hs2].
  cbn [filter] in Hup. rewrite Hne1, Hne2 in Hup. cbn [negb forallb] in Hup.
  apply andb_true_iff in Hup. destruct Hup as [Hu1 Hup].
  apply andb_true_iff in Hup. destruct Hup as [Hu2 _].
  repeat split; assumption.
Qed.

(** X20. extract_name returns either the placeholder Unknown or two
    words separated by one space, each starting with a capital letter and
    free of whitespace. *)
Theorem extract_name_shape (text : string) :
  extract_name text = "Unknown"%string
  \/ exists w1 w2,
       extract_name text = (w1 ++ " " ++ w2)%string
       /\ starts_upper w1 = true /\ starts_upper w2 = true
       /\ no_space w1 = true /\ no_space w2 = true.
Proof.
  unfold extract_name.
  destruct (name_in (firstn 5 (split_lines text))) as [found|] eqn:E.
  - right. apply (name_in_shape _ _ E).
  - left. reflexivity.
Qed.

Lemma lstrip_suffix (s : string) : exists p, s = (p ++ PyStr.lstrip s)%string.
Proof.
  induction s as [|c s [p IH]]; [exists EmptyString; reflexivity|].
  cbn [PyStr.lstrip]. destruct (PyStr.is_space c).
  - exists (String c p). cbn [append]. now rewrite <- IH.
  - exists EmptyString. reflexivity.
Qed.

Lemma rstrip_prefix (s : string) : exists q, s = (PyStr.rstrip s ++ q)%string.
Proof.
  induction s as [|c s [q IH]]; [exists EmptyString; reflexivity|].
  cbn [PyStr.rstrip]. destruct (PyStr.is_space c && PyStr.is_empty (PyStr.rstrip s)).
  - exists (String c s). reflexivity.
  - exists q. cbn [append]. now rewrite <- IH.
Qed.

Lemma strip_substring (s : string) :
  exists p q, s = (p ++ PyStr.strip s ++ q)%string.
Proof.
  unfold PyStr.strip. destruct (lstrip_suffix s) as [p Hp].
  destruct (rstrip_prefix (PyStr.lstrip s)) as [q Hq].
  exists p, q. rewrite <- Hq. exact Hp.
Qed.

Lemma any_in_stripped (keywords : list string) (line : string) :
  any_in keywords (PyStr.lower line) = false ->
  any_in keywords (PyStr.lower (PyStr.strip line)) = false.
Proof.
  intro H. apply not_true_is_false. intro Hs. apply not_true_iff_false in H. apply H.
  unfold any_in in *. apply existsb_exists in Hs. destruct Hs as [k [Hk Hc]].
  apply existsb_exists. exists k. split; [exact Hk|].
  destruct (strip_substring line) as [p [q E]]. rewrite E at 1.
  rewrite !lower_app. apply contains_in_longer_text. exact Hc.
Qed.

Lemma section_lines_kept (headings closings : list string) (text : string)
    (lines : list string) :
  incl lines (split_lines text) ->
  forall in_section,
    Forall (kept_line headings closings text)
           (section_lines headings closings in_section lines).
Proof.
  induction lines as [|line lines IH]; intros Hincl in_section; cbn [section_lines];
    [constructor|].
  assert (Hrest : incl lines (split_lines text)) by (intros x Hx; apply Hincl; right; exact Hx).
  destruct (any_in headings (PyStr.lower line)) eqn:Hh; [apply IH; exact Hrest|].
  destruct in_section; cbn [andb]; [| apply IH; exact Hrest].
  destruct (any_in closings (PyStr.lower line)) eqn:Hc; [constructor|].
  destruct (PyStr.is_empty (PyStr.strip line)) eqn:He; cbn [negb];
    [apply IH; exact Hrest|].
  constructor; [| apply IH; exact Hrest].
  repeat split.
  - intro E. rewrite E in He. discriminate.
  - apply any_in_stripped. exact Hh.
  - apply any_in_stripped. exact Hc.
  - exists line. split; [apply Hincl; left; reflexivity | reflexivity].
Qed.

Lemma section_lines_without_heading (headings closings : list string)
    (lines : list string) :
  Forall (fun line => any_in headings (PyStr.lower line) = false) lines ->
  section_lines headings closings false lines = [].
Proof.
  induction 1 as [|line lines Hline _ IH]; cbn [section_lines]; [reflexivity|].
  rewrite Hline. cbn [andb]. exact IH.
Qed.

Lemma join_kept_not_empty (sep : string) (P : string -> Prop) (l : list string) :
  l <> [] -> Forall (fun x => x <> EmptyString /\ P x) l -> join sep l <> EmptyString.
Proof.
  intros Hne Hall.
  destruct (join_not_empty sep l Hne) as [b [cs E]]; [| rewrite E; discriminate].
  apply (Forall_impl _ (P := fun x => x <> EmptyString /\ P x)); [| exact Hall].
  intros x [Hx _]. exact Hx.
Qed.

Lemma section_text_shape (headings closings : list string) (placeholder text : string) :
  let kept := section_lines headings closings false (split_lines text) in
  let result := if is_nil kept then placeholder
                else join (String newline EmptyString) kept in
  placeholder <> EmptyString ->
  (no_heading headings text -> result = placeholder)
  /\ (result = placeholder
      \/ exists lines, lines <> []
                       /\ result = join (String newline EmptyString) lines
                       /\ Forall (kept_line headings closings text) lines)
  /\ result <> EmptyString.
Proof.
  intros kept result Hp.
  pose proof (section_lines_kept headings closings text (split_lines text)
                (incl_refl _) false) as Hkept.
  fold kept in Hkept. subst result.
  split; [| split].
  - intro Hno. unfold kept.
    rewrite (section_lines_without_heading headings closings _ Hno). reflexivity.
  - destruct kept as [|l kept'] eqn:E; [left; reflexivity|].
    right. exists (l :: kept'). split; [discriminate | split; [reflexivity | exact Hkept]].
  - destruct kept as [|l kept'] eqn:E; [exact Hp|]. cbn [is_nil].
    apply (join_kept_not_empty _
             (fun x => any_in headings (PyStr.lower x) = false
                       /\ any_in closings (PyStr.lower x) = false
                       /\ exists line, In line (split_lines text) /\ x = PyStr.strip line));
      [discriminate | exact Hkept].
Qed.

(** X21. The section extractors.  extract_experience and
    extract_education never return the empty string: the result is the
    placeholder, which it always is when no line of the text holds a
    heading keyword, or non-blank lines of the text, stripped and joined
    by newlines, none of which holds a heading or a closing keyword of
    the section.  extract_interests returns such lines as a list, the
    empty list without a heading. *)
Theorem section_extractors_shape (text : string) :
  ((no_heading experience_headings text ->
    extract_experience text = "No experience information found"%string)
   /\ (extract_experience text = "No experience information found"%string
       \/ exists lines,
            lines <> []
            /\ extract_experience text = join (String newline EmptyString) lines
            /\ Forall (kept_line experience_headings experience_closings text) lines)
   /\ extract_experience text <> EmptyString)
  /\ ((no_heading education_headings text ->
       extract_education text = "No education information found"%string)
      /\ (extract_education text = "No education information found"%string
          \/ exists lines,
               lines <> []
               /\ extract_education text = join (String newline EmptyString) lines
               /\ Forall (kept_line education_headings education_closings text) lines)
      /\ extract_education text <> EmptyString)
  /\ ((no_heading interests_headings text -> extract_interests text = [])
      /\ Forall (kept_line interests_headings interests_closings text)
                (extract_interests text)).
Proof.
  split; [| split].
  - apply (section_text_shape experience_headings experience_closings
             "No experience information found" text). discriminate.
  - apply (section_text_shape education_headings education_closings
             "No education information found" text). discriminate.
  - unfold extract_interests.
    pose proof (section_lines_kept interests_headings interests_closings text
                  (split_lines text) (incl_refl _) false) as Hkept.
    split.
    + intro Hno.
      rewrite (section_lines_without_heading interests_headings interests_closings _ Hno).
      reflexivity.
    + destruct (section_lines interests_headings interests_closings false
                  (split_lines text)); [constructor | exact Hkept].
Qed.

Lemma section_extractors_shape_witness :
  extract_experience "Jane Doe" = "No experience information found"%string
  /\ extract_education "Jane Doe" = "No education information found"%string
  /\ extract_interests "Jane Doe" = [].
Proof.
  destruct (section_extractors_shape "Jane Doe") as [[H1 _] [[H2 _] [H3 _]]].
  split; [| split]; [apply H1 | apply H2 | apply H3];
    repeat constructor.
Defined.

(** * Properties of the request handlers *)

Lemma rank_candidates_ok_inv loads (cs : list Candidate) (j : Job)
    (ranked : list (Candidate * R)) :
  rank_candidates loads cs j = Ok ranked ->
  Permutation (map fst ranked) cs /\ length ranked = length cs.
Proof.
  unfold rank_candidates. intro H. apply bind_ok in H. destruct H as [scored [Hs H]].
  injection H as <-. destruct (score_all_spec loads cs j scored Hs) as [Hfst _].
  pose proof (sort_desc_perm scored) as Hperm. split.
  - rewrite <- Hfst. apply Permutation_map. exact Hperm.
  - rewrite (Permutation_length Hperm), <- Hfst. symmetry. apply length_map.
Qed.



Lemma strong_candidate_ranked :
  exists ranked, rank_candidates Json.loads [cand_strong] job_ranking = Ok ranked.
Proof.
  apply (rank_candidates_returns Json.loads [cand_strong] job_ranking).
  - right. right. exists [("openness", JNum 0.8)]. split.
    + apply decodes_to_intro; [reflexivity | apply loads_openness_08].
    + apply (trait_mapping_const ["openness"] 0.8).
  - constructor; [| constructor]. split.
    + right. right. exists [("openness", JNum 0.8)]. split.
      * apply decodes_to_intro; [reflexivity | apply loads_openness_08].
      * apply (trait_mapping_const ["openness"] 0.8).
    + left. left. reflexivity.
Qed.


(** * Case *)

Lemma is_space_lower (c : ascii) : PyStr.is_space (PyStr.lower_char c) = PyStr.is_space c.
Proof.
  destruct c as [[] [] [] [] [] [] [] []]; reflexivity.
Qed.

Lemma comma_lower (c : ascii) :
  Ascii.eqb ","%char (PyStr.lower_char c) = Ascii.eqb ","%char c.
Proof.
  destruct c as [[] [] [] [] [] [] [] []]; reflexivity.
Qed.

Lemma split_by_lower (sep : ascii -> bool) (s : string) :
  (forall c, sep (PyStr.lower_char c) = sep c) ->
  PyStr.split_by sep (PyStr.lower s) = map PyStr.lower (PyStr.split_by sep s).
Proof.
  intro Hsep. induction s as [|c s IH]; [reflexivity|].
  cbn [PyStr.lower PyStr.split_by]. rewrite Hsep, IH.
  destruct (sep c); [reflexivity|].
  destruct (PyStr.split_by sep s); reflexivity.
Qed.

Lemma lstrip_lower (s : string) : PyStr.lstrip (PyStr.lower s) = PyStr.lower (PyStr.lstrip s).
Proof.
  induction s as [|c s IH]; [reflexivity|].
  cbn [PyStr.lower PyStr.lstrip]. rewrite is_space_lower.
  destruct (PyStr.is_space c); [exact IH | reflexivity].
Qed.

Lemma is_empty_lower (s : string) : PyStr.is_empty (PyStr.lower s) = PyStr.is_empty s.
Proof. destruct s; reflexivity. Qed.

Lemma rstrip_lower (s : string) : PyStr.rstrip (PyStr.lower s) = PyStr.lower (PyStr.rstrip s).
Proof.
  induction s as [|c s IH]; [reflexivity|].
  cbn [PyStr.lower PyStr.rstrip]. rewrite is_space_lower, IH, is_empty_lower.
  destruct (PyStr.is_space c && PyStr.is_empty (PyStr.rstrip s)); reflexivity.
Qed.

Lemma strip_lower (s : string) : PyStr.strip (PyStr.lower s) = PyStr.lower (PyStr.strip s).
Proof. unfold PyStr.strip. rewrite lstrip_lower, rstrip_lower. reflexivity. Qed.

(** The normalized tokens of a field are a function of the lowercased
    field. *)
Lemma normalized_tokens_lower (s : string) :
  map normalize (PyStr.split_comma s)
  = map PyStr.strip (PyStr.split_comma (PyStr.lower s)).
Proof.
  unfold PyStr.split_comma. rewrite (split_by_lower _ s comma_lower), map_map.
  apply map_ext. intro t. unfold normalize. symmetry. apply strip_lower.
Qed.

Lemma same_case_tokens (a b : string) :
  PyStr.lower a = PyStr.lower b ->
  map normalize (PyStr.split_comma a) = map normalize (PyStr.split_comma b).
Proof. intro H. rewrite !normalized_tokens_lower, H. reflexivity. Qed.

Lemma same_case_cases (a b : option string) :
  same_up_to_case a b ->
  (a = None /\ b = None)
  \/ (a = Some EmptyString /\ b = Some EmptyString)
  \/ exists x s y t, a = Some (String x s) /\ b = Some (String y t)
                     /\ PyStr.lower (String x s) = PyStr.lower (String y t).
Proof.
  unfold same_up_to_case. destruct a as [[|x s]|], b as [[|y t]|]; cbn [option_map];
    intro H; try discriminate; auto.
  right. right. exists x, s, y, t. injection H as H1 H2.
  repeat split. cbn [PyStr.lower]. now rewrite H1, H2.
Qed.

(** X24. The four keyword factors ignore case: changing the case of
    letters in the job's field or in the candidate's field changes no
    score. *)
Theorem keyword_factors_ignore_case (c c' : Candidate) (j j' : Job) :
  (same_up_to_case (required_skills j) (required_skills j') ->
   same_up_to_case (skills c) (skills c') ->
   _calculate_skill_score c j = _calculate_skill_score c' j')
  /\ (same_up_to_case (required_experience j) (required_experience j') ->
      same_up_to_case (experience c) (experience c') ->
      _calculate_experience_score c j = _calculate_experience_score c' j')
  /\ (same_up_to_case (required_education j) (required_education j') ->
      same_up_to_case (education c) (education c') ->
      _calculate_education_score c j = _calculate_education_score c' j')
  /\ (same_up_to_case (required_certifications j) (required_certifications j') ->
      same_up_to_case (certifications c) (certifications c') ->
      _calculate_certification_score c j = _calculate_certification_score c' j').
Proof.
  unfold _calculate_skill_score, _calculate_experience_score,
    _calculate_education_score, _calculate_certification_score.
  repeat split; intros Hj Hc;
    destruct (same_case_cases _ _ Hj)
      as [[-> ->] | [[-> ->] | [x [s [y [t [-> [-> Ej]]]]]]]]; try reflexivity;
    destruct (same_case_cases _ _ Hc)
      as [[-> ->] | [[-> ->] | [x' [s' [y' [t' [-> [-> Ec]]]]]]]]; try reflexivity;
    cbn [truthy PyStr.is_empty negb orb as_str bind];
    rewrite ?(same_case_tokens _ _ Ej), ?(same_case_tokens _ _ Ec), ?Ej, ?Ec;
    reflexivity.
Qed.

Lemma keyword_factors_ignore_case_witness :
  _calculate_skill_score cand_verbatim job_full
  = _calculate_skill_score (with_skills "PYTHON, sql" cand_verbatim) job_full.
Proof.
  apply (proj1 (keyword_factors_ignore_case cand_verbatim
                  (with_skills "PYTHON, sql" cand_verbatim) job_full job_full));
    reflexivity.
Defined.
